(** * x-thread-dl: the thread archival pipeline

    A shallow embedding of [scraper.py] (class [Scraper]) and
    [video_downloader.py], and the properties of the variant selector, the
    remote fetch client and the persistence walk.

    Python values are embedded as JSON trees ([json]); every Python operation
    that can raise on a value of the wrong shape returns a [result], so the
    duck typing of the source stays visible.  The blocking backend, the
    operating system and the media engine are parameters ([backend],
    [platform]); what the code does to them is recorded in a [world].

    The calls dispatched to an executor and awaited are embedded as plain
    sequential calls.  The log lines of [extract_video_url] are left out, but
    not the evaluation of their arguments, which can raise. *)

From Stdlib Require Import ZArith Lia String Ascii List Permutation.
From stdpp Require Import gmap strings list.
Import ListNotations.
Open Scope string_scope.
Open Scope list_scope.
Open Scope Z_scope.

(** ** Python values *)

(** The records delivered by the scraping backend are JSON: [None], booleans,
    integers, strings, lists and dictionaries with string keys (kept in
    insertion order).  Floating-point numbers are not modelled. *)
#[local] Set Warnings "-register-all".
Inductive json : Type :=
| JNull
| JBool (b : bool)
| JInt (z : Z)
| JStr (s : string)
| JList (l : list json)
| JDict (d : list (string * json)).

(** ** Exceptions ([exceptions.py]) *)

(** Built-in exceptions that the modelled operations can raise. *)
Inductive pyerr : Type := TypeError | AttributeError | KeyError | OSError.

(** One constructor per [raise ValidationError(...)] site. *)
Inductive validation_reason : Type :=
| EmptyUrl                      (* "URL must be a non-empty string" *)
| FormatUrlFailed               (* "Error formatting URL ..." *)
| NoTweetId (url : string)      (* "Could not extract tweet ID from URL: ..." *)
| BadLimit (limit : Z)          (* "Reply limit must be positive, got: ..." *)
| NoData                        (* "No data provided to save" *)
| NoFilePath                    (* "No file path provided" *)
| BadVideoUrl                   (* "Video URL must be a non-empty string" *)
| BadVideoId                    (* "Video ID must be a non-empty string" *)
| BadOutputDir                  (* "Output directory must be a non-empty string" *)
| NoParsedData                  (* "No parsed data provided to save" *)
| ParsedDataNotDict.            (* "Parsed data must be a dictionary" *)

(** One constructor per [raise ScrapingError(...)] site. *)
Inductive scraping_reason : Type :=
| InvalidTweetData              (* "Invalid tweet data provided for video extraction" *)
| UnexpectedExtract (cause : pyerr)
| ActorFailed (url : string)
| DatasetFailed (url : string)
| NoTweetData (url : string)
| UnexpectedFetch (url : string) (cause : pyerr)
| RepliesActorFailed (url : string)
| RepliesDatasetFailed (url : string)
| UnexpectedReplies (url : string) (cause : pyerr).

(** One constructor per [raise VideoDownloadError(...)] site. *)
Inductive download_reason : Type :=
| MkdirFailed (dir_path : string)
| SaveJsonFailed (file_path : string)
| EngineFailed (video_url : string)
| PartialFile (part_file : string)
| NotFoundOrEmpty (output_path : string)
| NoFormatsFound (video_url : string)
| UnexpectedDownload (cause : pyerr)
| UnexpectedSave (cause : pyerr).

(** The classes of [exceptions.py] that the two modules raise, and the
    built-in ones. *)
Inductive exn : Type :=
| Builtin (e : pyerr)
| ValidationError (r : validation_reason)
| ScrapingError (r : scraping_reason)
| VideoDownloadError (r : download_reason).

(** ** Results of code that may raise *)

Inductive result (A : Type) : Type :=
| Ok (a : A)
| Raise (e : exn).
Arguments Ok {A} a.
Arguments Raise {A} e.

#[global] Instance result_ret : MRet result := fun A a => Ok a.
#[global] Instance result_bind : MBind result := fun A B f r =>
  match r with
  | Ok a => f a
  | Raise e => Raise e
  end.
#[global] Instance result_fmap : FMap result := fun A B f r =>
  match r with
  | Ok a => Ok (f a)
  | Raise e => Raise e
  end.

(** ** Python operations on values *)

Module Py.

(** [bool(x)]. *)
Definition truthy (x : json) : bool :=
  match x with
  | JNull => false
  | JBool b => b
  | JInt z => negb (z =? 0)
  | JStr s => negb (String.eqb s "")
  | JList l => match l with [] => false | _ => true end
  | JDict d => match d with [] => false | _ => true end
  end.

(** [isinstance(x, dict)] and [isinstance(x, str)]. *)
Definition is_dict (x : json) : bool :=
  match x with JDict _ => true | _ => false end.

Definition is_str (x : json) : bool :=
  match x with JStr _ => true | _ => false end.

(** Dictionary lookup by key. *)
Fixpoint assoc (k : string) (d : list (string * json)) : option json :=
  match d with
  | [] => None
  | (k', v) :: d' => if String.eqb k k' then Some v else assoc k d'
  end.

(** [d[k] = v] on a dictionary: an existing key keeps its position. *)
Fixpoint assoc_set (k : string) (v : json) (d : list (string * json))
  : list (string * json) :=
  match d with
  | [] => [(k, v)]
  | (k', v') :: d' =>
      if String.eqb k k' then (k', v) :: d' else (k', v') :: assoc_set k v d'
  end.

(** [k in s] for strings: [k] occurs in [s]. *)
Fixpoint is_substring (k s : string) : bool :=
  String.prefix k s ||
  match s with
  | EmptyString => false
  | String _ s' => is_substring k s'
  end.

(** [x == k] for a string [k]. *)
Definition eq_str (x : json) (k : string) : bool :=
  match x with JStr s => String.eqb s k | _ => false end.

(** [k in x]. *)
Definition contains (k : string) (x : json) : result bool :=
  match x with
  | JDict d => Ok (bool_decide (is_Some (assoc k d)))
  | JList l => Ok (existsb (fun y => eq_str y k) l)
  | JStr s => Ok (is_substring k s)
  | _ => Raise (Builtin TypeError)
  end.

(** [x[k]] with a string key. *)
Definition getitem (x : json) (k : string) : result json :=
  match x with
  | JDict d =>
      match assoc k d with
      | Some v => Ok v
      | None => Raise (Builtin KeyError)
      end
  | _ => Raise (Builtin TypeError)
  end.

(** [x.get(k, default)]: only dictionaries have the method. *)
Definition get (x : json) (k : string) (default : json) : result json :=
  match x with
  | JDict d => Ok (from_option id default (assoc k d))
  | _ => Raise (Builtin AttributeError)
  end.

(** [len(x)]. *)
Definition len (x : json) : result nat :=
  match x with
  | JList l => Ok (List.length l)
  | JDict d => Ok (List.length d)
  | JStr s => Ok (String.length s)
  | _ => Raise (Builtin TypeError)
  end.

(** The elements [for v in x] visits: list items, dictionary keys, the
    characters of a string. *)
Definition iter (x : json) : result (list json) :=
  match x with
  | JList l => Ok l
  | JDict d => Ok (map (fun kv => JStr (fst kv)) d)
  | JStr s => Ok (map (fun c => JStr (String c EmptyString)) (list_ascii_of_string s))
  | _ => Raise (Builtin TypeError)
  end.

(** *** [list.sort(key=..., reverse=True)] *)

(** Stable insertion in descending key order: [x], which came before every
    element of [l] in the original list, goes in front of the first element
    whose key is not greater than its own. *)
Fixpoint insert_desc {K A} (ltb : K -> K -> bool) (x : K * A) (l : list (K * A))
  : list (K * A) :=
  match l with
  | [] => [x]
  | y :: l' => if ltb (fst x) (fst y) then y :: insert_desc ltb x l' else x :: l
  end.

Definition sort_desc {K A} (ltb : K -> K -> bool) (l : list (K * A)) : list (K * A) :=
  foldr (insert_desc ltb) [] l.

(** How Python orders sort keys: numbers (booleans are the integers 0 and 1)
    among themselves, strings among themselves.  Comparing anything with
    [None] or a dictionary, or a number with a string, raises [TypeError];
    list-valued keys are put in that class too. *)
Inductive sort_key : Type :=
| KNum (z : Z)
| KStr (s : string)
| KOther.

Definition classify (k : json) : sort_key :=
  match k with
  | JInt z => KNum z
  | JBool b => KNum (if b then 1 else 0)
  | JStr s => KStr s
  | _ => KOther
  end.

Definition num_keys (ks : list sort_key) : option (list Z) :=
  mapM (fun k => match k with KNum z => Some z | _ => None end) ks.

Definition str_keys (ks : list sort_key) : option (list string) :=
  mapM (fun k => match k with KStr s => Some s | _ => None end) ks.

(** [l.sort(key=lambda x: keyf x, reverse=True)] given the computed keys.  A
    list of fewer than two elements is never compared.  Otherwise every
    element takes part in a comparison, so the sort succeeds exactly when all
    keys are numbers or all are strings. *)
Definition sort_by_keys (ks : list json) (l : list json) : result (list json) :=
  match l with
  | [] | [_] => Ok l
  | _ =>
      let cs := map classify ks in
      match num_keys cs, str_keys cs with
      | Some zs, _ => Ok (map snd (sort_desc Z.ltb (combine zs l)))
      | None, Some ss => Ok (map snd (sort_desc String.ltb (combine ss l)))
      | None, None => Raise (Builtin TypeError)
      end
  end.

(** Evaluate [f] on every element in order, stopping at the first raise. *)
Fixpoint for_each {A B} (f : A -> result B) (l : list A) : result (list B) :=
  match l with
  | [] => Ok []
  | x :: l' => y ← f x; ys ← for_each f l'; Ok (y :: ys)
  end.

(** [[v for v in l if p v]]. *)
Fixpoint comprehension {A} (p : A -> result bool) (l : list A) : result (list A) :=
  match l with
  | [] => Ok []
  | x :: l' =>
      b ← p x; r ← comprehension p l';
      Ok (if b : bool then x :: r else r)
  end.

End Py.

(** ** The variant selector ([Scraper.extract_video_url]) *)

Module Selector.
Import Py.

(** The key of both sorts: [lambda x: x.get('bitrate', 0)]. *)
Definition bitrate_key (x : json) : result json := get x "bitrate" (JInt 0).

(** [l.sort(key=lambda x: x.get('bitrate', 0), reverse=True)]: the keys are
    computed first, then the list is sorted. *)
Definition sort_by_bitrate (l : list json) : result (list json) :=
  ks ← for_each bitrate_key l; sort_by_keys ks l.

(** [variants.sort(...)] on whatever [variants] is bound to: only lists
    have the method. *)
Definition sort_in_place (variants : json) : result (list json) :=
  match variants with
  | JList l => sort_by_bitrate l
  | _ => Raise (Builtin AttributeError)
  end.

(** [best_variant = l[0]], then the f-string of the log line, then
    [return best_variant.get(ukey)]. *)
Definition return_best (ukey : string) (sorted : list json) : result json :=
  match sorted with
  | [] => Raise (Builtin KeyError)
  | best :: _ => _ ← get best "bitrate" (JStr "unknown"); get best ukey JNull
  end.

(** [[v for v in variants if v.get(tkey) == 'video/mp4']]. *)
Definition mp4_variants (tkey : string) (vs : list json) : result (list json) :=
  comprehension (fun v => t ← get v tkey JNull; Ok (eq_str t "video/mp4")) vs.

(** Lines 246-266 and, with the other key names, lines 274-294: the work
    done on one [variants] object.  [None] means that no [return] was
    reached; [Some (url, variants')] is the returned value with the state in
    which [variants] is left (the MP4 sort works on a fresh list, the
    fallback sort on [variants] itself). *)
Definition select_best (tkey ukey : string) (variants : json)
  : result (option (json * json)) :=
  _ ← len variants;
  vs ← iter variants;
  _ ← for_each (fun v => _ ← get v tkey JNull; get v "bitrate" JNull) vs;
  mp4 ← mp4_variants tkey vs;
  match mp4 with
  | _ :: _ =>
      sorted ← sort_by_bitrate mp4;
      url ← return_best ukey sorted;
      Ok (Some (url, variants))
  | [] =>
      if truthy variants then
        sorted ← sort_in_place variants;
        url ← return_best ukey sorted;
        Ok (Some (url, JList sorted))
      else Ok None
  end.

(** [x[k] = v] where [x] is a dictionary. *)
Definition dict_set (k : string) (v : json) (x : json) : json :=
  match x with
  | JDict d => JDict (assoc_set k v d)
  | _ => x
  end.

(** Line 243: ['video' in tweet_data and tweet_data['video'] and
    'variants' in tweet_data['video']]. *)
Definition primary_guard (tweet_data : json) : result bool :=
  has ← contains "video" tweet_data;
  if has : bool then
    video ← getitem tweet_data "video";
    if truthy video then contains "variants" video else Ok false
  else Ok false.

(** Lines 243-266: the primary shape. *)
Definition probe_primary (tweet_data : json) : result (option (json * json)) :=
  guard ← primary_guard tweet_data;
  if guard : bool then
    video ← getitem tweet_data "video";
    variants ← getitem video "variants";
    sel ← select_best "type" "src" variants;
    Ok (option_map (prod_map id (fun vs' => dict_set "video" (dict_set "variants" vs' video) tweet_data)) sel)
  else Ok None.

(** Line 271: [media.get('type') == 'video' and 'video_info' in media and
    'variants' in media['video_info']]. *)
Definition media_guard (media : json) : result bool :=
  t ← get media "type" JNull;
  if eq_str t "video" then
    has ← contains "video_info" media;
    if has : bool then
      video_info ← getitem media "video_info";
      contains "variants" video_info
    else Ok false
  else Ok false.

(** Lines 270-294: the loop over [tweet_data['mediaDetails']].  The result
    carries the media list as the loop leaves it. *)
Fixpoint probe_media (medias : list json) : result (option (json * list json)) :=
  match medias with
  | [] => Ok None
  | media :: rest =>
      guard ← media_guard media;
      hit ← (if guard : bool then
               video_info ← getitem media "video_info";
               variants ← getitem video_info "variants";
               sel ← select_best "content_type" "url" variants;
               Ok (option_map
                     (prod_map id (fun vs' =>
                        dict_set "video_info" (dict_set "variants" vs' video_info) media))
                     sel)
             else Ok None);
      match hit with
      | Some (url, media') => Ok (Some (url, media' :: rest))
      | None =>
          r ← probe_media rest;
          Ok (option_map (prod_map id (cons media)) r)
      end
  end.

(** Lines 269-294: the secondary shape. *)
Definition probe_media_details (tweet_data : json) : result (option (json * json)) :=
  has ← contains "mediaDetails" tweet_data;
  if has : bool then
    details ← getitem tweet_data "mediaDetails";
    medias ← iter details;
    r ← probe_media medias;
    Ok (option_map (prod_map id (fun ms' => dict_set "mediaDetails" (JList ms') tweet_data)) r)
  else Ok None.

(** The [except] clauses of lines 298-302: a [ScrapingError] passes, anything
    else becomes one. *)
Definition wrap_scraping {A} (r : result A) : result A :=
  match r with
  | Ok a => Ok a
  | Raise (ScrapingError m) => Raise (ScrapingError m)
  | Raise (Builtin e) => Raise (ScrapingError (UnexpectedExtract e))
  | Raise _ => Raise (ScrapingError (UnexpectedExtract TypeError))
  end.

(** [extract_video_url(tweet_data)]: the returned value ([JNull] is [None])
    together with [tweet_data] as the call leaves it.  When the call raises,
    the state of the record is not described (a sort that raises midway
    leaves its list in some order). *)
Definition extract_video_url (tweet_data : json) : result (json * json) :=
  wrap_scraping
    (if negb (truthy tweet_data) || negb (is_dict tweet_data) then
       Raise (ScrapingError InvalidTweetData)
     else
       r ← probe_primary tweet_data;
       match r with
       | Some x => Ok x
       | None =>
           r' ← probe_media_details tweet_data;
           match r' with
           | Some x => Ok x
           | None => Ok (JNull, tweet_data)
           end
       end).

End Selector.

(** ** The world outside the process *)

Inductive level : Type := DEBUG | INFO | WARNING | ERROR.

(** One constructor per logging call of the two modules whose text the
    properties below depend on, with the interpolated values. *)
Inductive log_msg : Type :=
| FetchingTweet (url : string)
| UsingFormattedUrl (formatted_url : string)
| NoTweetIdFound (url : string)
| FetchedTweet (url : string)
| FetchingReplies (limit : Z) (url : string)
| UsingFormattedUrlReplies (formatted_url : string)
| NoReplyData (url : string)
| FetchedReplies (n : nat) (url : string)
| ReplyKeys (i : nat) (keys : list string)
| ReplyStructure (reply : json)
| CreatedDirectory (dir_path : string)
| SavedJson (file_path : string)
| ListingFormats (video_url : string)
| FoundFormats (n : nat)
| FormatLine (fmt : json)
| AvailableFormats (video_id : string)
| CouldNotListFormats (e : exn)
| DownloadingVideo (video_url output_path : string)
| SelectedFormat (video_id : string) (format : json)
| VideoResolution (height : json)
| TotalBitrate (tbr : json)
| CouldNotExtractInfo (e : exn)
| DownloadedVideo (output_path : string) (size : Z)
| FailedThreadVideo (e : exn)
| SkippingReply (reply_info : json)
| FailedReplyText (e : exn)
| FailedReplyVideo (e : exn)
| FinishedThread (user_screen_name thread_id : json) (n : nat).

(** The input dictionaries handed to the two Apify actors. *)
Inductive run_input : Type :=
| TweetInput (start_url : string)                (* tweetsDesired 1, addUserInfo, proxy *)
| RepliesInput (post_url : string) (results_limit : Z).

(** Calls that leave the process. *)
Inductive call : Type :=
| ActorCall (actor_id : string) (input : run_input)
| DatasetCall (dataset_id : json)
| Makedirs (dir_path : string)
| WriteJson (file_path : string) (data : json)
| ExtractInfo (video_url : string) (listformats : bool)
| Download (video_url output_path : string).

(** What the process has done so far: the files that exist with the size
    [os.path.getsize] reports for them, the log lines in order and the
    outside calls in order. *)
Record world : Type := World {
  fs : gmap string Z;
  log : list (level * log_msg);
  calls : list call
}.

(** [config.py] is not part of the modelled sources: its constants are
    parameters. *)
Record config : Type := Config {
  TWITTER_SCRAPER_ACTOR_ID : string;
  TWITTER_REPLIES_SCRAPER_ACTOR_ID : string;
  DEFAULT_REPLY_LIMIT : Z;
  DEFAULT_OUTPUT_DIR : string
}.

(** The scraping backend behind [ApifyClient]: running an actor gives the
    run record or raises; reading a dataset gives its [items] or raises. *)
Record backend : Type := Backend {
  actor_call : string -> run_input -> result json;
  dataset_items : json -> result json
}.

(** The operating system and the media engine (yt-dlp).  [os_makedirs] and
    [write_json] ([open(path, 'w')] followed by [json.dump]) either raise or
    not and leave a file system; [ydl_download] does the same for
    [YoutubeDL.download]; [ydl_extract_info] answers or raises. *)
Record platform : Type := Platform {
  os_makedirs : string -> gmap string Z -> bool * gmap string Z;
  write_json : string -> json -> gmap string Z -> bool * gmap string Z;
  ydl_extract_info : string -> bool -> result json;
  ydl_download : string -> string -> gmap string Z -> bool * gmap string Z
}.

(** ** Code that logs, calls out and may raise *)

Definition M (A : Type) : Type := world -> result A * world.

#[global] Instance M_ret : MRet M := fun A a w => (Ok a, w).
#[global] Instance M_bind : MBind M := fun A B f m w =>
  match m w with
  | (Ok a, w') => f a w'
  | (Raise e, w') => (Raise e, w')
  end.

Definition raise {A} (e : exn) : M A := fun w => (Raise e, w).

(** A pure computation that may raise, run inside [M]. *)
Definition lift {A} (r : result A) : M A := fun w => (r, w).

(** [logger.<lvl>(msg)]. *)
Definition logger (lvl : level) (msg : log_msg) : M unit := fun w =>
  (Ok tt, World (fs w) (log w ++ [(lvl, msg)]) (calls w)).

Definition record (c : call) : M unit := fun w =>
  (Ok tt, World (fs w) (log w) (calls w ++ [c])).

Definition get_fs : M (gmap string Z) := fun w => (Ok (fs w), w).

Definition set_fs (f : gmap string Z) : M unit := fun w =>
  (Ok tt, World f (log w) (calls w)).

(** [try: m except ...: handler]: [handler e] is [None] when no clause
    matches [e], which then propagates. *)
Definition try_except {A} (m : M A) (handler : exn -> option (M A)) : M A := fun w =>
  match m w with
  | (Ok a, w') => (Ok a, w')
  | (Raise e, w') =>
      match handler e with
      | Some k => k w'
      | None => (Raise e, w')
      end
  end.

(** [os.path.exists] and [os.path.getsize]. *)
Definition path_exists (p : string) : M bool := fun w =>
  (Ok (bool_decide (is_Some (fs w !! p))), w).

Definition getsize (p : string) : M Z := fun w =>
  match fs w !! p with
  | Some n => (Ok n, w)
  | None => (Raise (Builtin OSError), w)
  end.

(** ** The remote fetch client ([Scraper.fetch_tweet], [fetch_tweet_replies]) *)

Module Scraper.
Import Py.

(** *** The URL pattern [(?:twitter\.com|x\.com)/\w+/status/(\d+)]

    Strings are byte strings here, so [\w] and [\d] are the ASCII classes;
    letters and digits outside ASCII, which Python's [re] also accepts, are
    not matched. *)

Definition is_digit (c : ascii) : bool :=
  let n := nat_of_ascii c in ((48 <=? n) && (n <=? 57))%nat.

Definition is_word (c : ascii) : bool :=
  let n := nat_of_ascii c in
  (is_digit c || ((65 <=? n) && (n <=? 90)) || ((97 <=? n) && (n <=? 122)) || (n =? 95))%nat.

(** The longest prefix of [s] made of characters satisfying [p], and the
    rest. *)
Fixpoint span (p : ascii -> bool) (s : string) : string * string :=
  match s with
  | EmptyString => (EmptyString, EmptyString)
  | String c s' =>
      if p c then let '(a, b) := span p s' in (String c a, b)
      else (EmptyString, s)
  end.

(** [s] without the prefix [p], when it has it. *)
Fixpoint strip_prefix (p s : string) : option string :=
  match p, s with
  | EmptyString, _ => Some s
  | String a p', String b s' => if Ascii.eqb a b then strip_prefix p' s' else None
  | String _ _, EmptyString => None
  end.

(** The pattern matched at the start of [s]: group 1 on success.  Both
    repetitions are greedy and are followed by a character outside their
    class, so there is nothing to backtrack over. *)
Definition match_here (s : string) : option string :=
  r0 ← match strip_prefix "twitter.com" s with
       | Some r => Some r
       | None => strip_prefix "x.com" s
       end;
  r1 ← strip_prefix "/" r0;
  let '(user, r2) := span is_word r1 in
  if String.eqb user "" then None
  else
    r3 ← strip_prefix "/status/" r2;
    let '(digits, _) := span is_digit r3 in
    if String.eqb digits "" then None else Some digits.

(** [re.search(pattern, s)]: the leftmost match. *)
Fixpoint re_search (s : string) : option string :=
  match match_here s with
  | Some d => Some d
  | None =>
      match s with
      | EmptyString => None
      | String _ s' => re_search s'
      end
  end.

(** [_extract_tweet_id(url)]. *)
Definition _extract_tweet_id (url : string) : M (option string) :=
  if String.eqb url "" then raise (ValidationError EmptyUrl)
  else
    match re_search url with
    | Some tweet_id => mret (Some tweet_id)
    | None => _ ← logger DEBUG (NoTweetIdFound url); mret None
    end.

(** [_format_url(url)]: its single [except Exception] clause also rewraps
    the [ValidationError] raised inside. *)
Definition _format_url (url : string) : M string :=
  if String.eqb url "" then raise (ValidationError FormatUrlFailed)
  else if String.prefix "http" url then mret url
  else mret ("https://" +:+ url).

(** [dataset_items[0]]. *)
Definition first_item (items : json) : result json :=
  match items with
  | JList (x :: _) => Ok x
  | JList [] => Raise (Builtin KeyError)
  | JStr (String c _) => Ok (JStr (String c EmptyString))
  | JStr EmptyString => Raise (Builtin KeyError)
  | JDict _ => Raise (Builtin KeyError)
  | _ => Raise (Builtin TypeError)
  end.

Section WithBackend.
Variable cfg : config.
Variable B : backend.

(** [client.actor(actor_id).call(run_input=input_data)] inside its [try]:
    any exception becomes the given [ScrapingError]. *)
Definition call_actor (actor_id : string) (input : run_input) (why : scraping_reason)
  : M json :=
  _ ← record (ActorCall actor_id input);
  match actor_call B actor_id input with
  | Ok run => mret run
  | Raise _ => raise (ScrapingError why)
  end.

(** [client.dataset(run["defaultDatasetId"]).list_items().items] inside its
    [try]. *)
Definition fetch_items (run : json) (why : scraping_reason) : M json :=
  match getitem run "defaultDatasetId" with
  | Ok dataset_id =>
      _ ← record (DatasetCall dataset_id);
      match dataset_items B dataset_id with
      | Ok items => mret items
      | Raise _ => raise (ScrapingError why)
      end
  | Raise _ => raise (ScrapingError why)
  end.

(** The two [except] clauses that close [fetch_tweet] and
    [fetch_tweet_replies]. *)
Definition reraise_or_wrap {A} (wrap : pyerr -> scraping_reason) (m : M A) : M A :=
  try_except m (fun e =>
    match e with
    | Builtin b => Some (raise (ScrapingError (wrap b)))
    | VideoDownloadError _ => Some (raise (ScrapingError (wrap TypeError)))
    | ValidationError _ | ScrapingError _ => None
    end).

(** [fetch_tweet(url)]. *)
Definition fetch_tweet (url : string) : M json :=
  reraise_or_wrap (UnexpectedFetch url)
    (_ ← logger INFO (FetchingTweet url);
     tweet_id ← _extract_tweet_id url;
     match tweet_id with
     | None => raise (ValidationError (NoTweetId url))
     | Some _ =>
         formatted_url ← _format_url url;
         _ ← logger INFO (UsingFormattedUrl formatted_url);
         run ← call_actor (TWITTER_SCRAPER_ACTOR_ID cfg) (TweetInput formatted_url)
                 (ActorFailed url);
         items ← fetch_items run (DatasetFailed url);
         if negb (truthy items) then raise (ScrapingError (NoTweetData url))
         else
           tweet_data ← lift (first_item items);
           _ ← logger INFO (FetchedTweet url);
           mret tweet_data
     end).

(** Lines 177-181: the debug lines, one per reply; [reply.keys()] raises on
    anything that is not a dictionary. *)
Fixpoint log_replies (i : nat) (replies : list json) : M unit :=
  match replies with
  | [] => mret tt
  | reply :: rest =>
      match reply with
      | JDict d =>
          _ ← logger DEBUG (ReplyKeys i (map fst d));
          _ ← (if (i =? 0)%nat then logger DEBUG (ReplyStructure reply) else mret tt);
          log_replies (S i) rest
      | _ => raise (Builtin AttributeError)
      end
  end.

(** [fetch_tweet_replies(url, limit)]. *)
Definition fetch_tweet_replies (url : string) (limit : Z) : M json :=
  reraise_or_wrap (UnexpectedReplies url)
    (if limit <=? 0 then raise (ValidationError (BadLimit limit))
     else
       _ ← logger INFO (FetchingReplies limit url);
       formatted_url ← _format_url url;
       _ ← logger INFO (UsingFormattedUrlReplies formatted_url);
       run ← call_actor (TWITTER_REPLIES_SCRAPER_ACTOR_ID cfg)
               (RepliesInput formatted_url limit) (RepliesActorFailed url);
       items ← fetch_items run (RepliesDatasetFailed url);
       if negb (truthy items) then
         _ ← logger WARNING (NoReplyData url);
         mret (JList [])
       else
         n ← lift (len items);
         _ ← logger INFO (FetchedReplies n url);
         replies ← lift (iter items);
         _ ← log_replies 0 replies;
         mret items).

(** [fetch_tweet_and_replies(url, reply_limit)]. *)
Definition fetch_tweet_and_replies (url : string) (reply_limit : Z) : M json :=
  reraise_or_wrap (UnexpectedFetch url)
    (tweet ← fetch_tweet url;
     replies ← fetch_tweet_replies url reply_limit;
     mret (JDict [("tweet", tweet); ("replies", replies)])).

End WithBackend.
End Scraper.

(** ** Paths ([os.path] on POSIX) *)

Module Path.

Definition sep : ascii := "/"%char.

Definition starts_with_sep (s : string) : bool := String.prefix "/" s.

Fixpoint ends_with_sep (s : string) : bool :=
  match s with
  | EmptyString => false
  | String c EmptyString => Ascii.eqb c sep
  | String _ s' => ends_with_sep s'
  end.

(** One step of [posixpath.join]: an absolute component discards what came
    before; a separator is added unless the path is empty or ends in one. *)
Definition join2 (path b : string) : string :=
  if starts_with_sep b then b
  else if String.eqb path "" || ends_with_sep path then path +:+ b
  else path +:+ "/" +:+ b.

(** [os.path.join(a, *p)] for string components. *)
Definition join (a : string) (p : list string) : string := fold_left join2 p a.

(** [os.path.join(a, *p)] when the components come from a record: anything
    that is not a string raises [TypeError]. *)
Definition join_values (a : string) (p : list json) : result string :=
  ps ← Py.for_each (fun x => match x with
                             | JStr s => Ok s
                             | _ => Raise (Builtin TypeError)
                             end) p;
  Ok (join a ps).

(** [s.rstrip('/')] on the reversed character list. *)
Fixpoint drop_seps (r : list ascii) : list ascii :=
  match r with
  | c :: r' => if Ascii.eqb c sep then drop_seps r' else r
  | [] => []
  end.

(** What is left of the reversed path once the last component is dropped:
    the reversed [p[:p.rfind('/') + 1]]. *)
Fixpoint drop_basename (r : list ascii) : list ascii :=
  match r with
  | c :: r' => if Ascii.eqb c sep then r else drop_basename r'
  | [] => []
  end.

(** [os.path.dirname(p)]: the head up to the last separator, without its
    trailing separators unless it consists of separators only. *)
Definition dirname (p : string) : string :=
  let head := drop_basename (rev (list_ascii_of_string p)) in
  string_of_list_ascii
    (rev (if forallb (Ascii.eqb sep) head then head else drop_seps head)).

End Path.

(** ** The persistence layer ([video_downloader.py]) *)

Module Downloader.
Import Py.

Section WithPlatform.
Variable P : platform.

(** [_ensure_dir_exists(dir_path)]. *)
Definition _ensure_dir_exists (dir_path : string) : M unit :=
  present ← path_exists dir_path;
  if present : bool then mret tt
  else
    _ ← record (Makedirs dir_path);
    f ← get_fs;
    let '(raised, f') := os_makedirs P dir_path f in
    _ ← set_fs f';
    if raised : bool then raise (VideoDownloadError (MkdirFailed dir_path))
    else logger DEBUG (CreatedDirectory dir_path).

(** [_save_json_content(data, file_path)]. *)
Definition _save_json_content (data : json) (file_path : string) : M unit :=
  if negb (truthy data) then raise (ValidationError NoData)
  else if String.eqb file_path "" then raise (ValidationError NoFilePath)
  else
    _ ← _ensure_dir_exists (Path.dirname file_path);
    _ ← record (WriteJson file_path data);
    f ← get_fs;
    let '(raised, f') := write_json P file_path data f in
    _ ← set_fs f';
    if raised : bool then raise (VideoDownloadError (SaveJsonFailed file_path))
    else logger INFO (SavedJson file_path).

(** The two [except] clauses that close the public functions of the module:
    the module's own exceptions pass, anything else is wrapped. *)
Definition reraise_or_wrap {A} (wrap : pyerr -> download_reason) (m : M A) : M A :=
  try_except m (fun e =>
    match e with
    | Builtin b => Some (raise (VideoDownloadError (wrap b)))
    | ScrapingError _ => Some (raise (VideoDownloadError (wrap TypeError)))
    | ValidationError _ | VideoDownloadError _ => None
    end).

(** [except Exception as e: <log>]: every exception is swallowed. *)
Definition swallow (lvl : level) (msg : exn -> log_msg) (m : M unit) : M unit :=
  try_except m (fun e => Some (logger lvl (msg e))).

(** The loop of lines 91-96 over the formats. *)
Fixpoint log_formats (formats : list json) : M unit :=
  match formats with
  | [] => mret tt
  | fmt :: rest =>
      _ ← lift (for_each (fun k => get fmt k (JStr "N/A"))
                  ["format_id"; "height"; "ext"; "tbr"; "vcodec"]);
      _ ← logger DEBUG (FormatLine fmt);
      log_formats rest
  end.

(** [list_video_formats(video_url)]. *)
Definition list_video_formats (video_url : json) : M json :=
  reraise_or_wrap UnexpectedDownload
    (match video_url with
     | JStr url =>
         if String.eqb url "" then raise (ValidationError BadVideoUrl)
         else
           _ ← logger INFO (ListingFormats url);
           _ ← record (ExtractInfo url true);
           info ← lift (ydl_extract_info P url true);
           has ← (if truthy info then lift (contains "formats" info) else mret false);
           if has : bool then
             formats ← lift (getitem info "formats");
             n ← lift (len formats);
             _ ← logger INFO (FoundFormats n);
             fmts ← lift (iter formats);
             _ ← log_formats fmts;
             mret formats
           else raise (VideoDownloadError (NoFormatsFound url))
     | _ => raise (ValidationError BadVideoUrl)
     end).

(** Lines 143-152: listing the formats on request; nothing escapes. *)
Definition maybe_list_formats (list_formats : bool) (video_url video_id : string) : M unit :=
  if list_formats then
    swallow WARNING CouldNotListFormats
      (formats ← list_video_formats (JStr video_url);
       if truthy formats then
         _ ← logger INFO (AvailableFormats video_id);
         fmts ← lift (iter formats);
         _ ← lift (for_each (fun fmt =>
                      for_each (fun k => get fmt k (JStr "N/A"))
                        ["format_id"; "height"; "ext"; "tbr"]) (take 10 fmts));
         mret tt
       else mret tt)
  else mret tt.

(** Lines 177-187: the selected format is logged; nothing escapes. *)
Definition log_selected_format (video_url video_id : string) : M unit :=
  swallow DEBUG CouldNotExtractInfo
    (_ ← record (ExtractInfo video_url false);
     info ← lift (ydl_extract_info P video_url false);
     if truthy info then
       has_format ← lift (contains "format" info);
       _ ← (if has_format : bool then
              v ← lift (get info "format" (JStr "Unknown"));
              logger INFO (SelectedFormat video_id v)
            else mret tt);
       has_height ← lift (contains "height" info);
       _ ← (if has_height : bool then
              v ← lift (get info "height" (JStr "Unknown"));
              logger INFO (VideoResolution v)
            else mret tt);
       has_tbr ← lift (contains "tbr" info);
       if has_tbr : bool then
         v ← lift (get info "tbr" (JStr "Unknown"));
         logger INFO (TotalBitrate v)
       else mret tt
     else mret tt).

(** Lines 190-193: [ydl.download([video_url])] with [outtmpl] set to the
    output path. *)
Definition run_download (video_url output_path : string) : M unit :=
  _ ← record (Download video_url output_path);
  f ← get_fs;
  let '(raised, f') := ydl_download P video_url output_path f in
  _ ← set_fs f';
  if raised : bool then raise (VideoDownloadError (EngineFailed video_url))
  else mret tt.

(** Lines 195-206: the file must be there and not empty. *)
Definition verify_download (output_path : string) : M string :=
  present ← path_exists output_path;
  size ← (if present : bool then getsize output_path else mret 0);
  if present && (0 <? size) then
    _ ← logger INFO (DownloadedVideo output_path size);
    mret output_path
  else
    let part_file := output_path +:+ ".part" in
    part ← path_exists part_file;
    if part : bool then raise (VideoDownloadError (PartialFile part_file))
    else raise (VideoDownloadError (NotFoundOrEmpty output_path)).

(** [download_video_content(video_url, video_id, output_dir, list_formats)]. *)
Definition download_video_content (video_url video_id output_dir : json)
    (list_formats : bool) : M string :=
  reraise_or_wrap UnexpectedDownload
    (if negb (truthy video_url) || negb (is_str video_url)
     then raise (ValidationError BadVideoUrl)
     else if negb (truthy video_id) || negb (is_str video_id)
     then raise (ValidationError BadVideoId)
     else if negb (truthy output_dir) || negb (is_str output_dir)
     then raise (ValidationError BadOutputDir)
     else
       match video_url, video_id, output_dir with
       | JStr url, JStr vid, JStr dir =>
           _ ← _ensure_dir_exists dir;
           let output_filename := vid +:+ ".mp4" in
           let output_path := Path.join dir [output_filename] in
           _ ← logger INFO (DownloadingVideo url output_path);
           _ ← maybe_list_formats list_formats url vid;
           _ ← log_selected_format url vid;
           _ ← run_download url output_path;
           verify_download output_path
       | _, _, _ => raise (Builtin TypeError)
       end).

(** [except VideoDownloadError as e: logger.error(...)] around one
    sub-operation that appends to [saved_files]: other exceptions pass. *)
Definition or_log_error (msg : exn -> log_msg) (saved : list string)
    (m : M (list string)) : M (list string) :=
  try_except m (fun e =>
    match e with
    | VideoDownloadError _ => Some (_ ← logger ERROR (msg e); mret saved)
    | _ => None
    end).

Section WithArguments.
Variable list_formats : bool.

(** Lines 259-269: the videos of the main post, all named after the thread. *)
Fixpoint download_thread_videos (thread_id : json) (thread_videos_path : string)
    (videos : list json) (saved : list string) : M (list string) :=
  match videos with
  | [] => mret saved
  | video_info :: rest =>
      video_url ← lift (get video_info "video_url" JNull);
      let video_id_for_filename := thread_id in
      saved' ← (if truthy video_url && truthy video_id_for_filename then
                  or_log_error FailedThreadVideo saved
                    (downloaded_path ← download_video_content video_url
                                         video_id_for_filename (JStr thread_videos_path)
                                         list_formats;
                     mret (saved ++ [downloaded_path]))
                else mret saved);
      download_thread_videos thread_id thread_videos_path rest saved'
  end.

(** Lines 295-305: the videos of one reply. *)
Fixpoint download_reply_videos (reply_id : json) (reply_videos_path : string)
    (videos : list json) (saved : list string) : M (list string) :=
  match videos with
  | [] => mret saved
  | video_info :: rest =>
      video_url ← lift (get video_info "video_url" JNull);
      video_id_for_filename ← lift (get video_info "tweet_id" reply_id);
      saved' ← (if truthy video_url && truthy video_id_for_filename then
                  or_log_error FailedReplyVideo saved
                    (downloaded_path ← download_video_content video_url
                                         video_id_for_filename (JStr reply_videos_path)
                                         list_formats;
                     mret (saved ++ [downloaded_path]))
                else mret saved);
      download_reply_videos reply_id reply_videos_path rest saved'
  end.

(** Lines 273-305: the loop over the replies. *)
Fixpoint process_replies (replies_base_path : string) (replies : list json)
    (saved : list string) : M (list string) :=
  match replies with
  | [] => mret saved
  | reply_info :: rest =>
      reply_id ← lift (get reply_info "reply_id" JNull);
      if negb (truthy reply_id) then
        _ ← logger WARNING (SkippingReply reply_info);
        process_replies replies_base_path rest saved
      else
        current_reply_path ← lift (Path.join_values replies_base_path [reply_id]);
        _ ← _ensure_dir_exists current_reply_path;
        reply_text_content ← lift (get reply_info "reply_text_content" JNull);
        saved1 ← (if truthy reply_text_content then
                    let reply_text_path := Path.join current_reply_path ["reply_text.json"] in
                    or_log_error FailedReplyText saved
                      (_ ← _save_json_content reply_text_content reply_text_path;
                       mret (saved ++ [reply_text_path]))
                  else mret saved);
        let reply_videos_path := Path.join current_reply_path ["videos"] in
        reply_videos ← lift (get reply_info "reply_videos" (JList []));
        videos ← lift (iter reply_videos);
        saved2 ← download_reply_videos reply_id reply_videos_path videos saved1;
        process_replies replies_base_path rest saved2
  end.

(** [save_parsed_thread_data(parsed_data, base_output_dir, list_formats)]. *)
Definition save_parsed_thread_data (parsed_data : json) (base_output_dir : string)
  : M (list string) :=
  reraise_or_wrap UnexpectedSave
    (if negb (truthy parsed_data) then raise (ValidationError NoParsedData)
     else if negb (is_dict parsed_data) then raise (ValidationError ParsedDataNotDict)
     else
       user_screen_name ← lift (get parsed_data "user_screen_name" (JStr "unknown_user"));
       thread_id ← lift (get parsed_data "thread_id" (JStr "unknown_thread"));
       thread_path ← lift (Path.join_values base_output_dir [user_screen_name; thread_id]);
       _ ← _ensure_dir_exists thread_path;
       thread_text_content ← lift (get parsed_data "thread_text_content" JNull);
       saved0 ← (if truthy thread_text_content then
                   let thread_text_path := Path.join thread_path ["thread_text.json"] in
                   _ ← _save_json_content thread_text_content thread_text_path;
                   mret [thread_text_path]
                 else mret []);
       let thread_videos_path := Path.join thread_path ["videos"] in
       thread_videos ← lift (get parsed_data "thread_videos" (JList []));
       videos ← lift (iter thread_videos);
       saved1 ← download_thread_videos thread_id thread_videos_path videos saved0;
       let replies_base_path := Path.join thread_path ["replies"] in
       replies_value ← lift (get parsed_data "replies" (JList []));
       replies ← lift (iter replies_value);
       saved2 ← process_replies replies_base_path replies saved1;
       _ ← logger INFO (FinishedThread user_screen_name thread_id (List.length saved2));
       mret saved2).

End WithArguments.
End WithPlatform.
End Downloader.

(** * Specifications *)

(** ** The variant selector *)

Module SelectorSpec.
Import Py Selector.

(** The value stored under [k] in a variant, [JNull] when there is none. *)
Definition field (k : string) (v : json) : json :=
  match v with
  | JDict d => from_option id JNull (assoc k d)
  | _ => JNull
  end.

(** The bitrate the ranking uses: a missing bitrate counts as 0. *)
Definition bitrate_of (v : json) : Z :=
  match v with
  | JDict d =>
      match assoc "bitrate" d with
      | Some (JInt z) => z
      | _ => 0
      end
  | _ => 0
  end.

(** A variant record whose bitrate is an integer or is missing. *)
Definition variant_wf (v : json) : bool :=
  match v with
  | JDict d =>
      match assoc "bitrate" d with
      | None | Some (JInt _) => true
      | Some _ => false
      end
  | _ => false
  end.

(** The preferred container, read under the key [tkey]. *)
Definition is_mp4 (tkey : string) (v : json) : bool := eq_str (field tkey v) "video/mp4".

(** The list sorted by bitrate, highest first, equal bitrates in their
    original order. *)
Definition ranked (l : list json) : list json :=
  map snd (sort_desc Z.ltb (combine (map bitrate_of l) l)).

(** [best] is accepted by [p] and is the first entry of [vs], among those
    [p] accepts, with the highest bitrate. *)
Definition top_ranked (p : json -> bool) (vs : list json) (best : json) : Prop :=
  p best = true /\
  exists pre post, vs = pre ++ best :: post /\
    (forall w, w ∈ pre -> p w = true -> bitrate_of w < bitrate_of best) /\
    (forall w, w ∈ post -> p w = true -> bitrate_of w <= bitrate_of best).

(** The variant list of a record of the primary shape. *)
Definition primary_variants (tweet_data : json) : option (list json) :=
  match tweet_data with
  | JDict d =>
      match assoc "video" d with
      | Some (JDict vd) =>
          match assoc "variants" vd with
          | Some (JList vs) => Some vs
          | _ => None
          end
      | _ => None
      end
  | _ => None
  end.

(** What [extract_video_url] returns, without the state of the record. *)
Definition url_of (tweet_data : json) : result json :=
  fst <$> extract_video_url tweet_data.

(** What a record of the primary shape holds under [video.variants],
    whatever it is. *)
Definition variant_container (tweet_data : json) : option json :=
  match tweet_data with
  | JDict d =>
      match assoc "video" d with
      | Some (JDict vd) => assoc "variants" vd
      | _ => None
      end
  | _ => None
  end.

Definition is_list (x : json) : bool :=
  match x with JList _ => true | _ => false end.

(** A container that is not a list and not empty either: [None], a boolean,
    a number, a non-empty string or a non-empty dictionary. *)
Definition opaque_container (c : json) : bool :=
  match c with
  | JList _ => false
  | JStr s => negb (String.eqb s "")
  | JDict d => match d with [] => false | _ => true end
  | _ => true
  end.

(** A container that is not a list but is empty: [""] or [{}]. *)
Definition empty_non_list (c : json) : bool :=
  match c with
  | JStr s => String.eqb s ""
  | JDict [] => true
  | _ => false
  end.

(** [variants'] is what an in-place sort leaves of the list [variants]
    when that list holds no MP4 entry under [tkey]: the same entries, by
    bitrate. *)
Definition sorted_fallback (tkey : string) (variants variants' : json) : Prop :=
  exists l l', variants = JList l /\ variants' = JList l' /\
    mp4_variants tkey l = Ok [] /\ sort_by_bitrate l = Ok l' /\ Permutation l l'.

(** The record differs from [tweet_data] only in [video.variants], left
    sorted. *)
Definition primary_reordered (tweet_data tweet_data' : json) : Prop :=
  exists video variants variants',
    getitem tweet_data "video" = Ok video /\
    getitem video "variants" = Ok variants /\
    sorted_fallback "type" variants variants' /\
    tweet_data' = dict_set "video" (dict_set "variants" variants' video) tweet_data.

(** The record differs from [tweet_data] only in the variants of one entry
    of [mediaDetails], left sorted. *)
Definition media_reordered (tweet_data tweet_data' : json) : Prop :=
  exists medias (i : nat) media video_info variants variants',
    getitem tweet_data "mediaDetails" = Ok (JList medias) /\
    medias !! i = Some media /\
    getitem media "video_info" = Ok video_info /\
    getitem video_info "variants" = Ok variants /\
    sorted_fallback "content_type" variants variants' /\
    tweet_data' =
      dict_set "mediaDetails"
        (JList (<[i := dict_set "video_info"
                         (dict_set "variants" variants' video_info) media]> medias))
        tweet_data.

End SelectorSpec.

(** ** The remote fetch client *)

Module ScraperSpec.
Import Py Scraper.

(** The URL handed to the backend: [_format_url] on a non-empty URL. *)
Definition formatted (url : string) : string :=
  if String.prefix "http" url then url else "https://" +:+ url.

(** The backend runs the actor and hands back [items] as the dataset of
    that run. *)
Definition backend_yields (B : backend) (actor_id : string) (input : run_input)
    (items : json) : Prop :=
  exists run dataset_id,
    actor_call B actor_id input = Ok run /\
    getitem run "defaultDatasetId" = Ok dataset_id /\
    dataset_items B dataset_id = Ok items.

End ScraperSpec.

(** ** The persistence layer *)

Module DownloaderSpec.
Import Py Downloader.

Definition is_download (c : call) : bool :=
  match c with Download _ _ => true | _ => false end.

Definition is_extract_info (c : call) : Prop :=
  match c with ExtractInfo _ _ => True | _ => False end.

(** Whether creating [dir] where needed raises, and the files afterwards. *)
Definition ensure_dir (P : platform) (dir : string) (f : gmap string Z)
  : bool * gmap string Z :=
  if bool_decide (is_Some (f !! dir)) then (false, f) else os_makedirs P dir f.

(** A file of non-zero size at [p]. *)
Definition has_content (f : gmap string Z) (p : string) : bool :=
  match f !! p with
  | Some size => 0 <? size
  | None => false
  end.

(** The files after the directory is there and the engine has returned
    without raising, if both happen. *)
Definition engine_result (P : platform) (url vid dir : string) (f : gmap string Z)
  : option (gmap string Z) :=
  let '(raised1, f1) := ensure_dir P dir f in
  let '(raised2, f2) := ydl_download P url (Path.join dir [vid +:+ ".mp4"]) f1 in
  if raised1 || raised2 then None else Some f2.

(** A reply record without a usable id: [reply_id] missing, [None] or
    empty. *)
Definition lacks_id (reply_info : json) : bool :=
  match reply_info with
  | JDict d => negb (truthy (from_option id JNull (assoc "reply_id" d)))
  | _ => false
  end.

End DownloaderSpec.

(** ** Sample threads and platforms *)

Module Samples.

(** Directories and text files are created unless the path is in [broken];
    the engine leaves a 10-byte file, or raises and leaves nothing when
    [engine_up] is off. *)
Definition sample_platform (broken : list string) (engine_up : bool) : platform :=
  Platform
    (fun p f => if existsb (String.eqb p) broken then (true, f) else (false, <[p:=4096]> f))
    (fun p _ f => if existsb (String.eqb p) broken then (true, f) else (false, <[p:=1]> f))
    (fun _ _ => Ok JNull)
    (fun _ p f => if engine_up then (false, <[p:=10]> f) else (true, f)).

Definition text (s : string) : json := JDict [("text", JStr s)].

(** A main post with text and two replies with text; the second reply
    carries a video whose record has the given [tweet_id]. *)
Definition sample_thread (video_tweet_id : string) : json :=
  JDict [("user_screen_name", JStr "alice"); ("thread_id", JStr "100");
         ("thread_text_content", text "root");
         ("thread_videos", JList []);
         ("replies", JList [
            JDict [("reply_id", JStr "201"); ("reply_text_content", text "one");
                   ("reply_videos", JList [])];
            JDict [("reply_id", JStr "202"); ("reply_text_content", text "two");
                   ("reply_videos",
                    JList [JDict [("video_url", JStr "http://v/2");
                                  ("tweet_id", JStr video_tweet_id)]])]])].

Definition empty_world : world := World ∅ [] [].

Definition variant (type : string) (bitrate : Z) (src : string) : json :=
  JDict [("type", JStr type); ("bitrate", JInt bitrate); ("src", JStr src)].

(** A record of the primary shape with the given variants. *)
Definition tweet_with (variants : list json) : json :=
  JDict [("video", JDict [("variants", JList variants)])].

(** Two MP4 variants and a playlist entry that has no bitrate. *)
Definition mixed_variants : list json :=
  [variant "video/mp4" 100 "low";
   JDict [("type", JStr "application/x-mpegURL"); ("src", JStr "playlist")];
   variant "video/mp4" 300 "high"].

(** Two variants, none of them MP4, the better one last. *)
Definition webm_variants : list json :=
  [variant "video/webm" 100 "low"; variant "video/webm" 300 "high"].

(** A record of the secondary shape with one MP4 variant, next to an empty
    primary variant list. *)
Definition tweet_with_media_details : json :=
  JDict [("video", JDict [("variants", JList [])]);
         ("mediaDetails",
          JList [JDict [("type", JStr "video");
                        ("video_info",
                         JDict [("variants",
                                 JList [JDict [("content_type", JStr "video/mp4");
                                               ("url", JStr "media")]])])]])].

Definition sample_config : config := Config "tweet-actor" "replies-actor" 50 "output".

(** A backend whose runs all end in an empty dataset. *)
Definition empty_backend : backend :=
  Backend (fun _ _ => Ok (JDict [("defaultDatasetId", JStr "ds")]))
          (fun _ => Ok (JList [])).

End Samples.

(** ** The directory layout *)

Module Layout.
Import Py.

(** [a/b]. *)
Definition slash (a b : string) : string := a +:+ "/" +:+ b.
Infix "//" := slash (at level 40, left associativity).

(** A path that [os.path.join] extends with a separator: not empty and not
    ending in one. *)
Definition open_path (s : string) : bool :=
  negb (String.eqb s "") && negb (Path.ends_with_sep s).

(** A path component that stands for itself: not empty, no separator at
    either end. *)
Definition component (s : string) : bool :=
  open_path s && negb (Path.starts_with_sep s).

Section Thread.
Variables (output_root author_handle thread_id : string).

Definition thread_dir : string := output_root // author_handle // thread_id.
Definition thread_text : string := thread_dir // "thread_text.json".
Definition thread_video : string := thread_dir // "videos" // (thread_id +:+ ".mp4").
Definition reply_dir (reply_id : string) : string := thread_dir // "replies" // reply_id.
Definition reply_text (reply_id : string) : string := reply_dir reply_id // "reply_text.json".
Definition reply_video (reply_id video_id : string) : string :=
  reply_dir reply_id // "videos" // (video_id +:+ ".mp4").

End Thread.

(** The replies of a parsed thread and the videos of a reply, as the loops
    visit them. *)
Definition items (record : json) (key : string) : list json :=
  match get record key (JList []) with
  | Ok v => match iter v with Ok l => l | Raise _ => [] end
  | Raise _ => []
  end.

(** The id a reply video is filed under: the [tweet_id] of its record, the
    reply's id when the record has none. *)
Definition file_id (reply_id : string) (video_info : json) : json :=
  match video_info with
  | JDict d => from_option id (JStr reply_id) (assoc "tweet_id" d)
  | _ => JNull
  end.

Definition reply_id_of (reply_info : json) : json :=
  match reply_info with
  | JDict d => from_option id JNull (assoc "reply_id" d)
  | _ => JNull
  end.

(** The ids of a reply and of its videos are usable as path components. *)
Definition reply_wf (reply_info : json) : bool :=
  match reply_id_of reply_info with
  | JStr rid =>
      String.eqb rid "" ||
      (component rid &&
       forallb (fun v => match file_id rid v with
                         | JStr s => String.eqb s "" || component s
                         | _ => true
                         end) (items reply_info "reply_videos"))
  | _ => true
  end.

Section Placement.
Variables (output_root author_handle thread_id : string) (parsed_data : json).

(** [rid] is the id of a reply of the thread. *)
Definition is_reply (rid : string) : Prop :=
  exists r, r ∈ items parsed_data "replies" /\ reply_id_of r = JStr rid.

(** [vid] is the file id of a video of the reply [rid]. *)
Definition is_reply_video (rid vid : string) : Prop :=
  exists r v, r ∈ items parsed_data "replies" /\ reply_id_of r = JStr rid /\
    v ∈ items r "reply_videos" /\ file_id rid v = JStr vid.

Definition text_place (p : string) : Prop :=
  p = thread_text output_root author_handle thread_id \/
  exists rid, is_reply rid /\ p = reply_text output_root author_handle thread_id rid.

Definition video_place (p : string) : Prop :=
  p = thread_video output_root author_handle thread_id \/
  exists rid vid, is_reply_video rid vid /\
    p = reply_video output_root author_handle thread_id rid vid.

(** Every write and every download goes to its place in the layout. *)
Definition placed (c : call) : Prop :=
  match c with
  | WriteJson p _ => text_place p
  | Download _ p => video_place p
  | Makedirs _ | ExtractInfo _ _ => True
  | ActorCall _ _ | DatasetCall _ => False
  end.

End Placement.
End Layout.

(** ** Invariants of code in [M] *)

Module Hoare.

(** [m] moves the world along [T] and, when it returns, returns a value
    satisfying [R]. *)
Definition steps (T : world -> world -> Prop) {A} (R : A -> Prop) (m : M A) : Prop :=
  forall w, T w (m w).2 /\ forall a, (m w).1 = Ok a -> R a.

(** The calls made are the ones made before followed by calls that satisfy
    [Q]. *)
Definition emits (Q : call -> Prop) (w w' : world) : Prop :=
  exists cs, calls w' = calls w ++ cs /\ Forall Q cs.

(** Nothing but logging and read-only queries of the engine: the files are
    the same. *)
Definition inert (w w' : world) : Prop :=
  fs w' = fs w /\ emits DownloaderSpec.is_extract_info w w'.

End Hoare.

(** ** The status URL pattern *)

Module UrlSpec.
Import Py Scraper.

(** Every character of [s] satisfies [p]. *)
Fixpoint all_chars (p : ascii -> bool) (s : string) : bool :=
  match s with
  | EmptyString => true
  | String c s' => p c && all_chars p s'
  end.

(** [s] does not begin with a character satisfying [p]. *)
Definition stops (p : ascii -> bool) (s : string) : bool :=
  match s with
  | EmptyString => true
  | String c _ => negb (p c)
  end.

(** A run of one or more characters satisfying [p]. *)
Definition run_of (p : ascii -> bool) (s : string) : bool :=
  negb (String.eqb s "") && all_chars p s.

(** [host/user/status/digits], followed by [rest], as the pattern reads it. *)
Definition status_path (host user digits rest : string) : string :=
  host +:+ "/" +:+ user +:+ "/status/" +:+ digits +:+ rest.

Definition is_host (h : string) : bool :=
  String.eqb h "twitter.com" || String.eqb h "x.com".

Definition is_scheme (s : string) : bool :=
  String.eqb s "" || String.eqb s "http://" || String.eqb s "https://".

End UrlSpec.

(** ** Outcomes of the fetch client *)

Module FetchSpec.
Import Py Scraper.

(** The exception is one the fetch client raises on purpose. *)
Definition client_error (e : exn) : bool :=
  match e with
  | ValidationError _ | ScrapingError _ => true
  | _ => false
  end.


End FetchSpec.

(** ** The [mediaDetails] shape *)

Module MediaSpec.
Import Py Selector SelectorSpec.

(** The variant list of a [mediaDetails] entry of type [video]. *)
Definition media_variants (media : json) : option (list json) :=
  match media with
  | JDict d =>
      if eq_str (from_option id JNull (assoc "type" d)) "video" then
        match assoc "video_info" d with
        | Some (JDict vi) =>
            match assoc "variants" vi with
            | Some (JList vs) => Some vs
            | _ => None
            end
        | _ => None
        end
      else None
  | _ => None
  end.

(** A [mediaDetails] entry the loop passes over: a record that is not of
    type [video], or a video that has no [video_info]. *)
Definition passed_over (media : json) : bool :=
  match media with
  | JDict d =>
      negb (eq_str (from_option id JNull (assoc "type" d)) "video")
      || negb (bool_decide (is_Some (assoc "video_info" d)))
  | _ => false
  end.

(** The record has nothing to offer in the primary shape: no [video] key, a
    [video] that is empty or [None], or a video record without [variants]. *)
Definition no_primary (d : list (string * json)) : bool :=
  match assoc "video" d with
  | None => true
  | Some (JDict vd) => negb (bool_decide (is_Some (assoc "variants" vd)))
  | Some v => negb (truthy v)
  end.

(** The variants the ranking is made among: the MP4 ones if there are any,
    all of them otherwise. *)
Definition candidates (tkey : string) (vs : list json) : list json :=
  match List.filter (is_mp4 tkey) vs with
  | [] => vs
  | m => m
  end.

(** The variant's record has a [bitrate] key holding [None]. *)
Definition null_bitrate (v : json) : bool :=
  match v with
  | JDict d => match assoc "bitrate" d with Some JNull => true | _ => false end
  | _ => false
  end.

End MediaSpec.

(** ** Outcomes of the persistence layer *)

Module PersistenceSpec.
Import Py Downloader DownloaderSpec.

(** A non-empty string. *)
Definition valid_str (x : json) : bool := truthy x && is_str x.

(** What a download returns, read off the platform: the directory is
    ensured, the engine runs, the file is checked. *)
Definition download_result (P : platform) (url vid dir : string) (f : gmap string Z)
  : result string :=
  let out := Path.join dir [vid +:+ ".mp4"] in
  let '(raised1, f1) := ensure_dir P dir f in
  if raised1 then Raise (VideoDownloadError (MkdirFailed dir))
  else
    let '(raised2, f2) := ydl_download P url out f1 in
    if raised2 then Raise (VideoDownloadError (EngineFailed url))
    else if has_content f2 out then Ok out
    else Raise (VideoDownloadError
           (if bool_decide (is_Some (f2 !! (out +:+ ".part")))
            then PartialFile (out +:+ ".part")
            else NotFoundOrEmpty out)).

(** The files a download leaves. *)
Definition download_files (P : platform) (url vid dir : string) (f : gmap string Z)
  : gmap string Z :=
  let '(raised1, f1) := ensure_dir P dir f in
  if raised1 then f1
  else (ydl_download P url (Path.join dir [vid +:+ ".mp4"]) f1).2.

(** The exception is one the persistence layer raises on purpose. *)
Definition layer_error (e : exn) : bool :=
  match e with
  | ValidationError _ | VideoDownloadError _ => true
  | _ => false
  end.

(** A path component without a separator in it. *)
Definition plain (b : string) : bool :=
  forallb (fun c => negb (Ascii.eqb c Path.sep)) (list_ascii_of_string b).

(** The call [_ensure_dir_exists] makes on the files [f]. *)
Definition ensure_calls (dir : string) (f : gmap string Z) : list call :=
  if bool_decide (is_Some (f !! dir)) then [] else [Makedirs dir].

(** Directories can always be created and text files written. *)
Definition reliable_storage (P : platform) : Prop :=
  (forall p f, (os_makedirs P p f).1 = false) /\
  (forall p d f, (write_json P p d f).1 = false).

(** The list a loop over [record.get(key, [])] visits, if there is one. *)
Definition entries (record : json) (key : string) : option (list json) :=
  match get record key (JList []) with
  | Ok v => match iter v with Ok l => Some l | Raise _ => None end
  | Raise _ => None
  end.

(** Nothing, or a string. *)
Definition str_or_falsy (x : json) : bool := negb (truthy x) || is_str x.

(** A video record of the main post: a dictionary whose [video_url], when
    there is one, is a string. *)
Definition thread_video_ok (v : json) : bool :=
  match v with
  | JDict d => str_or_falsy (from_option id JNull (assoc "video_url" d))
  | _ => false
  end.

(** A video record of a reply: its [tweet_id] counts as well, the reply's id
    standing in for a missing one. *)
Definition reply_video_ok (reply_id : json) (v : json) : bool :=
  match v with
  | JDict d => str_or_falsy (from_option id JNull (assoc "video_url" d)) &&
               str_or_falsy (from_option id reply_id (assoc "tweet_id" d))
  | _ => false
  end.

(** A reply record the loop can work through: a dictionary; with an id, the
    id is a string and the videos are well-formed records. *)
Definition reply_ok (r : json) : bool :=
  match r with
  | JDict d =>
      let reply_id := from_option id JNull (assoc "reply_id" d) in
      negb (truthy reply_id) ||
      (is_str reply_id &&
       match entries r "reply_videos" with
       | Some vs => forallb (reply_video_ok reply_id) vs
       | None => false
       end)
  | _ => false
  end.

(** A parsed thread of the shape the parser produces. *)
Definition thread_ok (parsed_data : json) : bool :=
  match parsed_data with
  | JDict d =>
      truthy parsed_data &&
      is_str (from_option id (JStr "unknown_user") (assoc "user_screen_name" d)) &&
      is_str (from_option id (JStr "unknown_thread") (assoc "thread_id" d)) &&
      match entries parsed_data "thread_videos", entries parsed_data "replies" with
      | Some vs, Some rs => forallb thread_video_ok vs && forallb reply_ok rs
      | _, _ => false
      end
  | _ => false
  end.

(** [m] returns, whatever the world. *)
Definition returns {A} (m : M A) : Prop := forall w, exists a w', m w = (Ok a, w').

(** [m] returns or raises [VideoDownloadError]. *)
Definition contained {A} (m : M A) : Prop :=
  forall w, exists w', (exists a, m w = (Ok a, w')) \/
                       (exists why, m w = (Raise (VideoDownloadError why), w')).

(** A record [save_parsed_thread_data] can take the names of: a non-empty
    dictionary whose [user_screen_name] and [thread_id], where present, are
    strings. *)
Definition usable (parsed_data : json) : bool :=
  match parsed_data with
  | JDict d =>
      truthy parsed_data &&
      is_str (from_option id (JStr "unknown_user") (assoc "user_screen_name" d)) &&
      is_str (from_option id (JStr "unknown_thread") (assoc "thread_id" d))
  | _ => false
  end.

(** Files and outside calls are as before. *)
Definition quiet (w w' : world) : Prop := fs w' = fs w /\ calls w' = calls w.

End PersistenceSpec.

(** ** Further sample data *)

Module Examples.
Import Samples.

(** A backend whose runs all end in the dataset [items]. *)
Definition listing_backend (items : list json) : backend :=
  Backend (fun _ _ => Ok (JDict [("defaultDatasetId", JStr "ds")]))
          (fun _ => Ok (JList items)).

Definition status_url : string := "https://x.com/alice/status/100".

(** A tweet record as the backend returns it. *)
Definition tweet (id : string) : json := JDict [("id", JStr id)].

Definition media_variant (content_type : string) (bitrate : Z) (url : string) : json :=
  JDict [("content_type", JStr content_type); ("bitrate", JInt bitrate);
         ("url", JStr url)].

Definition photo : json := JDict [("type", JStr "photo")].

Definition media_video (variants : list json) : json :=
  JDict [("type", JStr "video"); ("video_info", JDict [("variants", JList variants)])].

Definition media_variants_sample : list json :=
  [media_variant "video/mp4" 100 "low"; media_variant "video/mp4" 300 "high"].

(** A record that lists a photo and a video under [mediaDetails] only. *)
Definition media_only : list (string * json) :=
  [("mediaDetails", JList [photo; media_video media_variants_sample])].

(** A record with text and a photo, no video. *)
Definition photo_only : list (string * json) :=
  [("text", JStr "hello"); ("mediaDetails", JList [photo])].

(** Two MP4 variants, the second with a [bitrate] of [None]. *)
Definition null_bitrate_variants : list json :=
  [variant "video/mp4" 100 "low";
   JDict [("type", JStr "video/mp4"); ("bitrate", JNull); ("src", JStr "odd")]].

(** A video record whose [tweet_id] is a number. *)
Definition numeric_id_video : json :=
  JDict [("video_url", JStr "http://v/2"); ("tweet_id", JInt 202)].

(** A parsed thread whose [thread_id] is a number. *)
Definition numeric_id_thread : json :=
  JDict [("user_screen_name", JStr "alice"); ("thread_id", JInt 100)].

Definition reply (reply_id : string) : json :=
  JDict [("reply_id", JStr reply_id); ("reply_text_content", text "one")].

End Examples.

(** ** The file of the main post's videos *)

Module SharedFileSpec.

(** A call that writes nowhere but to [out], by the engine. *)
Definition writes_only (out : string) (c : call) : Prop :=
  match c with
  | Download _ p => p = out
  | Makedirs _ | ExtractInfo _ _ => True
  | WriteJson _ _ | ActorCall _ _ | DatasetCall _ => False
  end.

End SharedFileSpec.

(** ** Failures of the backend *)

Module BackendSpec.
Import Py.

(** The items of the dataset of a run, as the client reads them. *)
Definition dataset_of (B : backend) (run : json) : result json :=
  dataset_id ← getitem run "defaultDatasetId"; dataset_items B dataset_id.

(** The backend calls made for a run whose dataset is read. *)
Definition dataset_calls (run : json) : list call :=
  match getitem run "defaultDatasetId" with
  | Ok dataset_id => [DatasetCall dataset_id]
  | Raise _ => []
  end.

End BackendSpec.

(** * Properties *)

(** ** The variant selector *)

Module SelectorFacts.
Import Py Selector SelectorSpec.

Lemma insert_desc_perm {K A} (ltb : K -> K -> bool) (x : K * A) l :
  Permutation (insert_desc ltb x l) (x :: l).
Proof.
  induction l as [|y l IH]; simpl; [done|].
  destruct (ltb x.1 y.1); [|done].
  rewrite IH. apply perm_swap.
Qed.

Lemma sort_desc_perm {K A} (ltb : K -> K -> bool) (l : list (K * A)) :
  Permutation (sort_desc ltb l) l.
Proof.
  induction l as [|x l IH]; simpl; [done|].
  unfold sort_desc in *. simpl. rewrite insert_desc_perm. by rewrite IH.
Qed.

Lemma sort_desc_length {K A} (ltb : K -> K -> bool) (l : list (K * A)) :
  List.length (sort_desc ltb l) = List.length l.
Proof. apply Permutation_length, sort_desc_perm. Qed.

(** The head of the sorted list is the first element of the original list
    whose key is maximal. *)
Lemma sort_desc_head {A} (l : list (Z * A)) x l' :
  sort_desc Z.ltb l = x :: l' ->
  exists pre post, l = pre ++ x :: post /\
    Forall (fun w => w.1 < x.1) pre /\ Forall (fun w => w.1 <= x.1) post.
Proof.
  revert x l'. induction l as [|y l IH]; intros x l' Hs; [done|].
  unfold sort_desc in Hs. simpl in Hs. fold (sort_desc Z.ltb l) in Hs.
  destruct (sort_desc Z.ltb l) as [|z s] eqn:Es.
  - simpl in Hs. injection Hs as <- <-.
    assert (l = []) as ->.
    { apply length_zero_iff_nil. rewrite <- (sort_desc_length Z.ltb l), Es. done. }
    exists [], []. auto.
  - destruct (IH z s eq_refl) as (pre & post & -> & Hpre & Hpost).
    simpl in Hs. destruct (Z.ltb_spec y.1 z.1) as [Hlt|Hge].
    + injection Hs as <- <-. exists (y :: pre), post. split; [done|]. split; [|done].
      constructor; [done|done].
    + injection Hs as <- <-. exists [], (pre ++ z :: post). split; [done|]. split; [done|].
      apply Forall_app. split.
      * eapply Forall_impl; [exact Hpre|]. simpl. intros; lia.
      * constructor; [lia|]. eapply Forall_impl; [exact Hpost|]. simpl. intros; lia.
Qed.

Lemma wf_get (v : json) k dflt : variant_wf v = true -> exists d, v = JDict d /\ get v k dflt = Ok (from_option id dflt (assoc k d)).
Proof. destruct v; try done. eauto. Qed.

Lemma for_each_ok {A B} (f : A -> result B) (g : A -> B) l :
  Forall (fun x => f x = Ok (g x)) l -> for_each f l = Ok (map g l).
Proof.
  induction 1 as [|x l Hx _ IH]; simpl; [done|].
  rewrite Hx. simpl. rewrite IH. done.
Qed.

Lemma comprehension_ok {A} (p : A -> result bool) (q : A -> bool) l :
  Forall (fun x => p x = Ok (q x)) l -> comprehension p l = Ok (List.filter q l).
Proof.
  induction 1 as [|x l Hx _ IH]; simpl; [done|].
  rewrite Hx. simpl. rewrite IH. simpl. by destruct (q x).
Qed.

Lemma combine_map_self {A B} (f : A -> B) (l : list A) :
  combine (map f l) l = map (fun v => (f v, v)) l.
Proof. induction l; simpl; congruence. Qed.

Lemma ranked_perm l : Permutation (ranked l) l.
Proof.
  unfold ranked. rewrite sort_desc_perm, combine_map_self, map_map. simpl.
  by rewrite map_id.
Qed.

Lemma ranked_head l best rest :
  ranked l = best :: rest ->
  exists pre post, l = pre ++ best :: post /\
    Forall (fun w => bitrate_of w < bitrate_of best) pre /\
    Forall (fun w => bitrate_of w <= bitrate_of best) post.
Proof.
  unfold ranked. rewrite combine_map_self.
  destruct (sort_desc _ _) as [|x s] eqn:Es; [done|].
  simpl. intros [= <- <-].
  destruct (sort_desc_head _ _ _ Es) as (pre & post & Heq & Hpre & Hpost).
  apply map_eq_app in Heq as (l1 & l2 & -> & <- & Heq).
  apply map_eq_cons in Heq as (b & l3 & -> & <- & <-).
  exists l1, l3. split; [done|]. simpl.
  rewrite Forall_map in Hpre. rewrite Forall_map in Hpost. by split.
Qed.

Lemma ranked_short l : (List.length l <= 1)%nat -> ranked l = l.
Proof. destruct l as [|a [|b l]]; simpl; (done || lia). Qed.

Lemma num_keys_ok (zs : list Z) : num_keys (map KNum zs) = Some zs.
Proof.
  unfold num_keys. induction zs as [|z zs IH]; simpl; [done|].
  rewrite IH. done.
Qed.

Lemma wf_bitrate_key v :
  variant_wf v = true -> bitrate_key v = Ok (JInt (bitrate_of v)).
Proof.
  destruct v as [| | | | |d]; try done. unfold bitrate_key, variant_wf, bitrate_of. simpl.
  destruct (assoc "bitrate" d) as [[]|]; done.
Qed.

Lemma sort_by_bitrate_wf l :
  forallb variant_wf l = true -> sort_by_bitrate l = Ok (ranked l).
Proof.
  intros Hwf. unfold sort_by_bitrate.
  rewrite (for_each_ok _ (fun v => JInt (bitrate_of v))).
  2:{ apply Forall_forall. intros v Hv. apply wf_bitrate_key.
      rewrite forallb_forall in Hwf. apply Hwf. by apply list_elem_of_In. }
  simpl. unfold sort_by_keys.
  destruct l as [|a [|b l]]; [done|done|].
  rewrite map_map. simpl classify.
  change (map (fun x => KNum (bitrate_of x)) ?l) with (map (KNum ∘ bitrate_of) l).
  rewrite <- (map_map bitrate_of KNum), num_keys_ok. done.
Qed.

Lemma wf_get_field v k dflt :
  variant_wf v = true -> exists x, get v k dflt = Ok x.
Proof. destruct v; try done. simpl. eauto. Qed.

Lemma wf_get_null v k :
  variant_wf v = true -> get v k JNull = Ok (field k v).
Proof. by destruct v. Qed.

Lemma forallb_elem {A} (p : A -> bool) l x :
  forallb p l = true -> x ∈ l -> p x = true.
Proof. rewrite forallb_forall. intros H Hx. apply H. by apply list_elem_of_In. Qed.

Lemma forallb_perm {A} (p : A -> bool) l l' :
  Permutation l l' -> forallb p l = true -> forallb p l' = true.
Proof.
  intros Hp. rewrite !forallb_forall. intros H x Hx. apply H.
  eapply Permutation_in; [symmetry; exact Hp | exact Hx].
Qed.

Lemma forallb_filter {A} (p q : A -> bool) l :
  forallb p l = true -> forallb p (List.filter q l) = true.
Proof.
  rewrite !forallb_forall. intros H x Hx. apply H. by apply filter_In in Hx as [? _].
Qed.

Lemma return_best_ranked ukey l :
  l <> [] -> forallb variant_wf l = true ->
  return_best ukey (ranked l) = Ok (field ukey (hd JNull (ranked l))).
Proof.
  intros Hne Hwf.
  assert (forallb variant_wf (ranked l) = true) as Hwf'.
  { eapply forallb_perm; [symmetry; apply ranked_perm | done]. }
  destruct (ranked l) as [|best rest] eqn:Er.
  - exfalso. apply Hne. apply Permutation_nil. rewrite <- Er. apply ranked_perm.
  - simpl in *. apply andb_prop in Hwf' as [Hb _].
    destruct (wf_get_field best "bitrate" (JStr "unknown") Hb) as [x ->]. simpl.
    by apply wf_get_null.
Qed.

(** What [select_best] does on a list of well-formed variants. *)
Lemma select_best_wf tkey ukey vs :
  forallb variant_wf vs = true ->
  select_best tkey ukey (JList vs) =
    Ok (match List.filter (is_mp4 tkey) vs with
        | (_ :: _) as m => Some (field ukey (hd JNull (ranked m)), JList vs)
        | [] =>
            match vs with
            | [] => None
            | _ => Some (field ukey (hd JNull (ranked vs)), JList (ranked vs))
            end
        end).
Proof.
  intros Hwf. unfold select_best. simpl len. simpl iter. cbn [mbind result_bind].
  rewrite (for_each_ok _ (field "bitrate")).
  2:{ apply Forall_forall. intros v Hv. pose proof (forallb_elem _ _ _ Hwf Hv) as Hv'.
      by rewrite !wf_get_null. }
  cbn [mbind result_bind].
  unfold mp4_variants. rewrite (comprehension_ok _ (is_mp4 tkey)).
  2:{ apply Forall_forall. intros v Hv. pose proof (forallb_elem _ _ _ Hwf Hv) as Hv'.
      by rewrite wf_get_null. }
  cbn [mbind result_bind].
  destruct (List.filter (is_mp4 tkey) vs) as [|m0 m] eqn:Ef.
  - destruct vs as [|v0 vs']; [done|].
    cbn [truthy sort_in_place]. rewrite (sort_by_bitrate_wf _ Hwf). cbn [mbind result_bind].
    rewrite return_best_ranked; [reflexivity|done|done].
  - assert (forallb variant_wf (m0 :: m) = true) as Hm.
    { rewrite <- Ef. by apply forallb_filter. }
    rewrite (sort_by_bitrate_wf _ Hm). cbn [mbind result_bind].
    rewrite return_best_ranked; [reflexivity|done|done].
Qed.

Lemma assoc_set_same k v d : assoc k d = Some v -> assoc_set k v d = d.
Proof.
  induction d as [|[k' v'] d IH]; simpl; [done|].
  destruct (String.eqb_spec k k') as [->|Hne].
  - by intros [= ->].
  - intros H. by rewrite IH.
Qed.

Lemma primary_variants_inv td vs :
  primary_variants td = Some vs ->
  exists d vd, td = JDict d /\ assoc "video" d = Some (JDict vd) /\
    assoc "variants" vd = Some (JList vs).
Proof.
  destruct td as [| | | | |d]; try done. simpl.
  destruct (assoc "video" d) as [[| | | | |vd]|] eqn:Ev; try done.
  destruct (assoc "variants" vd) as [[| | | |l|]|] eqn:Evs; try done.
  intros [= ->]. eauto.
Qed.

Lemma assoc_nonempty k d v : assoc k d = Some v -> d <> [].
Proof. by destruct d. Qed.

(** [extract_video_url] on a record of the primary shape with well-formed
    variants: everything is decided by [select_best]. *)
Lemma extract_primary td vs :
  primary_variants td = Some vs -> forallb variant_wf vs = true -> vs <> [] ->
  extract_video_url td =
    Ok (match List.filter (is_mp4 "type") vs with
        | (_ :: _) as m => (field "src" (hd JNull (ranked m)), td)
        | [] => (field "src" (hd JNull (ranked vs)),
                 dict_set "video"
                   (dict_set "variants" (JList (ranked vs)) (field "video" td)) td)
        end).
Proof.
  intros (d & vd & -> & Hv & Hvs)%primary_variants_inv Hwf Hne.
  unfold extract_video_url, probe_primary, primary_guard.
  assert (truthy (JDict d) = true) as -> by (destruct d; done).
  assert (truthy (JDict vd) = true) as Htv by (destruct vd; done).
  simpl negb. simpl orb. cbv iota.
  cbn [contains getitem mbind result_bind]. rewrite Hv.
  rewrite bool_decide_eq_true_2 by eauto.
  cbn [contains getitem mbind result_bind]. rewrite Htv, Hvs.
  rewrite bool_decide_eq_true_2 by eauto.
  cbn [contains getitem mbind result_bind]. 
  rewrite (select_best_wf _ _ _ Hwf). cbn [mbind result_bind option_map prod_map].
  destruct (List.filter (is_mp4 "type") vs) as [|m0 m] eqn:Ef.
  - destruct vs; [done|]. simpl. rewrite Hv. reflexivity.
  - simpl. rewrite (assoc_set_same _ _ _ Hvs), (assoc_set_same _ _ _ Hv). reflexivity.
Qed.

Lemma filter_split {A} (p : A -> bool) l l1 x l2 :
  List.filter p l = l1 ++ x :: l2 ->
  exists pre post, l = pre ++ x :: post /\
    List.filter p pre = l1 /\ List.filter p post = l2.
Proof.
  revert l1. induction l as [|a l IH]; intros l1 H.
  - by destruct l1.
  - simpl in H. destruct (p a) eqn:Ea.
    + destruct l1 as [|b l1]; simpl in H.
      * injection H as <- H. exists [], l. simpl. done.
      * injection H as <- H. destruct (IH _ H) as (pre & post & -> & <- & <-).
        exists (a :: pre), post. simpl. by rewrite Ea.
    + destruct (IH _ H) as (pre & post & -> & <- & <-).
      exists (a :: pre), post. simpl. by rewrite Ea.
Qed.

Lemma filter_elem {A} (p : A -> bool) l x : x ∈ l -> p x = true -> x ∈ List.filter p l.
Proof. rewrite !list_elem_of_In. intros. by apply filter_In. Qed.

Lemma top_ranked_elem p vs best : top_ranked p vs best -> best ∈ vs.
Proof.
  intros (_ & pre & post & -> & _). apply elem_of_app. right. by constructor.
Qed.

Lemma top_ranked_max p vs best w :
  top_ranked p vs best -> w ∈ vs -> p w = true -> bitrate_of w <= bitrate_of best.
Proof.
  intros (_ & pre & post & -> & Hpre & Hpost) Hw Hp.
  apply elem_of_app in Hw as [Hw|Hw]; [specialize (Hpre _ Hw Hp); lia|].
  apply elem_of_cons in Hw as [->|Hw]; [lia|]. by apply Hpost.
Qed.

(** The head of the ranking of the entries accepted by [p] is the top-ranked
    entry of the whole list. *)
Lemma ranked_filter_top p vs best rest :
  ranked (List.filter p vs) = best :: rest -> top_ranked p vs best.
Proof.
  intros (l1 & l2 & Hf & H1 & H2)%ranked_head.
  destruct (filter_split _ _ _ _ _ Hf) as (pre & post & -> & <- & <-).
  split.
  - assert (In best (List.filter p (pre ++ best :: post))) as Hin.
    { rewrite Hf. apply in_elt. }
    by apply filter_In in Hin as [_ ?].
  - exists pre, post. split; [done|]. rewrite Forall_forall in H1. rewrite Forall_forall in H2.
    split; intros w Hw Hp; [apply H1 | apply H2]; by apply filter_elem.
Qed.

Lemma filter_true {A} (l : list A) : List.filter (fun _ => true) l = l.
Proof. induction l; simpl; congruence. Qed.

Lemma filter_nil_existsb {A} (p : A -> bool) l :
  List.filter p l = [] <-> existsb p l = false.
Proof.
  induction l as [|a l IH]; simpl; [done|].
  destruct (p a); simpl; [split; done | done].
Qed.

Lemma existsb_perm {A} (p : A -> bool) l l' :
  Permutation l l' -> existsb p l = existsb p l'.
Proof.
  intros Hp. apply eq_true_iff_eq. rewrite !existsb_exists.
  split; intros (x & Hx & Hpx); exists x; split; try done.
  - by rewrite <- Hp.
  - by rewrite Hp.
Qed.

Lemma existsb_false_elem {A} (p : A -> bool) l x :
  existsb p l = false -> x ∈ l -> p x = false.
Proof.
  intros Hex Hx. destruct (p x) eqn:Hp; [|done].
  rewrite <- Hex. symmetry. apply existsb_exists. exists x. split; [|done].
  by apply list_elem_of_In.
Qed.

Lemma nonempty_ranked l : l <> [] -> exists best rest, ranked l = best :: rest.
Proof.
  intros Hne. destruct (ranked l) as [|b r] eqn:Er; [|eauto].
  exfalso. apply Hne. apply Permutation_nil. rewrite <- Er. apply ranked_perm.
Qed.

(** The two cases of the ranking policy on a record of the primary shape. *)
Lemma selected_variant td vs :
  primary_variants td = Some vs -> forallb variant_wf vs = true -> vs <> [] ->
  exists best,
    top_ranked (if existsb (is_mp4 "type") vs then is_mp4 "type" else fun _ => true) vs best /\
    url_of td = Ok (field "src" best).
Proof.
  intros Hp Hwf Hne. unfold url_of. rewrite (extract_primary _ _ Hp Hwf Hne).
  destruct (List.filter (is_mp4 "type") vs) as [|m0 m] eqn:Ef.
  - apply filter_nil_existsb in Ef as Hex. rewrite Hex.
    destruct (nonempty_ranked vs Hne) as (best & rest & Er).
    exists best. split; [|by rewrite Er].
    apply (ranked_filter_top _ _ _ rest). by rewrite filter_true.
  - assert (existsb (is_mp4 "type") vs = true) as ->.
    { destruct (existsb (is_mp4 "type") vs) eqn:E; [done|].
      apply filter_nil_existsb in E. by rewrite E in Ef. }
    destruct (nonempty_ranked (m0 :: m)) as (best & rest & Er); [done|].
    exists best. split; [|by rewrite Er].
    apply (ranked_filter_top _ _ _ rest). by rewrite Ef.
Qed.



(** C10.  When the primary video field is there with an empty variant list,
    the primary shape returns nothing and the outcome is the one of the
    [mediaDetails] probe: its URL when it selects one, [None] only when it
    selects nothing, a [ScrapingError] when it raises. *)
Theorem empty_primary_falls_through (td : json) :
  primary_variants td = Some [] ->
  probe_primary td = Ok None
  /\ (forall url td', probe_media_details td = Ok (Some (url, td')) ->
        extract_video_url td = Ok (url, td'))
  /\ (probe_media_details td = Ok None -> extract_video_url td = Ok (JNull, td))
  /\ (forall e, probe_media_details td = Raise e ->
        exists r, extract_video_url td = Raise (ScrapingError r)).
Proof.
  intros (d & vd & -> & Hv & Hvs)%primary_variants_inv.
  assert (probe_primary (JDict d) = Ok None) as Hp.
  { unfold probe_primary, primary_guard.
    assert (truthy (JDict vd) = true) as Htv by (destruct vd; done).
    cbn [contains getitem mbind result_bind]. rewrite Hv.
    rewrite bool_decide_eq_true_2 by eauto.
    cbn [contains getitem mbind result_bind]. rewrite Htv, Hvs.
    rewrite bool_decide_eq_true_2 by eauto. reflexivity. }
  assert (truthy (JDict d) = true) as Ht by (destruct d; done).
  split; [done|].
  unfold extract_video_url. rewrite Ht, Hp. simpl negb. simpl orb. cbv iota.
  cbn [mbind result_bind].
  split; [|split].
  - intros url td' ->. reflexivity.
  - intros ->. reflexivity.
  - intros e ->. simpl. destruct e; eauto.
Qed.

Lemma extract_raise_scraping td e :
  extract_video_url td = Raise e -> exists r, e = ScrapingError r.
Proof.
  unfold extract_video_url, wrap_scraping.
  match goal with |- match ?r with _ => _ end = _ -> _ => destruct r as [a|[]] end;
    intros [= <-]; eauto.
Qed.

Lemma variant_container_inv td c :
  variant_container td = Some c ->
  exists d vd, td = JDict d /\ assoc "video" d = Some (JDict vd) /\
    assoc "variants" vd = Some c.
Proof.
  destruct td as [| | | | |d]; try done. simpl.
  destruct (assoc "video" d) as [[| | | | |vd]|] eqn:Ev; try done. eauto.
Qed.

(** The primary probe reaches [select_best] on whatever the container is. *)
Lemma probe_primary_container td c :
  variant_container td = Some c ->
  probe_primary td =
    (sel ← select_best "type" "src" c;
     Ok (option_map (prod_map id (fun vs' =>
           dict_set "video" (dict_set "variants" vs' (field "video" td)) td)) sel)).
Proof.
  intros (d & vd & -> & Hv & Hvs)%variant_container_inv.
  unfold probe_primary, primary_guard.
  assert (truthy (JDict vd) = true) as Htv by (destruct vd; done).
  cbn [contains getitem mbind result_bind]. rewrite Hv.
  rewrite bool_decide_eq_true_2 by eauto.
  cbn [contains getitem mbind result_bind]. rewrite Htv, Hvs.
  rewrite bool_decide_eq_true_2 by eauto.
  cbn [contains getitem mbind result_bind field from_option]. rewrite Hv. reflexivity.
Qed.

Lemma select_best_opaque tkey ukey c :
  opaque_container c = true ->
  exists cause, select_best tkey ukey c = Raise (Builtin cause).
Proof.
  destruct c as [|b|z|s|l|d]; try done; intros H; unfold select_best.
  - eauto.
  - eauto.
  - eauto.
  - destruct s as [|a s]; [done|]. simpl. eauto.
  - destruct d as [|[k v] d]; [done|]. simpl. eauto.
Qed.

Lemma select_best_empty tkey ukey c :
  empty_non_list c = true -> select_best tkey ukey c = Ok None.
Proof.
  destruct c as [|b|z|s|l|d]; try done.
  - destruct s; [done|]. done.
  - destruct d; done.
Qed.

(** C4 (as amended).  An input that is not a dictionary makes the selector
    raise [ScrapingError] ("invalid tweet data"); a variant container that is
    [None], a boolean, a number, a non-empty string or a non-empty dictionary
    makes it raise [ScrapingError] ("unexpected error"); an empty string or
    empty dictionary as container is passed over like an empty list; and the
    selector never raises anything but [ScrapingError]. *)
Theorem malformed_input_outcome :
  (forall td, truthy td = false \/ is_dict td = false ->
     extract_video_url td = Raise (ScrapingError InvalidTweetData))
  /\ (forall td c, variant_container td = Some c -> opaque_container c = true ->
        exists cause,
          extract_video_url td = Raise (ScrapingError (UnexpectedExtract cause)))
  /\ (forall td c, variant_container td = Some c -> empty_non_list c = true ->
        probe_primary td = Ok None)
  /\ (forall td e, extract_video_url td = Raise e -> exists r, e = ScrapingError r).
Proof.
  split; [|split; [|split]].
  - intros td [H|H]; unfold extract_video_url; rewrite H; [reflexivity|].
    rewrite orb_true_r. reflexivity.
  - intros td c Hc Ho.
    destruct (select_best_opaque "type" "src" c Ho) as [cause Hs].
    exists cause. unfold extract_video_url.
    rewrite (probe_primary_container _ _ Hc), Hs.
    apply variant_container_inv in Hc as (d & vd & -> & Hv & _).
    assert (truthy (JDict d) = true) as -> by (destruct d; done). reflexivity.
  - intros td c Hc He.
    rewrite (probe_primary_container _ _ Hc), (select_best_empty _ _ _ He). reflexivity.
  - apply extract_raise_scraping.
Qed.

(** C4, the claim as stated fails: a dictionary as variant container is not
    a list, yet the selector answers [None] without raising. *)
Lemma mapping_container_returns_none :
  let td := JDict [("video", JDict [("variants", JDict [])])] in
  variant_container td = Some (JDict []) /\ is_list (JDict []) = false /\
  extract_video_url td = Ok (JNull, td).
Proof. repeat split. Qed.

Lemma for_each_length {A B} (f : A -> result B) l ys :
  for_each f l = Ok ys -> List.length ys = List.length l.
Proof.
  revert ys. induction l as [|x l IH]; intros ys; simpl.
  - by intros [= <-].
  - destruct (f x); [|done]. simpl. destruct (for_each f l); [|done]. simpl.
    intros [= <-]. simpl. f_equal. by apply IH.
Qed.

Lemma map_snd_combine {A B} (xs : list A) (ys : list B) :
  List.length xs = List.length ys -> map snd (combine xs ys) = ys.
Proof.
  revert ys. induction xs as [|x xs IH]; intros [|y ys]; simpl; try done.
  intros [= H]. f_equal. by apply IH.
Qed.

Lemma sort_by_keys_perm ks l l' :
  List.length ks = List.length l -> sort_by_keys ks l = Ok l' -> Permutation l l'.
Proof.
  intros Hlen. unfold sort_by_keys.
  destruct l as [|a [|b l]]; [by intros [= <-]|by intros [= <-]|].
  destruct (num_keys _) as [zs|] eqn:En.
  - intros [= <-]. rewrite sort_desc_perm, map_snd_combine; [done|].
    apply length_mapM in En. rewrite <- En, length_map. done.
  - destruct (str_keys _) as [ss|] eqn:Es; [|done].
    intros [= <-]. rewrite sort_desc_perm, map_snd_combine; [done|].
    apply length_mapM in Es. rewrite <- Es, length_map. done.
Qed.

Lemma sort_by_bitrate_perm l l' : sort_by_bitrate l = Ok l' -> Permutation l l'.
Proof.
  unfold sort_by_bitrate. destruct (for_each bitrate_key l) as [ks|] eqn:Ek; [|done].
  simpl. apply sort_by_keys_perm. by apply for_each_length in Ek.
Qed.

Lemma dict_set_same k v x : getitem x k = Ok v -> dict_set k v x = x.
Proof.
  destruct x as [| | | | |d]; try done. simpl.
  destruct (assoc k d) eqn:E; [|done]. intros [= ->].
  by rewrite (assoc_set_same _ _ _ E).
Qed.

(** What [select_best] leaves of the object it was given. *)
Lemma select_best_frame tkey ukey variants url variants' :
  select_best tkey ukey variants = Ok (Some (url, variants')) ->
  variants' = variants \/ sorted_fallback tkey variants variants'.
Proof.
  unfold select_best.
  destruct (len variants); [|done]. cbn [mbind result_bind].
  destruct (iter variants) as [vs|] eqn:Ei; [|done]. cbn [mbind result_bind].
  destruct (for_each _ vs); [|done]. cbn [mbind result_bind].
  destruct (mp4_variants tkey vs) as [[|m0 m]|] eqn:Em; [| |done]; cbn [mbind result_bind].
  - destruct (truthy variants); [|done].
    destruct (sort_in_place variants) as [sorted|] eqn:Es; [|done]. cbn [mbind result_bind].
    destruct (return_best ukey sorted); [|done]. cbn [mbind result_bind].
    intros [= _ <-]. right.
    destruct variants as [| | | |l|]; try done. simpl in Ei, Es. injection Ei as <-.
    exists l, sorted. repeat split; try done. by apply sort_by_bitrate_perm.
  - destruct (sort_by_bitrate (m0 :: m)); [|done]. cbn [mbind result_bind].
    destruct (return_best ukey _); [|done]. cbn [mbind result_bind].
    intros [= _ <-]. by left.
Qed.

Lemma probe_primary_frame td url td' :
  probe_primary td = Ok (Some (url, td')) -> td' = td \/ primary_reordered td td'.
Proof.
  unfold probe_primary.
  destruct (primary_guard td) as [[]|]; [|done|done]. cbn [mbind result_bind].
  destruct (getitem td "video") as [video|] eqn:Ev; [|done]. cbn [mbind result_bind].
  destruct (getitem video "variants") as [variants|] eqn:Evs; [|done].
  cbn [mbind result_bind].
  destruct (select_best "type" "src" variants) as [[[u vs']|]|] eqn:Es; [|done|done].
  cbn [mbind result_bind option_map prod_map]. intros [= _ <-].
  destruct (select_best_frame _ _ _ _ _ Es) as [->|Hs].
  - left. by rewrite (dict_set_same _ _ _ Evs), (dict_set_same _ _ _ Ev).
  - right. exists video, variants, vs'. done.
Qed.

Lemma probe_media_frame medias url medias' :
  probe_media medias = Ok (Some (url, medias')) ->
  medias' = medias \/
  exists (i : nat) media video_info variants variants',
    medias !! i = Some media /\
    getitem media "video_info" = Ok video_info /\
    getitem video_info "variants" = Ok variants /\
    sorted_fallback "content_type" variants variants' /\
    medias' = <[i := dict_set "video_info"
                       (dict_set "variants" variants' video_info) media]> medias.
Proof.
  revert medias'. induction medias as [|media rest IH]; intros medias'; [done|].
  cbn [probe_media].
  destruct (media_guard media) as [guard|]; [|done]. cbn [mbind result_bind].
  destruct guard.
  - destruct (getitem media "video_info") as [vi|] eqn:Evi; [|done].
    cbn [mbind result_bind].
    destruct (getitem vi "variants") as [variants|] eqn:Evs; [|done].
    cbn [mbind result_bind].
    destruct (select_best "content_type" "url" variants) as [[[u vs']|]|] eqn:Es;
      [| |done]; cbn [mbind result_bind option_map prod_map].
    + intros [= _ <-].
      destruct (select_best_frame _ _ _ _ _ Es) as [->|Hs].
      * left. by rewrite (dict_set_same _ _ _ Evs), (dict_set_same _ _ _ Evi).
      * right. exists 0%nat, media, vi, variants, vs'. done.
    + destruct (probe_media rest) as [[[u ms']|]|]; [|done|done].
      cbn [mbind result_bind option_map prod_map]. intros [= -> <-].
      destruct (IH ms' eq_refl) as [->|(i & m & vi' & vs & vs' & ? & ? & ? & ? & ->)].
      * by left.
      * right. exists (S i), m, vi', vs, vs'. done.
  - cbn [mbind result_bind].
    destruct (probe_media rest) as [[[u ms']|]|]; [|done|done].
    cbn [mbind result_bind option_map prod_map]. intros [= -> <-].
    destruct (IH ms' eq_refl) as [->|(i & m & vi' & vs & vs' & ? & ? & ? & ? & ->)].
    + by left.
    + right. exists (S i), m, vi', vs, vs'. done.
Qed.

Lemma probe_media_details_frame td url td' :
  probe_media_details td = Ok (Some (url, td')) -> td' = td \/ media_reordered td td'.
Proof.
  unfold probe_media_details.
  destruct (contains "mediaDetails" td) as [[]|]; [|done|done]. cbn [mbind result_bind].
  destruct (getitem td "mediaDetails") as [details|] eqn:Ed; [|done].
  cbn [mbind result_bind].
  destruct (iter details) as [medias|] eqn:Ei; [|done]. cbn [mbind result_bind].
  destruct (probe_media medias) as [[[u ms']|]|] eqn:Ep; [|done|done].
  cbn [mbind result_bind option_map prod_map]. intros [= _ <-].
  destruct (probe_media_frame _ _ _ Ep)
    as [->|(i & m & vi & vs & vs' & Hi & Hvi & Hvs & Hs & ->)].
  - destruct details as [| | |s|l|d]; simpl in Ei; try done; injection Ei as <-.
    + exfalso. destruct s as [|c s]; simpl in Ep; done.
    + left. by apply dict_set_same.
    + exfalso. destruct d as [|[k v] d]; simpl in Ep; done.
  - right. destruct details as [| | |s|l|d]; simpl in Ei; try done; injection Ei as <-.
    + exfalso. destruct s as [|c s]; simpl in Ep; done.
    + exists l, i, m, vi, vs, vs'. done.
    + exfalso. destruct d as [|[k v] d]; simpl in Ep; done.
Qed.





(** [empty_primary_falls_through] on a record whose video is only listed
    under [mediaDetails]. *)
Lemma empty_primary_falls_through_witness :
  primary_variants Samples.tweet_with_media_details = Some [] /\
  extract_video_url Samples.tweet_with_media_details
    = Ok (JStr "media", Samples.tweet_with_media_details).
Proof.
  split; [reflexivity|].
  apply (empty_primary_falls_through Samples.tweet_with_media_details); reflexivity.
Defined.

End SelectorFacts.

(** ** The remote fetch client *)

Module ScraperFacts.
Import Py Scraper ScraperSpec.

Lemma format_url_ok url w :
  url <> "" -> _format_url url w = (Ok (formatted url), w).
Proof.
  intros Hne. unfold _format_url, formatted.
  destruct (String.eqb_spec url ""); [done|].
  by destruct (String.prefix "http" url).
Qed.

(** C7.  With a reply limit of zero or less, [fetch_tweet_replies] raises
    [ValidationError] and leaves the world as it found it: nothing is logged
    and no call reaches the backend. *)
Theorem nonpositive_limit_rejected (cfg : config) (B : backend) (url : string)
    (limit : Z) (w : world) :
  limit <= 0 ->
  fetch_tweet_replies cfg B url limit w = (Raise (ValidationError (BadLimit limit)), w).
Proof.
  intros Hl. unfold fetch_tweet_replies, reraise_or_wrap, try_except.
  assert ((limit <=? 0) = true) as -> by lia. reflexivity.
Qed.

(** C6.  When the backend run yields an empty result set: [fetch_tweet]
    raises [ScrapingError] ("no tweet data found"), whereas
    [fetch_tweet_replies] returns the empty list, having logged two
    information lines and one warning and nothing at error level. *)
Theorem empty_result_set (cfg : config) (B : backend) (url : string) (limit : Z)
    (items : json) (w : world) :
  truthy items = false ->
  (url <> "" -> re_search url <> None ->
   backend_yields B (TWITTER_SCRAPER_ACTOR_ID cfg) (TweetInput (formatted url)) items ->
   exists w', fetch_tweet cfg B url w = (Raise (ScrapingError (NoTweetData url)), w'))
  /\ (url <> "" -> 0 < limit ->
      backend_yields B (TWITTER_REPLIES_SCRAPER_ACTOR_ID cfg)
        (RepliesInput (formatted url) limit) items ->
      exists w', fetch_tweet_replies cfg B url limit w = (Ok (JList []), w') /\
        log w' = log w ++ [(INFO, FetchingReplies limit url);
                           (INFO, UsingFormattedUrlReplies (formatted url));
                           (WARNING, NoReplyData url)]).
Proof.
  intros Hitems. split.
  - intros Hne Hre (run & id & Hrun & Hid & Hds).
    unfold fetch_tweet, reraise_or_wrap, try_except, _extract_tweet_id.
    destruct (String.eqb_spec url ""); [done|].
    destruct (re_search url) as [tid|] eqn:Er; [|done].
    unfold mbind, M_bind, logger, mret, M_ret. cbn [fs log calls].
    rewrite format_url_ok by done.
    unfold call_actor, fetch_items, record, raise, mbind, M_bind, mret, M_ret.
    cbn [fs log calls]. rewrite Hrun, Hid. cbn [fs log calls]. rewrite Hds, Hitems.
    cbn. eauto.
  - intros Hne Hl (run & id & Hrun & Hid & Hds).
    unfold fetch_tweet_replies, reraise_or_wrap, try_except.
    assert ((limit <=? 0) = false) as -> by lia.
    unfold mbind, M_bind, logger, mret, M_ret. cbn [fs log calls].
    rewrite format_url_ok by done.
    unfold call_actor, fetch_items, record, raise, mbind, M_bind, mret, M_ret.
    cbn [fs log calls]. rewrite Hrun, Hid. cbn [fs log calls]. rewrite Hds, Hitems.
    cbn. eexists. split; [reflexivity|]. cbn. by rewrite <- !app_assoc.
Qed.

(** [nonpositive_limit_rejected] at limit 0. *)
Lemma nonpositive_limit_rejected_witness :
  0 <= 0 /\
  fetch_tweet_replies Samples.sample_config Samples.empty_backend
    "https://x.com/alice/status/100" 0 Samples.empty_world
  = (Raise (ValidationError (BadLimit 0)), Samples.empty_world).
Proof.
  split; [lia|].
  apply (nonpositive_limit_rejected Samples.sample_config Samples.empty_backend). lia.
Defined.

(** [empty_result_set] on a backend whose datasets are empty. *)
Lemma empty_result_set_witness :
  let url := "https://x.com/alice/status/100" in
  truthy (JList []) = false /\
  (exists w', fetch_tweet Samples.sample_config Samples.empty_backend url
                Samples.empty_world
              = (Raise (ScrapingError (NoTweetData url)), w')) /\
  (exists w', fetch_tweet_replies Samples.sample_config Samples.empty_backend url 50
                Samples.empty_world = (Ok (JList []), w') /\
              log w' = [(INFO, FetchingReplies 50 url);
                        (INFO, UsingFormattedUrlReplies url);
                        (WARNING, NoReplyData url)]).
Proof.
  split; [reflexivity|].
  pose proof (empty_result_set Samples.sample_config Samples.empty_backend
                "https://x.com/alice/status/100" 50 (JList []) Samples.empty_world
                eq_refl) as [H1 H2].
  split.
  - apply H1; [discriminate|discriminate|].
    exists (JDict [("defaultDatasetId", JStr "ds")]), (JStr "ds"). repeat split.
  - apply H2; [discriminate|lia|].
    exists (JDict [("defaultDatasetId", JStr "ds")]), (JStr "ds"). repeat split.
Defined.

End ScraperFacts.

(** ** Reasoning about [M] *)

Module Steps.
Import Py Downloader Hoare.

Lemma bind_ok {A B} (m : M A) (f : A -> M B) w a w' :
  m w = (Ok a, w') -> (m ≫= f) w = f a w'.
Proof. unfold mbind, M_bind. by intros ->. Qed.

Lemma bind_raise {A B} (m : M A) (f : A -> M B) w e w' :
  m w = (Raise e, w') -> (m ≫= f) w = (Raise e, w').
Proof. unfold mbind, M_bind. by intros ->. Qed.

(** [swallow] always completes. *)
Lemma swallow_ok lvl msg m w : (swallow lvl msg m w).1 = Ok tt.
Proof.
  unfold swallow, try_except. destruct (m w) as [[[]|e] w']; reflexivity.
Qed.

Section Preorder.
(** A relation between the world before and after a computation that holds
    across no step, composes, and admits logging and the engine's
    read-only queries. *)
Variable T : world -> world -> Prop.
Hypothesis T_refl : forall w, T w w.
Hypothesis T_trans : forall a b c, T a b -> T b c -> T a c.
Hypothesis T_log : forall w e, T w (World (fs w) (log w ++ [e]) (calls w)).
Hypothesis T_extract : forall w u b,
  T w (World (fs w) (log w) (calls w ++ [ExtractInfo u b])).

#[local] Abbreviation steps := (Hoare.steps T).

Lemma steps_ret {A} (R : A -> Prop) a : R a -> steps R (mret a).
Proof. intros H w. split; [apply T_refl|]. by intros ? [= <-]. Qed.

Lemma steps_raise {A} (R : A -> Prop) e : steps R (raise e).
Proof. intros w. split; [apply T_refl|done]. Qed.

Lemma steps_lift {A} (R : A -> Prop) (r : result A) :
  (forall a, r = Ok a -> R a) -> steps R (lift r).
Proof. intros H w. split; [apply T_refl|apply H]. Qed.

Lemma steps_logger (R : unit -> Prop) lvl msg : R tt -> steps R (logger lvl msg).
Proof. intros H w. split; [apply T_log|]. by intros []. Qed.

Lemma steps_path_exists p : steps (fun _ => True) (path_exists p).
Proof. intros w. split; [apply T_refl|done]. Qed.

Lemma steps_get_fs : steps (fun _ => True) get_fs.
Proof. intros w. split; [apply T_refl|done]. Qed.

Lemma steps_bind {A B} (R1 : A -> Prop) (R2 : B -> Prop) (m : M A) (f : A -> M B) :
  steps R1 m -> (forall a, R1 a -> steps R2 (f a)) -> steps R2 (m ≫= f).
Proof.
  intros Hm Hf w. destruct (Hm w) as [HT HR].
  unfold mbind, M_bind. destruct (m w) as [[a|e] w1]; simpl in *.
  - destruct (Hf a (HR a eq_refl) w1) as [HT' HR']. split; [|done].
    by eapply T_trans.
  - done.
Qed.

Lemma steps_weaken {A} (R R' : A -> Prop) (m : M A) :
  (forall a, R a -> R' a) -> steps R m -> steps R' m.
Proof. intros H Hm w. destruct (Hm w) as [HT HR]. split; [done|]. auto. Qed.

Lemma steps_try_except {A} (R : A -> Prop) (m : M A) handler :
  steps R m -> (forall e k, handler e = Some k -> steps R k) ->
  steps R (try_except m handler).
Proof.
  intros Hm Hh w. destruct (Hm w) as [HT HR].
  unfold try_except. destruct (m w) as [[a|e] w1]; simpl in *; [done|].
  destruct (handler e) as [k|] eqn:Ek; simpl; [|done].
  destruct (Hh e k Ek w1) as [HT' HR']. split; [|done]. by eapply T_trans.
Qed.

Lemma steps_if {A} (R : A -> Prop) (b : bool) (m1 m2 : M A) :
  steps R m1 -> steps R m2 -> steps R (if b then m1 else m2).
Proof. by destruct b. Qed.

Lemma steps_reraise_or_wrap {A} (R : A -> Prop) wrap (m : M A) :
  steps R m -> steps R (reraise_or_wrap wrap m).
Proof.
  intros Hm. apply steps_try_except; [done|].
  intros [] k; intros [= <-]; apply steps_raise.
Qed.

Lemma steps_swallow (R : unit -> Prop) lvl msg (m : M unit) :
  R tt -> steps (fun _ => True) m -> steps R (swallow lvl msg m).
Proof.
  intros HR Hm. apply steps_try_except.
  - eapply steps_weaken; [|exact Hm]. by intros [].
  - intros e k [= <-]. by apply steps_logger.
Qed.

Lemma steps_record_extract u b : steps (fun _ => True) (record (ExtractInfo u b)).
Proof. intros w. split; [apply T_extract|done]. Qed.

Variable P : platform.

Lemma steps_log_formats fmts : steps (fun _ => True) (log_formats fmts).
Proof.
  induction fmts as [|fmt rest IH]; simpl.
  - by apply steps_ret.
  - eapply steps_bind; [apply (steps_lift (fun _ => True)); done|]. intros _ _.
    eapply steps_bind; [by apply (steps_logger (fun _ => True))|]. intros _ _. done.
Qed.

Lemma steps_list_video_formats video_url :
  steps (fun _ => True) (list_video_formats P video_url).
Proof.
  unfold list_video_formats. apply steps_reraise_or_wrap.
  destruct video_url; try apply steps_raise.
  destruct (String.eqb s ""); [apply steps_raise|].
  eapply steps_bind; [by apply (steps_logger (fun _ => True))|]. intros _ _.
  eapply steps_bind; [apply steps_record_extract|]. intros _ _.
  eapply steps_bind; [by apply (steps_lift (fun _ => True))|]. intros info _.
  eapply (steps_bind (fun _ => True)).
  { destruct (truthy info); [by apply steps_lift|by apply steps_ret]. }
  intros [] _; [|apply steps_raise].
  eapply steps_bind; [by apply (steps_lift (fun _ => True))|]. intros formats _.
  eapply steps_bind; [by apply (steps_lift (fun _ => True))|]. intros n _.
  eapply steps_bind; [by apply (steps_logger (fun _ => True))|]. intros _ _.
  eapply steps_bind; [by apply (steps_lift (fun _ => True))|]. intros fmts _.
  eapply steps_bind; [apply steps_log_formats|]. intros _ _.
  by apply steps_ret.
Qed.

Lemma steps_maybe_list_formats lf url vid :
  steps (fun _ => True) (maybe_list_formats P lf url vid).
Proof.
  unfold maybe_list_formats. destruct lf; [|by apply steps_ret].
  apply steps_swallow; [done|].
  eapply steps_bind; [apply steps_list_video_formats|]. intros formats _.
  destruct (truthy formats); [|by apply steps_ret].
  eapply steps_bind; [by apply (steps_logger (fun _ => True))|]. intros _ _.
  eapply steps_bind; [by apply (steps_lift (fun _ => True))|]. intros fmts _.
  eapply steps_bind; [by apply (steps_lift (fun _ => True))|]. intros _ _.
  by apply steps_ret.
Qed.

Lemma steps_log_selected_format url vid :
  steps (fun _ => True) (log_selected_format P url vid).
Proof.
  unfold log_selected_format. apply steps_swallow; [done|].
  eapply steps_bind; [apply steps_record_extract|]. intros _ _.
  eapply steps_bind; [by apply (steps_lift (fun _ => True))|]. intros info _.
  destruct (truthy info); [|by apply steps_ret].
  eapply steps_bind; [by apply (steps_lift (fun _ => True))|]. intros b1 _.
  eapply (steps_bind (fun _ => True)).
  { destruct b1; [|by apply steps_ret].
    eapply steps_bind; [by apply (steps_lift (fun _ => True))|]. intros v _.
    by apply steps_logger. }
  intros _ _.
  eapply steps_bind; [by apply (steps_lift (fun _ => True))|]. intros b2 _.
  eapply (steps_bind (fun _ => True)).
  { destruct b2; [|by apply steps_ret].
    eapply steps_bind; [by apply (steps_lift (fun _ => True))|]. intros v _.
    by apply steps_logger. }
  intros _ _.
  eapply steps_bind; [by apply (steps_lift (fun _ => True))|]. intros b3 _.
  destruct b3; [|by apply steps_ret].
  eapply steps_bind; [by apply (steps_lift (fun _ => True))|]. intros v _.
  by apply steps_logger.
Qed.

End Preorder.
End Steps.

(** ** Downloads and the reply loop *)

Module DownloaderFacts.
Import Py Downloader DownloaderSpec Hoare Steps.


Lemma inert_refl w : inert w w.
Proof. split; [done|]. exists []. by rewrite app_nil_r. Qed.

Lemma inert_trans a b c : inert a b -> inert b c -> inert a c.
Proof.
  intros [Hf (cs & Hc & Hq)] [Hf' (cs' & Hc' & Hq')]. split; [congruence|].
  exists (cs ++ cs'). rewrite Hc', Hc, app_assoc. split; [done|]. by apply Forall_app.
Qed.

Lemma inert_log w e : inert w (World (fs w) (log w ++ [e]) (calls w)).
Proof. split; [done|]. exists []. by rewrite app_nil_r. Qed.

Lemma inert_extract w u b : inert w (World (fs w) (log w) (calls w ++ [ExtractInfo u b])).
Proof. split; [done|]. exists [ExtractInfo u b]. split; [done|]. by repeat constructor. Qed.

Lemma inert_no_download cs : Forall is_extract_info cs -> List.filter is_download cs = [].
Proof.
  induction 1 as [|c cs Hc _ IH]; [done|]. simpl. rewrite IH. by destruct c.
Qed.

Section WithPlatform.
Variable P : platform.

(** The two logging blocks of [download_video_content] complete and are
    inert. *)
Lemma maybe_list_formats_inert lf url vid w :
  exists w', maybe_list_formats P lf url vid w = (Ok tt, w') /\ inert w w'.
Proof.
  pose proof (steps_maybe_list_formats inert inert_refl inert_trans inert_log inert_extract
                P lf url vid w) as [H1 _].
  assert ((maybe_list_formats P lf url vid w).1 = Ok tt) as Hok.
  { unfold maybe_list_formats. destruct lf; [apply swallow_ok|done]. }
  destruct (maybe_list_formats P lf url vid w) as [r1 w1]. simpl in *. subst r1.
  by exists w1.
Qed.

Lemma log_selected_format_inert url vid w :
  exists w', log_selected_format P url vid w = (Ok tt, w') /\ inert w w'.
Proof.
  pose proof (steps_log_selected_format inert inert_refl inert_trans inert_log inert_extract
                P url vid w) as [H1 _].
  assert ((log_selected_format P url vid w).1 = Ok tt) as Hok by apply swallow_ok.
  destruct (log_selected_format P url vid w) as [r1 w1]. simpl in *. subst r1.
  by exists w1.
Qed.

Lemma ensure_dir_exists_spec dir w :
  exists w' cs,
    _ensure_dir_exists P dir w =
      (if (ensure_dir P dir (fs w)).1
       then Raise (VideoDownloadError (MkdirFailed dir)) else Ok tt, w') /\
    fs w' = (ensure_dir P dir (fs w)).2 /\
    calls w' = calls w ++ cs /\ List.filter is_download cs = [].
Proof.
  unfold _ensure_dir_exists, ensure_dir, mbind, M_bind, path_exists.
  destruct (bool_decide (is_Some (fs w !! dir))).
  - exists w, []. simpl. by rewrite app_nil_r.
  - cbn. destruct (os_makedirs P dir (fs w)) as [[] f']; cbn.
    + eexists _, [Makedirs dir]. done.
    + eexists _, [Makedirs dir]. done.
Qed.

Lemma run_download_spec url out w :
  run_download P url out w =
    (if (ydl_download P url out (fs w)).1
     then Raise (VideoDownloadError (EngineFailed url)) else Ok tt,
     World (ydl_download P url out (fs w)).2 (log w) (calls w ++ [Download url out])).
Proof.
  unfold run_download, mbind, M_bind, record, get_fs, set_fs. cbn [fs log calls].
  by destruct (ydl_download P url out (fs w)) as [[] f2].
Qed.

Lemma verify_download_spec out w :
  exists w',
    verify_download out w =
      (if has_content (fs w) out then Ok out
       else Raise (VideoDownloadError
              (if bool_decide (is_Some (fs w !! (out +:+ ".part")))
               then PartialFile (out +:+ ".part")
               else NotFoundOrEmpty out)), w') /\
    fs w' = fs w /\ calls w' = calls w.
Proof.
  unfold verify_download, has_content, mbind, M_bind, path_exists, getsize, mret, M_ret.
  destruct (fs w !! out) as [size|] eqn:Eout.
  - rewrite bool_decide_eq_true_2 by eauto. cbn [andb]. rewrite Eout.
    destruct (0 <? size).
    + eexists. split; [reflexivity|]. done.
    + destruct (bool_decide _); eexists; (split; [reflexivity|]); done.
  - rewrite bool_decide_eq_false_2 by (by intros [? ?]). cbn [andb].
    destruct (bool_decide _); eexists; (split; [reflexivity|]); done.
Qed.

Lemma reraise_download_error {A} wrap (m : M A) w why w' :
  m w = (Raise (VideoDownloadError why), w') ->
  reraise_or_wrap wrap m w = (Raise (VideoDownloadError why), w').
Proof. unfold reraise_or_wrap, try_except. by intros ->. Qed.

Lemma reraise_ok {A} wrap (m : M A) w a w' :
  m w = (Ok a, w') -> reraise_or_wrap wrap m w = (Ok a, w').
Proof. unfold reraise_or_wrap, try_except. by intros ->. Qed.

Lemma truthy_str s : s <> "" -> truthy (JStr s) = true.
Proof. intros H. simpl. by destruct (String.eqb_spec s ""). Qed.

(** C5 (as amended).  With non-empty string arguments, the download returns
    the output path exactly when the directory is there, the engine's
    download returns without raising and a file of non-zero size is then at
    that path; when the engine raises or the directory cannot be made, and
    when the file is missing or empty (a [.part] file only changes the
    message), it raises [VideoDownloadError]; the engine's download is
    called at most once. *)
Theorem download_outcome (url vid dir : string) (lf : bool) (w : world) :
  url <> "" -> vid <> "" -> dir <> "" ->
  let out := Path.join dir [vid +:+ ".mp4"] in
  exists r w' cs,
    download_video_content P (JStr url) (JStr vid) (JStr dir) lf w = (r, w') /\
    calls w' = calls w ++ cs /\
    (List.length (List.filter is_download cs) <= 1)%nat /\
    match engine_result P url vid dir (fs w) with
    | Some f2 =>
        fs w' = f2 /\
        r = if has_content f2 out then Ok out
            else Raise (VideoDownloadError
                   (if bool_decide (is_Some (f2 !! (out +:+ ".part")))
                    then PartialFile (out +:+ ".part")
                    else NotFoundOrEmpty out))
    | None => exists why, r = Raise (VideoDownloadError why)
    end.
Proof.
  intros Hu Hv Hd out.
  unfold download_video_content.
  rewrite !truthy_str by done. cbn [negb orb is_str].
  change (Path.join dir [vid +:+ ".mp4"]) with out.
  unfold engine_result. change (Path.join dir [vid +:+ ".mp4"]) with out.
  clearbody out.
  destruct (ensure_dir_exists_spec dir w) as (w1 & cs1 & He & Hf1 & Hc1 & Hn1).
  destruct (ensure_dir P dir (fs w)) as [raised1 f1] eqn:Eens. cbn [fst snd] in *.
  destruct raised1.
  { destruct (ydl_download P url out f1). cbn [orb].
    exists (Raise (VideoDownloadError (MkdirFailed dir))), w1, cs1.
    split; [|rewrite Hn1; cbn; eauto 6].
    apply reraise_download_error. by rewrite (bind_raise _ _ _ _ _ He). }
  set (w2 := World (fs w1) (log w1 ++ [(INFO, DownloadingVideo url out)]) (calls w1)).
  destruct (maybe_list_formats_inert lf url vid w2) as (w3 & Hb3 & Hf3 & cs3 & Hc3 & Hq3).
  destruct (log_selected_format_inert url vid w3) as (w4 & Hb4 & Hf4 & cs4 & Hc4 & Hq4).
  assert (fs w4 = f1) as Hfs4 by (rewrite Hf4, Hf3; exact Hf1).
  assert (calls w4 = calls w ++ (cs1 ++ cs3 ++ cs4)) as Hcalls4.
  { rewrite Hc4, Hc3. subst w2. cbn [calls]. rewrite Hc1. by rewrite <- !app_assoc. }
  assert (List.filter is_download (cs1 ++ cs3 ++ cs4) = []) as Hnd.
  { rewrite !List.filter_app, Hn1, !inert_no_download by done. done. }
  set (cs0 := (cs1 ++ cs3 ++ cs4) ++ [Download url out]).
  assert (calls w4 ++ [Download url out] = calls w ++ cs0) as Hcs0.
  { subst cs0. by rewrite Hcalls4, <- app_assoc. }
  assert (List.length (List.filter is_download cs0) <= 1)%nat as Hlen0.
  { subst cs0. rewrite List.filter_app, Hnd. cbn. lia. }
  pose proof (run_download_spec url out w4) as Hrun. rewrite Hfs4 in Hrun.
  destruct (ydl_download P url out f1) as [raised2 f2]. cbn [fst snd orb] in *.
  set (w5 := World f2 (log w4) (calls w4 ++ [Download url out])) in *.
  assert (forall k : M string,
            (_ ← _ensure_dir_exists P dir;
             _ ← logger INFO (DownloadingVideo url out);
             _ ← maybe_list_formats P lf url vid;
             _ ← log_selected_format P url vid;
             _ ← run_download P url out; k) w =
            (if raised2 then (Raise (VideoDownloadError (EngineFailed url)), w5)
             else k w5)) as Hchain.
  { intros k. rewrite (bind_ok _ _ _ _ _ He).
    rewrite (bind_ok (logger INFO (DownloadingVideo url out)) _ w1 tt w2 eq_refl).
    rewrite (bind_ok _ _ _ _ _ Hb3), (bind_ok _ _ _ _ _ Hb4).
    destruct raised2.
    - by rewrite (bind_raise _ _ _ _ _ Hrun).
    - by rewrite (bind_ok _ _ _ _ _ Hrun). }
  destruct raised2.
  { exists (Raise (VideoDownloadError (EngineFailed url))), w5, cs0.
    split; [|split; [exact Hcs0|split; [exact Hlen0|eauto]]].
    apply reraise_download_error. apply Hchain. }
  destruct (verify_download_spec out w5) as (w6 & Hver & Hf6 & Hc6).
  change (fs w5) with f2 in *.
  eexists _, w6, cs0. split; [|split; [rewrite Hc6; exact Hcs0|split; [exact Hlen0|]]].
  2:{ split; [exact Hf6|reflexivity]. }
  destruct (has_content f2 out).
  - apply reraise_ok. rewrite Hchain. exact Hver.
  - apply reraise_download_error. rewrite Hchain. exact Hver.
Qed.


End WithPlatform.

(** C5, the claim as stated fails: a non-empty file from an earlier run is
    at the output path, the engine raises, and the download raises although
    the file is there. *)
Lemma stale_file_engine_raises :
  let P := Samples.sample_platform [] false in
  let w := World (<["out/videos/1.mp4":=10]> (<["out/videos":=4096]> ∅)) [] [] in
  exists w',
    download_video_content P (JStr "http://v/1") (JStr "1") (JStr "out/videos") false w
      = (Raise (VideoDownloadError (EngineFailed "http://v/1")), w') /\
    has_content (fs w') "out/videos/1.mp4" = true.
Proof. eexists. split; vm_compute; reflexivity. Qed.

(** [download_outcome] on a platform where everything succeeds. *)
Lemma download_outcome_witness :
  let P := Samples.sample_platform [] true in
  "http://v/1" <> "" /\ "1" <> "" /\ "out/videos" <> "" /\
  exists r w' cs,
    download_video_content P (JStr "http://v/1") (JStr "1") (JStr "out/videos") false
      Samples.empty_world = (r, w') /\
    calls w' = calls Samples.empty_world ++ cs /\
    (List.length (List.filter is_download cs) <= 1)%nat.
Proof.
  repeat (split; [discriminate|]).
  destruct (download_outcome (Samples.sample_platform [] true)
              "http://v/1" "1" "out/videos" false Samples.empty_world)
    as (r & w' & cs & Hrun & Hcs & Hlen & _); [discriminate..|].
  exists r, w', cs. split; [exact Hrun|]. split; [exact Hcs|exact Hlen].
Defined.


(** C2.  When writing the text of the main post fails, the run raises: no
    reply is looked at and nothing is logged about the failure; the same
    failure on the text of a reply is logged and the run goes on. *)
Theorem root_text_failure_aborts :
  let thread := Samples.sample_thread "202" in
  let root := "out/alice/100/thread_text.json" in
  let reply := "out/alice/100/replies/201/reply_text.json" in
  (let '(r, w') := save_parsed_thread_data (Samples.sample_platform [root] true) false
                     thread "out" Samples.empty_world in
   r = Raise (VideoDownloadError (SaveJsonFailed root)) /\
   calls w' = [Makedirs "out/alice/100"; WriteJson root (Samples.text "root")] /\
   log w' = [(DEBUG, CreatedDirectory "out/alice/100")])
  /\
  (let '(r, w') := save_parsed_thread_data (Samples.sample_platform [reply] true) false
                     thread "out" Samples.empty_world in
   r = Ok ["out/alice/100/thread_text.json";
           "out/alice/100/replies/202/reply_text.json";
           "out/alice/100/replies/202/videos/202.mp4"] /\
   In (ERROR, FailedReplyText (VideoDownloadError (SaveJsonFailed reply))) (log w')).
Proof.
  split.
  - vm_compute. repeat split.
  - vm_compute. split; [reflexivity|]. tauto.
Qed.

End DownloaderFacts.

(** ** Paths *)

Module LayoutFacts.
Import Py Layout.

Lemma ends_with_sep_app p s :
  s <> "" -> Path.ends_with_sep (p +:+ s) = Path.ends_with_sep s.
Proof.
  intros Hs. induction p as [|c p IH]; [done|].
  destruct (p +:+ s) as [|a x] eqn:E.
  - destruct p; simpl in E; done.
  - change (String c p +:+ s) with (String c (p +:+ s)). rewrite E. exact IH.
Qed.

Lemma open_path_inv s : open_path s = true -> s <> "" /\ Path.ends_with_sep s = false.
Proof.
  unfold open_path. intros [H1 H2]%andb_prop. split.
  - intros ->. done.
  - by destruct (Path.ends_with_sep s).
Qed.

Lemma component_inv s :
  component s = true -> open_path s = true /\ Path.starts_with_sep s = false.
Proof.
  unfold component. intros [H1 H2]%andb_prop. split; [done|].
  by destruct (Path.starts_with_sep s).
Qed.

(** [os.path.join] of a path and a component is the two with a separator
    between. *)
Lemma join2_slash p b :
  open_path p = true -> Path.starts_with_sep b = false -> Path.join2 p b = p // b.
Proof.
  intros [Hne He]%open_path_inv Hb. unfold Path.join2. rewrite Hb, He.
  by destruct (String.eqb_spec p "").
Qed.

Lemma open_path_slash p b : open_path b = true -> open_path (p // b) = true.
Proof.
  intros [Hne He]%open_path_inv. unfold open_path, slash.
  rewrite ends_with_sep_app by done.
  destruct b as [|c b]; [done|].
  change (Path.ends_with_sep ("/" +:+ String c b)) with (Path.ends_with_sep (String c b)).
  rewrite He. destruct (String.eqb_spec (p +:+ "/" +:+ String c b) "") as [E|]; [|done].
  by destruct p.
Qed.

Lemma open_path_mp4 vid : open_path (vid +:+ ".mp4") = true.
Proof.
  unfold open_path. rewrite ends_with_sep_app by done.
  destruct (String.eqb_spec (vid +:+ ".mp4") ""); [|done]. by destruct vid.
Qed.

Lemma starts_with_sep_mp4 vid :
  vid <> "" -> Path.starts_with_sep (vid +:+ ".mp4") = Path.starts_with_sep vid.
Proof. destruct vid as [|c vid]; [done|]. intros _. unfold Path.starts_with_sep. simpl. by destruct vid, (Ascii.eqb_spec "/"%char c). Qed.

End LayoutFacts.

(** ** The layout of the files written *)

Module PlacementFacts.
Import Py Downloader Layout LayoutFacts Hoare Steps.

Section Emits.
Variable Q : call -> Prop.
Hypothesis Q_extract : forall u b, Q (ExtractInfo u b).
Hypothesis Q_makedirs : forall p, Q (Makedirs p).

#[local] Abbreviation emits := (Hoare.emits Q).

Lemma emits_refl w : emits w w.
Proof. exists []. by rewrite app_nil_r. Qed.

Lemma emits_trans a b c : emits a b -> emits b c -> emits a c.
Proof.
  intros (cs & Hc & Hq) (cs' & Hc' & Hq').
  exists (cs ++ cs'). rewrite Hc', Hc, app_assoc. split; [done|]. by apply Forall_app.
Qed.

Lemma emits_log w e : emits w (World (fs w) (log w ++ [e]) (calls w)).
Proof. exists []. by rewrite app_nil_r. Qed.

Lemma emits_extract w u b : emits w (World (fs w) (log w) (calls w ++ [ExtractInfo u b])).
Proof. exists [ExtractInfo u b]. split; [done|]. by repeat constructor. Qed.

#[local] Abbreviation steps := (Hoare.steps emits).
#[local] Abbreviation sbind := (steps_bind emits emits_trans).
#[local] Abbreviation sret := (steps_ret emits emits_refl).
#[local] Abbreviation sraise := (steps_raise emits emits_refl).
#[local] Abbreviation slift := (steps_lift emits emits_refl).
#[local] Abbreviation slog := (steps_logger emits emits_log).

Lemma steps_record (c : call) : Q c -> steps (fun _ => True) (record c).
Proof. intros Hc w. split; [|done]. exists [c]. split; [done|]. by repeat constructor. Qed.

Lemma steps_set_fs f : steps (fun _ => True) (set_fs f).
Proof. intros w. split; [|done]. exists []. by rewrite app_nil_r. Qed.

Variable P : platform.

Lemma steps_ensure_dir dir : steps (fun _ => True) (_ensure_dir_exists P dir).
Proof.
  unfold _ensure_dir_exists.
  eapply sbind; [apply (steps_path_exists emits emits_refl)|]. intros [] _.
  { by apply sret. }
  eapply sbind; [by apply steps_record|]. intros _ _.
  eapply sbind; [apply (steps_get_fs emits emits_refl)|]. intros f _.
  destruct (os_makedirs P dir f) as [raised f'].
  eapply sbind; [apply steps_set_fs|]. intros _ _.
  destruct raised; [apply sraise|by apply slog].
Qed.

Lemma steps_save_json data file_path :
  Q (WriteJson file_path data) ->
  steps (fun _ => True) (_save_json_content P data file_path).
Proof.
  intros HQ. unfold _save_json_content.
  destruct (negb (truthy data)); [apply sraise|].
  destruct (String.eqb file_path ""); [apply sraise|].
  eapply sbind; [apply steps_ensure_dir|]. intros _ _.
  eapply sbind; [by apply steps_record|]. intros _ _.
  eapply sbind; [apply (steps_get_fs emits emits_refl)|]. intros f _.
  destruct (write_json P file_path data f) as [raised f'].
  eapply sbind; [apply steps_set_fs|]. intros _ _.
  destruct raised; [apply sraise|by apply slog].
Qed.

Lemma steps_run_download url out :
  Q (Download url out) -> steps (fun _ => True) (run_download P url out).
Proof.
  intros HQ. unfold run_download.
  eapply sbind; [by apply steps_record|]. intros _ _.
  eapply sbind; [apply (steps_get_fs emits emits_refl)|]. intros f _.
  destruct (ydl_download P url out f) as [raised f'].
  eapply sbind; [apply steps_set_fs|]. intros _ _.
  destruct raised; [apply sraise|by apply sret].
Qed.

Lemma steps_verify_download out : steps (fun p => p = out) (verify_download out).
Proof.
  unfold verify_download.
  eapply sbind; [apply (steps_path_exists emits emits_refl)|]. intros present _.
  eapply (sbind (fun _ => True)).
  { destruct present; [|by apply sret].
    intros w. split; [|done]. unfold getsize. destruct (fs w !! out); apply emits_refl. }
  intros size _.
  destruct (present && (0 <? size)).
  - eapply sbind; [by apply (slog (fun _ => True))|]. intros _ _. by apply sret.
  - eapply sbind; [apply (steps_path_exists emits emits_refl)|]. intros [] _; apply sraise.
Qed.

(** A download emits one [Download] call at most, to the path it returns. *)
Lemma steps_download (R : string -> Prop) video_url video_id output_dir lf :
  (forall url vid dir,
     video_url = JStr url -> video_id = JStr vid -> output_dir = JStr dir -> vid <> "" ->
     Q (Download url (Path.join dir [vid +:+ ".mp4"])) /\
     R (Path.join dir [vid +:+ ".mp4"])) ->
  steps R (download_video_content P video_url video_id output_dir lf).
Proof.
  intros H. unfold download_video_content. apply steps_reraise_or_wrap; [apply emits_refl|apply emits_trans|].
  destruct (negb (truthy video_url) || negb (is_str video_url)); [apply sraise|].
  destruct (negb (truthy video_id) || negb (is_str video_id)) eqn:Evid; [apply sraise|].
  destruct (negb (truthy output_dir) || negb (is_str output_dir)); [apply sraise|].
  destruct video_url as [| | |url| |]; try apply sraise.
  destruct video_id as [| | |vid| |]; try apply sraise.
  destruct output_dir as [| | |dir| |]; try apply sraise.
  assert (vid <> "") as Hvid by (intros ->; done).
  destruct (H url vid dir eq_refl eq_refl eq_refl Hvid) as [HQ HR].
  eapply sbind; [apply steps_ensure_dir|]. intros _ _.
  eapply sbind; [by apply (slog (fun _ => True))|]. intros _ _.
  eapply sbind;
    [apply (steps_maybe_list_formats emits emits_refl emits_trans emits_log emits_extract)|].
  intros _ _.
  eapply sbind;
    [apply (steps_log_selected_format emits emits_refl emits_trans emits_log emits_extract)|].
  intros _ _.
  eapply sbind; [by apply steps_run_download|]. intros _ _.
  eapply steps_weaken; [|apply steps_verify_download]. by intros ? ->.
Qed.

Lemma steps_or_log_error (R : list string -> Prop) msg saved m :
  R saved -> steps R m -> steps R (or_log_error msg saved m).
Proof.
  intros HR Hm. apply steps_try_except; [apply emits_trans|done|].
  intros [] k; intros [= <-].
  eapply sbind; [by apply (slog (fun _ => True))|]. intros _ _. by apply sret.
Qed.

(** The loop over the videos of one item: [default] is the id used when a
    record has no [tweet_id]. *)
Lemma steps_reply_videos (C : string -> Prop) lf default path videos saved :
  (forall v url vid,
     v ∈ videos -> get v "tweet_id" default = Ok (JStr vid) -> vid <> "" ->
     Q (Download url (Path.join path [vid +:+ ".mp4"])) /\
     C (Path.join path [vid +:+ ".mp4"])) ->
  Forall C saved ->
  steps (Forall C) (download_reply_videos P lf default path videos saved).
Proof.
  revert saved. induction videos as [|v rest IH]; intros saved Hv Hs.
  - by apply sret.
  - cbn [download_reply_videos].
    eapply sbind; [by apply (slift (fun _ => True))|]. intros video_url _.
    eapply sbind; [apply (slift (fun x => get v "tweet_id" default = Ok x)); done|].
    intros video_id Hid.
    eapply (sbind (Forall C)).
    + destruct (truthy video_url && truthy video_id); [|by apply sret].
      apply steps_or_log_error; [done|].
      eapply sbind.
      * apply (steps_download C).
        intros url vid dir ? ? [= <-] Hne. subst.
        apply (Hv v); [by constructor|done|done].
      * intros p Hp. apply sret. apply Forall_app. split; [done|]. by constructor.
    + intros saved' Hs'. apply IH; [|done].
      intros v' url vid Hin. apply Hv. by constructor.
Qed.

Lemma steps_thread_videos (C : string -> Prop) lf thread_id path videos saved :
  (forall url vid,
     thread_id = JStr vid -> vid <> "" ->
     Q (Download url (Path.join path [vid +:+ ".mp4"])) /\
     C (Path.join path [vid +:+ ".mp4"])) ->
  Forall C saved ->
  steps (Forall C) (download_thread_videos P lf thread_id path videos saved).
Proof.
  revert saved. induction videos as [|v rest IH]; intros saved Hv Hs.
  - by apply sret.
  - cbn [download_thread_videos].
    eapply sbind; [by apply (slift (fun _ => True))|]. intros video_url _.
    eapply (sbind (Forall C)).
    + destruct (truthy video_url && truthy thread_id); [|by apply sret].
      apply steps_or_log_error; [done|].
      eapply sbind.
      * apply (steps_download C).
        intros url vid dir ? ? [= <-] Hne. subst. by apply Hv.
      * intros p Hp. apply sret. apply Forall_app. split; [done|]. by constructor.
    + intros saved' Hs'. by apply IH.
Qed.

End Emits.

Section Thread.
Variables (output_root author_handle thread_id : string) (parsed_data : json).
Variable P : platform.
Variable lf : bool.

#[local] Abbreviation Q := (placed output_root author_handle thread_id parsed_data).
#[local] Abbreviation C :=
  (fun p => text_place output_root author_handle thread_id parsed_data p \/
            video_place output_root author_handle thread_id parsed_data p).
#[local] Abbreviation tdir := (thread_dir output_root author_handle thread_id).

Lemma items_get_iter record key v l :
  get record key (JList []) = Ok v -> iter v = Ok l -> items record key = l.
Proof. unfold items. by intros -> ->. Qed.

Lemma truthy_str_inv s : truthy (JStr s) = true -> s <> "".
Proof. by intros H ->. Qed.

(** The loop over the replies keeps to the layout. *)
Lemma steps_process_replies replies saved :
  (forall r, r ∈ replies -> r ∈ items parsed_data "replies" /\ reply_wf r = true) ->
  Forall C saved ->
  Hoare.steps (emits Q) (Forall C)
    (process_replies P lf (tdir // "replies") replies saved).
Proof.
  revert saved. induction replies as [|r rest IH]; intros saved Hr Hs.
  - by apply steps_ret; [apply emits_refl|].
  - cbn [process_replies].
    eapply steps_bind; [apply emits_trans| |].
    { apply (steps_lift _ (emits_refl Q) (fun x => get r "reply_id" JNull = Ok x)); done. }
    intros reply_id Hid.
    destruct (truthy reply_id) eqn:Etr; cbn [negb].
    2:{ eapply steps_bind; [apply emits_trans|by apply (steps_logger _ (emits_log Q) (fun _ => True))|].
        intros _ _. apply IH; [|done]. intros r' Hin. apply Hr. by constructor. }
    destruct (Hr r) as [Hin Hwf]; [by constructor|].
    destruct reply_id as [| | |rid| |];
      try (eapply steps_bind; [apply emits_trans| |];
           [apply (steps_lift _ (emits_refl Q) (fun _ => False)); done|done]).
    assert (reply_id_of r = JStr rid) as Hrid.
    { destruct r; try done. simpl in Hid. by injection Hid. }
    apply truthy_str_inv in Etr as Hne.
    unfold reply_wf in Hwf. rewrite Hrid in Hwf.
    destruct (String.eqb_spec rid ""); [done|]. cbn [orb] in Hwf.
    apply andb_prop in Hwf as [[Hopen Hstart]%component_inv Hvids].
    assert (Path.join_values (tdir // "replies") [JStr rid]
            = Ok (reply_dir output_root author_handle thread_id rid)) as Hjoin.
    { unfold Path.join_values, Path.join. cbn [for_each mbind result_bind fold_left].
      rewrite join2_slash; [done| |done].
      by apply open_path_slash. }
    assert (open_path (reply_dir output_root author_handle thread_id rid) = true) as Hro.
    { by apply open_path_slash. }
    eapply steps_bind; [apply emits_trans| |].
    { apply (steps_lift _ (emits_refl Q)
               (fun x => x = reply_dir output_root author_handle thread_id rid)).
      rewrite Hjoin. by intros ? [= <-]. }
    intros ? ->.
    eapply steps_bind; [apply emits_trans|by apply steps_ensure_dir|]. intros _ _.
    eapply steps_bind; [apply emits_trans|by apply (steps_lift _ (emits_refl Q) (fun _ => True))|].
    intros reply_text_content _.
    eapply (steps_bind _ (emits_trans Q) (Forall C)).
    { destruct (truthy reply_text_content); [|by apply steps_ret; [apply emits_refl|]].
      assert (Path.join (reply_dir output_root author_handle thread_id rid)
                ["reply_text.json"]
              = reply_text output_root author_handle thread_id rid) as ->.
      { unfold Path.join. cbn [fold_left]. by rewrite join2_slash. }
      assert (text_place output_root author_handle thread_id parsed_data
                (reply_text output_root author_handle thread_id rid)) as Htp.
      { right. exists rid. split; [|done]. by exists r. }
      apply steps_or_log_error; [done|].
      eapply steps_bind; [apply emits_trans|by apply steps_save_json|]. intros _ _.
      apply steps_ret; [apply emits_refl|]. apply Forall_app. split; [done|].
      constructor; [by left|done]. }
    intros saved1 Hs1.
    eapply steps_bind; [apply emits_trans| |].
    { apply (steps_lift _ (emits_refl Q)
               (fun x => get r "reply_videos" (JList []) = Ok x)); done. }
    intros reply_videos Hrv.
    eapply steps_bind; [apply emits_trans| |].
    { apply (steps_lift _ (emits_refl Q) (fun x => iter reply_videos = Ok x)); done. }
    intros videos Hiter.
    pose proof (items_get_iter _ _ _ _ Hrv Hiter) as Hitems.
    eapply (steps_bind _ (emits_trans Q) (Forall C)).
    { apply steps_reply_videos; [done|done| |done].
      intros v url vid Hv Hget Hvne.
      assert (file_id rid v = JStr vid) as Hfid.
      { destruct v; try done. simpl in Hget. by injection Hget. }
      rewrite Hitems in Hvids. rewrite forallb_forall in Hvids.
      specialize (Hvids v). rewrite Hfid in Hvids.
      destruct (String.eqb_spec vid ""); [done|]. cbn [orb] in Hvids.
      destruct (component_inv vid) as [Hvo Hvs]; [apply Hvids; by apply list_elem_of_In|].
      assert (Path.join (Path.join (reply_dir output_root author_handle thread_id rid)
                           ["videos"]) [vid +:+ ".mp4"]
              = reply_video output_root author_handle thread_id rid vid) as ->.
      { unfold Path.join. cbn [fold_left]. rewrite (join2_slash _ "videos") by done.
        rewrite join2_slash; [done|by apply open_path_slash|].
        by rewrite starts_with_sep_mp4. }
      assert (video_place output_root author_handle thread_id parsed_data
                (reply_video output_root author_handle thread_id rid vid)) as Hvp.
      { right. exists rid, vid. split; [|done]. exists r, v. by rewrite Hitems. }
      split; [done|by right]. }
    intros saved2 Hs2. apply IH; [|done]. intros r' Hin'. apply Hr. by constructor.
Qed.

End Thread.




End PlacementFacts.

(** ** The status URL pattern *)

Module UrlFacts.
Import Py Scraper UrlSpec.

Lemma strip_prefix_app p r : strip_prefix p (p +:+ r) = Some r.
Proof.
  induction p as [|a p IH]; simpl; [by destruct r|].
  by rewrite Ascii.eqb_refl.
Qed.

Lemma strip_prefix_inv p s r : strip_prefix p s = Some r -> s = p +:+ r.
Proof.
  revert s. induction p as [|a p IH]; intros s; simpl.
  - by intros [= ->].
  - destruct s as [|b s]; [done|].
    destruct (Ascii.eqb_spec a b) as [->|]; [|done].
    intros H. by rewrite (IH _ H).
Qed.

Lemma span_inv p s a b :
  span p s = (a, b) -> s = a +:+ b /\ all_chars p a = true /\ stops p b = true.
Proof.
  revert a b. induction s as [|c s IH]; intros a b; simpl.
  - by intros [= <- <-].
  - destruct (p c) eqn:Ec.
    + destruct (span p s) as [a' b'] eqn:Es.
      destruct (IH a' b' eq_refl) as (-> & Ha & Hb).
      intros [= <- <-]. split; [done|]. split; [|done]. simpl. by rewrite Ec.
    + intros [= <- <-]. split; [done|]. split; [done|]. simpl. by rewrite Ec.
Qed.

Lemma span_run p a b :
  all_chars p a = true -> stops p b = true -> span p (a +:+ b) = (a, b).
Proof.
  intros Ha Hb. induction a as [|c a IH]; simpl in *.
  - destruct b as [|c b]; [done|]. simpl in *. destruct (p c); done.
  - apply andb_prop in Ha as [-> Ha]. by rewrite IH.
Qed.

Lemma append_assoc (a b c : string) : (a +:+ b) +:+ c = a +:+ b +:+ c.
Proof.
  induction a as [|x a IH]; [done|].
  change (String x ((a +:+ b) +:+ c) = String x (a +:+ b +:+ c)). by rewrite IH.
Qed.

(** What a match at the start of [s] says about [s]. *)
Lemma match_here_inv s d :
  match_here s = Some d ->
  exists host user rest,
    s = status_path host user d rest /\ is_host host = true /\
    run_of is_word user = true /\ run_of is_digit d = true /\
    stops is_digit rest = true.
Proof.
  unfold match_here.
  destruct (strip_prefix "twitter.com" s) as [r0|] eqn:E0.
  - cbn [mbind option_bind]. intros H. exists "twitter.com".
    apply strip_prefix_inv in E0 as ->. revert H.
    destruct (strip_prefix "/" r0) as [r1|] eqn:E1; [|done]. cbn [mbind option_bind].
    apply strip_prefix_inv in E1 as ->.
    destruct (span is_word r1) as [user r2] eqn:E2.
    destruct (String.eqb_spec user ""); [done|].
    destruct (strip_prefix "/status/" r2) as [r3|] eqn:E3; [|done].
    cbn [mbind option_bind].
    apply strip_prefix_inv in E3 as ->.
    destruct (span is_digit r3) as [digits rest] eqn:E4.
    destruct (String.eqb_spec digits ""); [done|]. intros [= <-].
    apply span_inv in E2 as (-> & Hu & _). apply span_inv in E4 as (-> & Hd & Hr).
    exists user, rest. unfold status_path, run_of.
    rewrite Hu, Hd, Hr.
    destruct (String.eqb_spec user ""); [done|].
    destruct (String.eqb_spec digits ""); [done|].
    repeat split.
  - destruct (strip_prefix "x.com" s) as [r0'|] eqn:E0'; [|done].
    cbn [mbind option_bind]. intros H. exists "x.com".
    apply strip_prefix_inv in E0' as ->. revert H.
    destruct (strip_prefix "/" r0') as [r1|] eqn:E1; [|done]. cbn [mbind option_bind].
    apply strip_prefix_inv in E1 as ->.
    destruct (span is_word r1) as [user r2] eqn:E2.
    destruct (String.eqb_spec user ""); [done|].
    destruct (strip_prefix "/status/" r2) as [r3|] eqn:E3; [|done].
    cbn [mbind option_bind].
    apply strip_prefix_inv in E3 as ->.
    destruct (span is_digit r3) as [digits rest] eqn:E4.
    destruct (String.eqb_spec digits ""); [done|]. intros [= <-].
    apply span_inv in E2 as (-> & Hu & _). apply span_inv in E4 as (-> & Hd & Hr).
    exists user, rest. unfold status_path, run_of.
    rewrite Hu, Hd, Hr.
    destruct (String.eqb_spec user ""); [done|].
    destruct (String.eqb_spec digits ""); [done|].
    repeat split.
Qed.

Lemma re_search_inv s d :
  re_search s = Some d -> exists pre suf, s = pre +:+ suf /\ match_here suf = Some d.
Proof.
  induction s as [|c s IH]; cbn [re_search].
  - destruct (match_here "") eqn:E; [|done]. intros [= ->]. by exists "", "".
  - destruct (match_here (String c s)) eqn:E.
    + intros [= ->]. by exists "", (String c s).
    + intros (pre & suf & -> & Hm)%IH. by exists (String c pre), suf.
Qed.

Lemma run_of_inv p s : run_of p s = true -> s <> "" /\ all_chars p s = true.
Proof.
  unfold run_of. intros [H1 H2]%andb_prop. split; [|done]. by intros ->.
Qed.

Lemma match_here_status host user digits rest :
  is_host host = true -> run_of is_word user = true ->
  run_of is_digit digits = true -> stops is_digit rest = true ->
  match_here (status_path host user digits rest) = Some digits.
Proof.
  intros Hh [Hu Huw]%run_of_inv [Hd Hdd]%run_of_inv Hr.
  unfold match_here, status_path, is_host in *.
  destruct (String.eqb_spec host "twitter.com") as [->|Hne].
  - rewrite strip_prefix_app. cbn [mbind option_bind].
    rewrite (strip_prefix_app "/"). cbn [mbind option_bind].
    rewrite span_run by done.
    destruct (String.eqb_spec user ""); [done|].
    rewrite (strip_prefix_app "/status/"). cbn [mbind option_bind].
    rewrite span_run by done. by destruct (String.eqb_spec digits "").
  - destruct (String.eqb_spec host "x.com") as [->|]; [|done].
    change (strip_prefix "twitter.com" ("x.com" +:+ ?r)) with (@None string).
    rewrite (strip_prefix_app "x.com"). cbn [mbind option_bind].
    rewrite (strip_prefix_app "/"). cbn [mbind option_bind].
    rewrite span_run by done.
    destruct (String.eqb_spec user ""); [done|].
    rewrite (strip_prefix_app "/status/"). cbn [mbind option_bind].
    rewrite span_run by done. by destruct (String.eqb_spec digits "").
Qed.

Lemma re_search_here s d : match_here s = Some d -> re_search s = Some d.
Proof. intros H. destruct s; cbn [re_search]; by rewrite H. Qed.

Lemma re_search_skip c s : match_here (String c s) = None -> re_search (String c s) = re_search s.
Proof. intros H. cbn [re_search]. by rewrite H. Qed.

Lemma re_search_status scheme host user digits rest :
  is_scheme scheme = true -> is_host host = true -> run_of is_word user = true ->
  run_of is_digit digits = true -> stops is_digit rest = true ->
  re_search (scheme +:+ status_path host user digits rest) = Some digits.
Proof.
  intros Hs Hh Hu Hd Hr.
  pose proof (match_here_status _ _ _ _ Hh Hu Hd Hr) as Hm.
  apply re_search_here in Hm.
  unfold is_scheme in Hs.
  destruct (String.eqb_spec scheme "") as [->|_]; [exact Hm|].
  destruct (String.eqb_spec scheme "http://") as [->|_].
  { change ("http://" +:+ ?s) with (String "h" (String "t" (String "t" (String "p"
       (String ":" (String "/" (String "/" s))))))).
    rewrite !re_search_skip by reflexivity. exact Hm. }
  destruct (String.eqb_spec scheme "https://") as [->|_]; [|done].
  change ("https://" +:+ ?s) with (String "h" (String "t" (String "t" (String "p"
     (String "s" (String ":" (String "/" (String "/" s)))))))).
  rewrite !re_search_skip by reflexivity. exact Hm.
Qed.





End UrlFacts.

(** ** The fetch client, further *)

Module FetchFacts.
Import Py Scraper ScraperSpec FetchSpec.

Lemma formatted_prefix url : url <> "" -> String.prefix "http" (formatted url) = true.
Proof.
  intros _. unfold formatted. destruct (String.prefix "http" url) eqn:E; [done|].
  reflexivity.
Qed.

Lemma prefix_nonempty p s : p <> "" -> String.prefix p s = true -> s <> "".
Proof. intros Hp H ->. by destruct p. Qed.

(** X3.  [_format_url] accepts every non-empty URL, gives one that starts with
    [http], and formatting that one again changes nothing. *)
Theorem format_url_idempotent (url : string) (w : world) :
  url <> "" ->
  exists u, _format_url url w = (Ok u, w) /\
            String.prefix "http" u = true /\
            _format_url u w = (Ok u, w).
Proof.
  intros Hne. exists (formatted url).
  pose proof (formatted_prefix url Hne) as Hp.
  split; [by apply ScraperFacts.format_url_ok|]. split; [done|].
  rewrite ScraperFacts.format_url_ok by (by apply (prefix_nonempty "http")).
  unfold formatted at 1. by rewrite Hp.
Qed.

Section WithBackend.
Variable cfg : config.
Variable B : backend.

Lemma reraise_client {A} wrap (m : M A) w :
  match (reraise_or_wrap wrap m w).1 with
  | Ok _ => True
  | Raise e => client_error e = true
  end.
Proof.
  unfold reraise_or_wrap, try_except.
  destruct (m w) as [[a|[]] w']; done.
Qed.

Lemma fetch_tweet_error_kind (url : string) (limit : Z) (w : world) :
  match (fetch_tweet cfg B url w).1 with
  | Ok _ => True
  | Raise e => client_error e = true
  end.
Proof. apply reraise_client. Qed.

Lemma fetch_replies_error_kind (url : string) (limit : Z) (w : world) :
  match (fetch_tweet_replies cfg B url limit w).1 with
  | Ok _ => True
  | Raise e => client_error e = true
  end.
Proof. apply reraise_client. Qed.

(** X9.  Whatever the backend does, the three fetch operations raise nothing but
    [ValidationError] and [ScrapingError]. *)
Theorem fetch_raises_client_errors (url : string) (limit : Z) (w : world) (e : exn) :
  (fetch_tweet cfg B url w).1 = Raise e \/
  (fetch_tweet_replies cfg B url limit w).1 = Raise e \/
  (fetch_tweet_and_replies cfg B url limit w).1 = Raise e ->
  client_error e = true.
Proof.
  intros [H|[H|H]].
  - unfold fetch_tweet in H.
    match type of H with (reraise_or_wrap ?wr ?m w).1 = _ =>
      pose proof (reraise_client wr m w) as Hc end.
    by rewrite H in Hc.
  - unfold fetch_tweet_replies in H.
    match type of H with (reraise_or_wrap ?wr ?m w).1 = _ =>
      pose proof (reraise_client wr m w) as Hc end.
    by rewrite H in Hc.
  - unfold fetch_tweet_and_replies in H.
    match type of H with (reraise_or_wrap ?wr ?m w).1 = _ =>
      pose proof (reraise_client wr m w) as Hc end.
    by rewrite H in Hc.
Qed.


(** X5.  When the backend answers a status URL with a list of records,
    [fetch_tweet] returns the first one, having run the tweet actor once on
    the formatted URL and read the dataset of that run. *)
Theorem fetch_tweet_returns_first (url : string) (w : world) (run dataset_id tweet : json)
    (others : list json) :
  url <> "" -> re_search url <> None ->
  actor_call B (TWITTER_SCRAPER_ACTOR_ID cfg) (TweetInput (formatted url)) = Ok run ->
  getitem run "defaultDatasetId" = Ok dataset_id ->
  dataset_items B dataset_id = Ok (JList (tweet :: others)) ->
  exists w', fetch_tweet cfg B url w = (Ok tweet, w') /\
    calls w' = calls w ++ [ActorCall (TWITTER_SCRAPER_ACTOR_ID cfg) (TweetInput (formatted url));
                           DatasetCall dataset_id].
Proof.
  intros Hne Hre Hrun Hid Hds.
  unfold fetch_tweet, reraise_or_wrap, try_except, _extract_tweet_id.
  destruct (String.eqb_spec url ""); [done|].
  destruct (re_search url) as [tid|] eqn:Er; [|done].
  unfold mbind, M_bind, logger, mret, M_ret. cbn [fs log calls].
  rewrite ScraperFacts.format_url_ok by done.
  unfold call_actor, fetch_items, record, raise, mbind, M_bind, mret, M_ret.
  cbn [fs log calls]. rewrite Hrun, Hid. cbn [fs log calls]. rewrite Hds.
  cbn. eexists. split; [reflexivity|]. cbn. by rewrite <- app_assoc.
Qed.

Lemma log_replies_dicts i replies w :
  forallb is_dict replies = true ->
  exists lg, log_replies i replies w = (Ok tt, World (fs w) (log w ++ lg) (calls w)).
Proof.
  revert i w. induction replies as [|r rest IH]; intros i w H.
  - exists []. cbn. rewrite app_nil_r. by destruct w.
  - cbn in H. apply andb_prop in H as [Hr Hrest]. destruct r; try done.
    cbn [log_replies]. unfold mbind, M_bind, logger. cbn [fs log calls].
    destruct (i =? 0)%nat; cbn [fs log calls].
    + match goal with |- context [log_replies _ _ ?w1] =>
        destruct (IH (S i) w1 Hrest) as [lg ->] end.
      cbn [fs log calls]. eexists. by rewrite <- !app_assoc.
    + unfold mret, M_ret.
      match goal with |- context [log_replies _ _ ?w1] =>
        destruct (IH (S i) w1 Hrest) as [lg ->] end.
      cbn [fs log calls]. eexists. by rewrite <- !app_assoc.
Qed.

Lemma log_replies_other i replies w :
  forallb is_dict replies = false ->
  exists lg, log_replies i replies w
             = (Raise (Builtin AttributeError), World (fs w) (log w ++ lg) (calls w)).
Proof.
  revert i w. induction replies as [|r rest IH]; intros i w H; [done|].
  cbn in H. destruct (is_dict r) eqn:Er.
  - destruct r; try done. cbn [andb] in H.
    cbn [log_replies]. unfold mbind, M_bind, logger. cbn [fs log calls].
    destruct (i =? 0)%nat; cbn [fs log calls].
    + match goal with |- context [log_replies _ _ ?w1] =>
        destruct (IH (S i) w1 H) as [lg ->] end.
      cbn [fs log calls]. eexists. by rewrite <- !app_assoc.
    + unfold mret, M_ret.
      match goal with |- context [log_replies _ _ ?w1] =>
        destruct (IH (S i) w1 H) as [lg ->] end.
      cbn [fs log calls]. eexists. by rewrite <- !app_assoc.
  - exists []. rewrite app_nil_r. destruct r; try done; by destruct w.
Qed.

(** X6.  When the backend answers with a non-empty list of records,
    [fetch_tweet_replies] hands the list back as it is, in the backend's
    order, if every record is a dictionary; a single record that is not one
    makes the whole fetch raise [ScrapingError], from the debug line that
    lists its keys.  Either way the replies actor was run once, with the
    formatted URL and the limit, and its dataset read once. *)
Theorem fetch_replies_all_or_nothing (url : string) (limit : Z) (w : world)
    (run dataset_id : json) (replies : list json) :
  url <> "" -> 0 < limit -> replies <> [] ->
  actor_call B (TWITTER_REPLIES_SCRAPER_ACTOR_ID cfg) (RepliesInput (formatted url) limit)
    = Ok run ->
  getitem run "defaultDatasetId" = Ok dataset_id ->
  dataset_items B dataset_id = Ok (JList replies) ->
  exists w',
    fetch_tweet_replies cfg B url limit w =
      (if forallb is_dict replies then Ok (JList replies)
       else Raise (ScrapingError (UnexpectedReplies url AttributeError)), w') /\
    calls w' = calls w ++ [ActorCall (TWITTER_REPLIES_SCRAPER_ACTOR_ID cfg)
                             (RepliesInput (formatted url) limit);
                           DatasetCall dataset_id].
Proof.
  intros Hne Hl Hrs Hrun Hid Hds.
  unfold fetch_tweet_replies, reraise_or_wrap, try_except.
  assert ((limit <=? 0) = false) as -> by lia.
  unfold mbind, M_bind, logger, mret, M_ret. cbn [fs log calls].
  rewrite ScraperFacts.format_url_ok by done.
  unfold call_actor, fetch_items, record, raise, mbind, M_bind, mret, M_ret.
  cbn [fs log calls]. rewrite Hrun, Hid. cbn [fs log calls]. rewrite Hds.
  assert (truthy (JList replies) = true) as -> by (by destruct replies).
  cbn [negb lift len iter].
  destruct (forallb is_dict replies) eqn:Ed.
  - match goal with |- context [log_replies _ _ ?w1] =>
      destruct (log_replies_dicts 0 replies w1 Ed) as [lg ->] end.
    cbn [fs log calls]. eexists. split; [reflexivity|]. cbn. by rewrite <- app_assoc.
  - match goal with |- context [log_replies _ _ ?w1] =>
      destruct (log_replies_other 0 replies w1 Ed) as [lg ->] end.
    cbn [fs log calls]. eexists. split; [reflexivity|]. cbn. by rewrite <- app_assoc.
Qed.

(** X7.  [fetch_tweet_and_replies] fetches the tweet first and the replies from
    where that left the world: a failure of the tweet fetch is passed on as
    it is and the replies are never asked for; otherwise the outcome is the
    one of the replies fetch, its result filed under ["replies"] beside the
    tweet. *)
Theorem fetch_both_in_sequence (url : string) (limit : Z) (w : world) :
  match fetch_tweet cfg B url w with
  | (Raise e, w1) => fetch_tweet_and_replies cfg B url limit w = (Raise e, w1)
  | (Ok tweet, w1) =>
      match fetch_tweet_replies cfg B url limit w1 with
      | (Raise e, w2) => fetch_tweet_and_replies cfg B url limit w = (Raise e, w2)
      | (Ok replies, w2) =>
          fetch_tweet_and_replies cfg B url limit w
          = (Ok (JDict [("tweet", tweet); ("replies", replies)]), w2)
      end
  end.
Proof.
  unfold fetch_tweet_and_replies at 1 2 3.
  pose proof (fetch_tweet_error_kind url limit w) as H1.
  destruct (fetch_tweet cfg B url w) as [[tweet|e] w1] eqn:E1.
  - pose proof (fetch_replies_error_kind url limit w1) as H2.
    destruct (fetch_tweet_replies cfg B url limit w1) as [[replies|e] w2] eqn:E2.
    + unfold reraise_or_wrap, try_except, mbind, M_bind. by rewrite E1, E2.
    + unfold reraise_or_wrap, try_except, mbind, M_bind. rewrite E1, E2.
      cbn in H2. by destruct e.
  - unfold reraise_or_wrap, try_except, mbind, M_bind. rewrite E1.
    cbn in H1. by destruct e.
Qed.

(** X8.  A reply limit of zero or less is only noticed after the tweet has been
    fetched: the run raises [ValidationError] from the world the tweet fetch
    left, backend calls included. *)
Theorem limit_checked_after_tweet_fetch (url : string) (limit : Z) (w w1 : world)
    (tweet : json) :
  limit <= 0 ->
  fetch_tweet cfg B url w = (Ok tweet, w1) ->
  fetch_tweet_and_replies cfg B url limit w
  = (Raise (ValidationError (BadLimit limit)), w1).
Proof.
  intros Hl Ht. unfold fetch_tweet_and_replies, reraise_or_wrap.
  unfold try_except at 1. unfold mbind, M_bind. rewrite Ht.
  unfold fetch_tweet_replies, reraise_or_wrap, try_except.
  assert ((limit <=? 0) = true) as -> by lia. reflexivity.
Qed.

End WithBackend.

(** [format_url_idempotent] on a URL without a scheme. *)
Lemma format_url_idempotent_witness :
  "x.com/alice/status/100" <> "" /\
  exists u, _format_url "x.com/alice/status/100" Samples.empty_world
              = (Ok u, Samples.empty_world) /\
            String.prefix "http" u = true /\
            _format_url u Samples.empty_world = (Ok u, Samples.empty_world).
Proof.
  split; [discriminate|].
  apply (format_url_idempotent "x.com/alice/status/100" Samples.empty_world).
  discriminate.
Defined.

(** [fetch_raises_client_errors] on a backend whose datasets are empty. *)
Lemma fetch_raises_client_errors_witness :
  let e := ScrapingError (NoTweetData Examples.status_url) in
  (fetch_tweet Samples.sample_config Samples.empty_backend Examples.status_url
     Samples.empty_world).1 = Raise e /\
  client_error e = true.
Proof.
  split; [reflexivity|].
  apply (fetch_raises_client_errors Samples.sample_config Samples.empty_backend
           Examples.status_url 50 Samples.empty_world).
  left. reflexivity.
Defined.


(** [fetch_tweet_returns_first] on a backend that answers with two
    records. *)
Lemma fetch_tweet_returns_first_witness :
  let B := Examples.listing_backend [Examples.tweet "100"; Examples.tweet "101"] in
  let url := Examples.status_url in
  url <> "" /\ re_search url <> None /\
  exists w', fetch_tweet Samples.sample_config B url Samples.empty_world
             = (Ok (Examples.tweet "100"), w') /\
    calls w' = calls Samples.empty_world ++
               [ActorCall "tweet-actor" (TweetInput (formatted url));
                DatasetCall (JStr "ds")].
Proof.
  split; [discriminate|]. split; [discriminate|].
  apply (fetch_tweet_returns_first Samples.sample_config
           (Examples.listing_backend [Examples.tweet "100"; Examples.tweet "101"])
           Examples.status_url Samples.empty_world
           (JDict [("defaultDatasetId", JStr "ds")]) (JStr "ds")
           (Examples.tweet "100") [Examples.tweet "101"]);
    [discriminate|discriminate|reflexivity..].
Defined.

(** [fetch_replies_all_or_nothing] on a backend whose second record is
    [None]. *)
Lemma fetch_replies_all_or_nothing_witness :
  let replies := [Examples.tweet "201"; JNull] in
  let B := Examples.listing_backend replies in
  let url := Examples.status_url in
  url <> "" /\ 0 < 50 /\ replies <> [] /\
  exists w',
    fetch_tweet_replies Samples.sample_config B url 50 Samples.empty_world =
      (Raise (ScrapingError (UnexpectedReplies url AttributeError)), w') /\
    calls w' = calls Samples.empty_world ++
               [ActorCall "replies-actor" (RepliesInput (formatted url) 50);
                DatasetCall (JStr "ds")].
Proof.
  split; [discriminate|]. split; [lia|]. split; [discriminate|].
  apply (fetch_replies_all_or_nothing Samples.sample_config
           (Examples.listing_backend [Examples.tweet "201"; JNull])
           Examples.status_url 50 Samples.empty_world
           (JDict [("defaultDatasetId", JStr "ds")]) (JStr "ds")
           [Examples.tweet "201"; JNull]);
    [discriminate|lia|discriminate|reflexivity..].
Defined.

(** [limit_checked_after_tweet_fetch] with a limit of zero: the tweet actor
    has run by the time the limit is refused. *)
Lemma limit_checked_after_tweet_fetch_witness :
  let B := Examples.listing_backend [Examples.tweet "100"] in
  let url := Examples.status_url in
  0 <= 0 /\
  exists w1,
    fetch_tweet Samples.sample_config B url Samples.empty_world
    = (Ok (Examples.tweet "100"), w1) /\
    calls w1 = [ActorCall "tweet-actor" (TweetInput url); DatasetCall (JStr "ds")] /\
    fetch_tweet_and_replies Samples.sample_config B url 0 Samples.empty_world
    = (Raise (ValidationError (BadLimit 0)), w1).
Proof.
  split; [lia|]. eexists. split; [reflexivity|]. split; [reflexivity|].
  apply (limit_checked_after_tweet_fetch Samples.sample_config
           (Examples.listing_backend [Examples.tweet "100"])
           Examples.status_url 0 Samples.empty_world _ (Examples.tweet "100"));
    [lia|reflexivity].
Defined.

End FetchFacts.

(** ** The [mediaDetails] shape *)

Module MediaFacts.
Import Py Selector SelectorSpec SelectorFacts MediaSpec.

(** What [select_best] returns on a non-empty list of well-formed variants. *)
Lemma select_best_top tkey ukey vs :
  forallb variant_wf vs = true -> vs <> [] ->
  exists best vs',
    select_best tkey ukey (JList vs) = Ok (Some (field ukey best, vs')) /\
    top_ranked (if existsb (is_mp4 tkey) vs then is_mp4 tkey else fun _ => true) vs best.
Proof.
  intros Hwf Hne. rewrite (select_best_wf _ _ _ Hwf).
  destruct (List.filter (is_mp4 tkey) vs) as [|m0 m] eqn:Ef.
  - apply filter_nil_existsb in Ef as Hex. rewrite Hex.
    destruct (nonempty_ranked vs Hne) as (best & rest & Er).
    destruct vs as [|v0 vs0]; [done|].
    exists best, (JList (ranked (v0 :: vs0))). rewrite Er. split; [done|].
    apply (ranked_filter_top _ _ _ rest). by rewrite filter_true.
  - assert (existsb (is_mp4 tkey) vs = true) as ->.
    { destruct (existsb (is_mp4 tkey) vs) eqn:E; [done|].
      apply filter_nil_existsb in E. by rewrite E in Ef. }
    destruct (nonempty_ranked (m0 :: m)) as (best & rest & Er); [done|].
    exists best, (JList vs). rewrite Er. split; [done|].
    apply (ranked_filter_top _ _ _ rest). by rewrite Ef.
Qed.

Lemma media_guard_passed media :
  passed_over media = true -> media_guard media = Ok false.
Proof.
  destruct media as [| | | | |d]; try done. unfold passed_over, media_guard.
  cbn [get mbind result_bind contains].
  destruct (eq_str _ "video"); [|done]. cbn [negb orb mbind result_bind].
  destruct (bool_decide _); done.
Qed.

Lemma media_variants_inv media vs :
  media_variants media = Some vs ->
  exists d vi, media = JDict d /\
    eq_str (from_option id JNull (assoc "type" d)) "video" = true /\
    assoc "video_info" d = Some (JDict vi) /\ assoc "variants" vi = Some (JList vs).
Proof.
  destruct media as [| | | | |d]; try done. unfold media_variants.
  destruct (eq_str _ "video") eqn:Et; [|done].
  destruct (assoc "video_info" d) as [[| | | | |vi]|] eqn:Ei; try done.
  destruct (assoc "variants" vi) as [[| | | |l|]|] eqn:Ev; try done.
  intros [= ->]. by exists d, vi.
Qed.

(** The loop over [mediaDetails] passes the entries that are no videos and
    selects from the first video. *)
Lemma probe_media_first pre media post vs :
  forallb passed_over pre = true ->
  media_variants media = Some vs ->
  forallb variant_wf vs = true -> vs <> [] ->
  exists best ms',
    probe_media (pre ++ media :: post) = Ok (Some (field "url" best, ms')) /\
    top_ranked (if existsb (is_mp4 "content_type") vs
                then is_mp4 "content_type" else fun _ => true) vs best.
Proof.
  intros Hpre Hm Hwf Hne.
  destruct (select_best_top "content_type" "url" vs Hwf Hne) as (best & vs' & Hs & Ht).
  apply media_variants_inv in Hm as (d & vi & -> & Hty & Hvi & Hvs).
  induction pre as [|m pre IH].
  - exists best. eexists. split; [|done].
    cbn [app probe_media]. unfold media_guard.
    cbn [get mbind result_bind contains getitem]. rewrite Hty, Hvi.
    rewrite bool_decide_eq_true_2 by eauto. cbn [mbind result_bind contains getitem].
    rewrite Hvs. rewrite bool_decide_eq_true_2 by eauto.
    cbn [mbind result_bind]. rewrite Hs. reflexivity.
  - cbn in Hpre. apply andb_prop in Hpre as [Hm Hpre].
    destruct (IH Hpre) as (b & ms' & Hp & Htop).
    exists b. eexists. split; [|done].
    cbn [app probe_media]. rewrite (media_guard_passed _ Hm).
    cbn [mbind result_bind]. rewrite Hp. reflexivity.
Qed.

Lemma no_primary_probe d :
  no_primary d = true -> probe_primary (JDict d) = Ok None.
Proof.
  unfold no_primary, probe_primary, primary_guard.
  cbn [contains getitem mbind result_bind].
  destruct (assoc "video" d) as [v|] eqn:Ev.
  - rewrite bool_decide_eq_true_2 by eauto. cbn [mbind result_bind].
    destruct v as [| | | | |vd]; cbn [truthy negb]; intros H.
    + done.
    + by rewrite (negb_true_iff _) in H; rewrite H.
    + by rewrite (negb_true_iff _) in H; rewrite H.
    + by rewrite (negb_true_iff _) in H; rewrite H.
    + by rewrite (negb_true_iff _) in H; rewrite H.
    + destruct vd as [|kv vd]; [done|]. cbn [contains mbind result_bind].
      rewrite (negb_true_iff _) in H. by rewrite H.
  - rewrite bool_decide_eq_false_2 by (by intros [? ?]). done.
Qed.


Lemma probe_media_passed ms :
  forallb passed_over ms = true -> probe_media ms = Ok None.
Proof.
  induction ms as [|m ms IH]; [done|]. cbn. intros [Hm Hms]%andb_prop.
  rewrite (media_guard_passed _ Hm). cbn [mbind result_bind]. by rewrite IH.
Qed.

(** X11.  A non-empty record with nothing in the primary shape and no video among
    its [mediaDetails] (or no [mediaDetails] at all) gives [None], and the
    record is as it was. *)
Theorem no_video_gives_none (d : list (string * json)) :
  d <> [] -> no_primary d = true ->
  match assoc "mediaDetails" d with
  | None => true
  | Some (JList ms) => forallb passed_over ms
  | Some _ => false
  end = true ->
  extract_video_url (JDict d) = Ok (JNull, JDict d).
Proof.
  intros Hne Hnp Hmd. unfold extract_video_url.
  assert (truthy (JDict d) = true) as -> by (by destruct d).
  cbn [negb orb is_dict]. rewrite (no_primary_probe _ Hnp). cbn [mbind result_bind].
  unfold probe_media_details. cbn [contains getitem mbind result_bind].
  destruct (assoc "mediaDetails" d) as [md|] eqn:E.
  - destruct md as [| | | |ms|]; try done.
    rewrite bool_decide_eq_true_2 by eauto. cbn [mbind result_bind iter].
    by rewrite (probe_media_passed _ Hmd).
  - by rewrite bool_decide_eq_false_2 by (by intros [? ?]).
Qed.

Lemma dict_get v k dflt :
  is_dict v = true -> get v k dflt = Ok (match v with
                                         | JDict d => from_option id dflt (assoc k d)
                                         | _ => dflt
                                         end).
Proof. by destruct v. Qed.

Lemma keys_other cs : In KOther cs -> num_keys cs = None /\ str_keys cs = None.
Proof.
  unfold num_keys, str_keys. induction cs as [|c cs IH]; [done|].
  intros [->|Hin]; [done|]. destruct (IH Hin) as [H1 H2].
  cbn. rewrite H1, H2. by destruct c.
Qed.

Lemma sort_null_bitrate l :
  forallb is_dict l = true -> (2 <= List.length l)%nat -> existsb null_bitrate l = true ->
  sort_by_bitrate l = Raise (Builtin TypeError).
Proof.
  intros Hd Hlen Hnull. unfold sort_by_bitrate.
  rewrite (for_each_ok _ (fun v => match v with
                                   | JDict d => from_option id (JInt 0) (assoc "bitrate" d)
                                   | _ => JInt 0
                                   end)).
  2:{ apply Forall_forall. intros v Hv. apply dict_get. by eapply forallb_elem. }
  cbn [mbind result_bind]. unfold sort_by_keys.
  destruct l as [|a [|b l]]; [simpl in Hlen; lia|simpl in Hlen; lia|].
  apply existsb_exists in Hnull as (v & Hin & Hv).
  destruct (keys_other
              (map classify
                 (map (fun v => match v with
                                | JDict d => from_option id (JInt 0) (assoc "bitrate" d)
                                | _ => JInt 0
                                end) (a :: b :: l)))) as [-> ->]; [|done].
  apply in_map_iff. exists JNull. split; [done|].
  apply in_map_iff. exists v. split; [|done].
  destruct v as [| | | | |d]; try done. unfold null_bitrate in Hv.
  by destruct (assoc "bitrate" d) as [[]|].
Qed.

(** X12.  A [bitrate] that is present but [None] cannot be ranked: when the
    variants to rank (the MP4 ones, or all of them when none is MP4) are two
    or more and one of them has such a bitrate, the selector raises
    [ScrapingError] instead of returning a URL. *)
Theorem null_bitrate_raises (td : json) (vs : list json) :
  primary_variants td = Some vs ->
  forallb is_dict vs = true ->
  (2 <= List.length (candidates "type" vs))%nat ->
  existsb null_bitrate (candidates "type" vs) = true ->
  extract_video_url td = Raise (ScrapingError (UnexpectedExtract TypeError)).
Proof.
  intros (d & vd & -> & Hv & Hvs)%primary_variants_inv Hd Hlen Hnull.
  assert (select_best "type" "src" (JList vs) = Raise (Builtin TypeError)) as Hs.
  { unfold select_best. cbn [len iter mbind result_bind].
    rewrite (for_each_ok _ (fun v => match v with
                                     | JDict d => from_option id JNull (assoc "bitrate" d)
                                     | _ => JNull
                                     end)).
    2:{ apply Forall_forall. intros v Hin.
        pose proof (forallb_elem _ _ _ Hd Hin) as Hdv.
        rewrite (dict_get _ "type") by done. cbn [mbind result_bind]. by apply dict_get. }
    cbn [mbind result_bind]. unfold mp4_variants.
    rewrite (comprehension_ok _ (is_mp4 "type")).
    2:{ apply Forall_forall. intros v Hin.
        pose proof (forallb_elem _ _ _ Hd Hin) as Hdv.
        rewrite (dict_get _ "type") by done. by destruct v. }
    cbn [mbind result_bind]. unfold candidates in *.
    destruct (List.filter (is_mp4 "type") vs) as [|m0 m] eqn:Ef.
    - assert (truthy (JList vs) = true) as ->.
      { destruct vs; [simpl in Hlen; lia|done]. }
      cbn [sort_in_place]. by rewrite sort_null_bitrate.
    - rewrite sort_null_bitrate; [done| |done|done].
      rewrite <- Ef. by apply forallb_filter. }
  unfold extract_video_url.
  assert (truthy (JDict d) = true) as -> by (by destruct d).
  cbn [negb orb is_dict].
  rewrite (probe_primary_container (JDict d) (JList vs)), Hs; [done|].
  unfold variant_container. by rewrite Hv.
Qed.


(** [no_video_gives_none] on a record with text and a photo. *)
Lemma no_video_gives_none_witness :
  Examples.photo_only <> [] /\ no_primary Examples.photo_only = true /\
  extract_video_url (JDict Examples.photo_only) = Ok (JNull, JDict Examples.photo_only).
Proof.
  split; [discriminate|]. split; [reflexivity|].
  apply (no_video_gives_none Examples.photo_only); [discriminate|reflexivity..].
Defined.

(** [null_bitrate_raises] on two MP4 variants, one with a [bitrate] of
    [None]. *)
Lemma null_bitrate_raises_witness :
  let vs := Examples.null_bitrate_variants in
  let td := Samples.tweet_with vs in
  primary_variants td = Some vs /\ forallb is_dict vs = true /\
  (2 <= List.length (candidates "type" vs))%nat /\
  existsb null_bitrate (candidates "type" vs) = true /\
  extract_video_url td = Raise (ScrapingError (UnexpectedExtract TypeError)).
Proof.
  split; [reflexivity|]. split; [reflexivity|]. split; [vm_compute; lia|].
  split; [reflexivity|].
  apply (null_bitrate_raises (Samples.tweet_with Examples.null_bitrate_variants)
           Examples.null_bitrate_variants); [reflexivity..|vm_compute; lia|reflexivity].
Defined.

End MediaFacts.

(** ** The persistence layer, further *)

Module PersistenceFacts.
Import Py Downloader DownloaderSpec Hoare Steps DownloaderFacts PersistenceSpec.

Section WithPlatform.
Variable P : platform.

(** A download with proper arguments, step by step. *)
Lemma download_run (url vid dir : string) (lf : bool) (w : world) :
  url <> "" -> vid <> "" -> dir <> "" ->
  exists w',
    download_video_content P (JStr url) (JStr vid) (JStr dir) lf w
    = (download_result P url vid dir (fs w), w') /\
    fs w' = download_files P url vid dir (fs w).
Proof.
  intros Hu Hv Hd.
  unfold download_video_content, download_result, download_files.
  rewrite !truthy_str by done. cbn [negb orb is_str].
  set (out := Path.join dir [vid +:+ ".mp4"]). clearbody out.
  destruct (ensure_dir_exists_spec P dir w) as (w1 & cs1 & He & Hf1 & _ & _).
  destruct (ensure_dir P dir (fs w)) as [raised1 f1] eqn:Eens. cbn [fst snd] in *.
  destruct raised1.
  { exists w1. split; [|done].
    apply reraise_download_error. by rewrite (bind_raise _ _ _ _ _ He). }
  set (w2 := World (fs w1) (log w1 ++ [(INFO, DownloadingVideo url out)]) (calls w1)).
  destruct (maybe_list_formats_inert P lf url vid w2) as (w3 & Hb3 & Hf3 & _).
  destruct (log_selected_format_inert P url vid w3) as (w4 & Hb4 & Hf4 & _).
  assert (fs w4 = f1) as Hfs4 by (rewrite Hf4, Hf3; exact Hf1).
  pose proof (run_download_spec P url out w4) as Hrun. rewrite Hfs4 in Hrun.
  destruct (ydl_download P url out f1) as [raised2 f2]. cbn [fst snd] in *.
  set (w5 := World f2 (log w4) (calls w4 ++ [Download url out])) in *.
  assert (forall k : M string,
            (_ ← _ensure_dir_exists P dir;
             _ ← logger INFO (DownloadingVideo url out);
             _ ← maybe_list_formats P lf url vid;
             _ ← log_selected_format P url vid;
             _ ← run_download P url out; k) w =
            (if raised2 then (Raise (VideoDownloadError (EngineFailed url)), w5)
             else k w5)) as Hchain.
  { intros k. rewrite (bind_ok _ _ _ _ _ He).
    rewrite (bind_ok (logger INFO (DownloadingVideo url out)) _ w1 tt w2 eq_refl).
    rewrite (bind_ok _ _ _ _ _ Hb3), (bind_ok _ _ _ _ _ Hb4).
    destruct raised2.
    - by rewrite (bind_raise _ _ _ _ _ Hrun).
    - by rewrite (bind_ok _ _ _ _ _ Hrun). }
  destruct raised2.
  { exists w5. split; [|done]. apply reraise_download_error. apply Hchain. }
  destruct (verify_download_spec out w5) as (w6 & Hver & Hf6 & Hc6).
  change (fs w5) with f2 in *.
  exists w6. split; [|done].
  destruct (has_content f2 out).
  - apply reraise_ok. rewrite Hchain. exact Hver.
  - apply reraise_download_error. rewrite Hchain. exact Hver.
Qed.

(** X14.  Asking for the list of formats changes neither what a download returns
    nor the files it leaves: it only adds log lines and read-only queries of
    the engine. *)
Theorem list_formats_only_observes (url vid dir : string) (w : world) :
  url <> "" -> vid <> "" -> dir <> "" ->
  let quiet := download_video_content P (JStr url) (JStr vid) (JStr dir) false w in
  let listed := download_video_content P (JStr url) (JStr vid) (JStr dir) true w in
  listed.1 = quiet.1 /\ fs listed.2 = fs quiet.2.
Proof.
  intros Hu Hv Hd.
  destruct (download_run url vid dir false w Hu Hv Hd) as (w1 & -> & Hf1).
  destruct (download_run url vid dir true w Hu Hv Hd) as (w2 & -> & Hf2).
  cbn. split; [done|congruence].
Qed.


(** X13.  An argument that is not a non-empty string is refused before anything
    is done: [download_video_content] raises [ValidationError], naming the
    first bad argument, and the world is as it was (no directory made, the
    engine not called). *)
Theorem download_rejects_bad_arguments (video_url video_id output_dir : json)
    (lf : bool) (w : world) :
  valid_str video_url && valid_str video_id && valid_str output_dir = false ->
  download_video_content P video_url video_id output_dir lf w =
    (Raise (ValidationError
              (if negb (valid_str video_url) then BadVideoUrl
               else if negb (valid_str video_id) then BadVideoId
               else BadOutputDir)), w).
Proof.
  intros H. unfold download_video_content, reraise_or_wrap, try_except, valid_str in *.
  rewrite <- !negb_andb.
  destruct (truthy video_url && is_str video_url); [|done].
  destruct (truthy video_id && is_str video_id); [|done].
  destruct (truthy output_dir && is_str output_dir); [done|done].
Qed.

Lemma reraise_layer {A} wrap (m : M A) w :
  match (reraise_or_wrap wrap m w).1 with
  | Ok _ => True
  | Raise e => layer_error e = true
  end.
Proof.
  unfold reraise_or_wrap, try_except.
  destruct (m w) as [[a|[]] w']; done.
Qed.

(** X21.  Whatever the platform does and whatever the data are, the three public
    operations of the persistence layer raise nothing but [ValidationError]
    and [VideoDownloadError]. *)
Theorem persistence_raises_layer_errors (lf : bool) (a b c : json) (base : string)
    (w : world) (e : exn) :
  (list_video_formats P a w).1 = Raise e \/
  (download_video_content P a b c lf w).1 = Raise e \/
  (save_parsed_thread_data P lf a base w).1 = Raise e ->
  layer_error e = true.
Proof.
  intros [H|[H|H]].
  - unfold list_video_formats in H.
    match type of H with (reraise_or_wrap ?wr ?m w).1 = _ =>
      pose proof (reraise_layer wr m w) as Hc end.
    by rewrite H in Hc.
  - unfold download_video_content in H.
    match type of H with (reraise_or_wrap ?wr ?m w).1 = _ =>
      pose proof (reraise_layer wr m w) as Hc end.
    by rewrite H in Hc.
  - unfold save_parsed_thread_data in H.
    match type of H with (reraise_or_wrap ?wr ?m w).1 = _ =>
      pose proof (reraise_layer wr m w) as Hc end.
    by rewrite H in Hc.
Qed.

End WithPlatform.
Lemma list_ascii_app a b :
  list_ascii_of_string (a +:+ b) = list_ascii_of_string a ++ list_ascii_of_string b.
Proof. induction a as [|c a IH]; [done|]. simpl. by rewrite <- IH. Qed.

Lemma drop_basename_plain l r :
  forallb (fun c => negb (Ascii.eqb c Path.sep)) l = true ->
  Path.drop_basename (rev l ++ Path.sep :: r) = Path.sep :: r.
Proof.
  induction l as [|c l IH] using rev_ind; intros H.
  - done.
  - rewrite forallb_app in H. apply andb_prop in H as [Hl Hc]. simpl in Hc.
    rewrite rev_app_distr. simpl. destruct (Ascii.eqb c Path.sep); [done|]. by apply IH.
Qed.

Lemma open_path_last p :
  Layout.open_path p = true ->
  exists c r, rev (list_ascii_of_string p) = c :: r /\ Ascii.eqb c Path.sep = false.
Proof.
  intros [Hne He]%LayoutFacts.open_path_inv.
  induction p as [|c p IH]; [done|].
  destruct p as [|c' p'].
  - exists c, []. split; [done|]. exact He.
  - destruct IH as (x & r & Hr & Hx); [done|exact He|].
    exists x, (r ++ [c]). split; [|done].
    change (list_ascii_of_string (String c (String c' p')))
      with (c :: list_ascii_of_string (String c' p')).
    change (rev (c :: ?l)) with (rev l ++ [c]). by rewrite Hr.
Qed.

(** [os.path.dirname] undoes [os.path.join] with one plain component. *)
Lemma dirname_join dir name :
  Layout.open_path dir = true -> plain name = true ->
  Path.dirname (Path.join dir [name]) = dir.
Proof.
  intros Hd Hn. unfold Path.join. cbn [fold_left].
  assert (Path.starts_with_sep name = false) as Hs.
  { destruct name as [|c name]; [done|]. unfold plain in Hn. simpl in Hn.
    apply andb_prop in Hn as [Hc _]. unfold Path.starts_with_sep. cbn [String.prefix].
    destruct (ascii_dec "/" c) as [<-|]; done. }
  rewrite (LayoutFacts.join2_slash _ _ Hd Hs). unfold Layout.slash, Path.dirname.
  rewrite !list_ascii_app, rev_app_distr.
  change (list_ascii_of_string "/") with [Path.sep].
  rewrite rev_app_distr. change (rev [Path.sep]) with [Path.sep].
  rewrite <- app_assoc. change ([Path.sep] ++ ?l) with (Path.sep :: l).
  rewrite (drop_basename_plain _ _ Hn).
  destruct (open_path_last dir Hd) as (c & r & Hr & Hc). rewrite Hr.
  cbn [forallb Path.drop_seps]. rewrite Ascii.eqb_refl. cbn [andb].
  rewrite (Ascii.eqb_sym Path.sep c), Hc. cbn [andb]. rewrite <- Hr, rev_involutive.
  apply string_of_list_ascii_of_string.
Qed.

Lemma join_nonempty dir name : name <> "" -> Path.join dir [name] <> "".
Proof.
  intros Hn. unfold Path.join, Path.join2. cbn [fold_left].
  destruct (Path.starts_with_sep name); [done|].
  destruct (String.eqb dir "" || Path.ends_with_sep dir).
  - destruct dir; [done|]. done.
  - destruct dir; done.
Qed.

Section Saving.
Variable P : platform.

Lemma ensure_dir_run dir w :
  exists w',
    _ensure_dir_exists P dir w =
      (if (ensure_dir P dir (fs w)).1
       then Raise (VideoDownloadError (MkdirFailed dir)) else Ok tt, w') /\
    fs w' = (ensure_dir P dir (fs w)).2 /\
    calls w' = calls w ++ ensure_calls dir (fs w).
Proof.
  unfold _ensure_dir_exists, ensure_dir, ensure_calls, mbind, M_bind, path_exists.
  destruct (bool_decide (is_Some (fs w !! dir))).
  - exists w. simpl. by rewrite app_nil_r.
  - cbn. destruct (os_makedirs P dir (fs w)) as [[] f']; cbn; by eexists.
Qed.

(** X16.  Saving a text file under a directory: the directory made, when missing,
    is the one the file goes to; the file is written once, and only when the
    directory is there; a failure of either step is a
    [VideoDownloadError]. *)
Theorem save_json_outcome (data : json) (dir name : string) (w : world) :
  truthy data = true -> Layout.open_path dir = true ->
  plain name = true -> name <> "" ->
  let path := Path.join dir [name] in
  let made := ensure_dir P dir (fs w) in
  let written := write_json P path data made.2 in
  exists w',
    _save_json_content P data path w =
      (if made.1 then Raise (VideoDownloadError (MkdirFailed dir))
       else if written.1 then Raise (VideoDownloadError (SaveJsonFailed path))
       else Ok tt, w') /\
    fs w' = (if made.1 then made.2 else written.2) /\
    calls w' = calls w ++ ensure_calls dir (fs w)
                 ++ (if made.1 then [] else [WriteJson path data]).
Proof.
  intros Hdata Hdir Hplain Hname path made written.
  pose proof (dirname_join _ _ Hdir Hplain) as Hdn. fold path in Hdn.
  unfold _save_json_content. rewrite Hdata, Hdn. cbn [negb].
  destruct (String.eqb_spec path "") as [E|_].
  { by apply join_nonempty in E. }
  destruct (ensure_dir_run dir w) as (w1 & He & Hf1 & Hc1).
  fold made in He, Hf1. destruct (made.1) eqn:Em.
  - exists w1. rewrite (bind_raise _ _ _ _ _ He). by rewrite app_nil_r.
  - rewrite (bind_ok _ _ _ _ _ He).
    unfold mbind, M_bind, record, get_fs, set_fs, raise, logger. cbn [fs log calls].
    rewrite Hf1. fold written.
    destruct written as [[] f2]; cbn [fst snd fs calls];
      (eexists; split; [reflexivity|]; cbn [fs calls]; rewrite Hc1, <- app_assoc; done).
Qed.

(** X18.  A reply directory that cannot be created ends the loop over the
    replies: the call raises [VideoDownloadError] right after the failed
    [os.makedirs], and neither this reply nor any later one is saved. *)
Theorem reply_dir_failure_aborts (lf : bool) (base rid : string) (reply_info : json)
    (rest : list json) (saved : list string) (w : world) :
  get reply_info "reply_id" JNull = Ok (JStr rid) -> rid <> "" ->
  (ensure_dir P (Path.join base [rid]) (fs w)).1 = true ->
  exists w',
    process_replies P lf base (reply_info :: rest) saved w =
      (Raise (VideoDownloadError (MkdirFailed (Path.join base [rid]))), w') /\
    calls w' = calls w ++ [Makedirs (Path.join base [rid])].
Proof.
  intros Hid Hne Hfail. set (dir := Path.join base [rid]) in *.
  cbn [process_replies].
  rewrite (bind_ok (lift (get reply_info "reply_id" JNull)) _ w (JStr rid) w)
    by (unfold lift; by rewrite Hid).
  rewrite truthy_str by done. cbn [negb].
  rewrite (bind_ok (lift (Path.join_values base [JStr rid])) _ w dir w) by done.
  destruct (ensure_dir_run dir w) as (w1 & He & _ & Hc1).
  rewrite Hfail in He. exists w1. split.
  - by rewrite (bind_raise _ _ _ _ _ He).
  - rewrite Hc1. unfold ensure_calls. unfold ensure_dir in Hfail.
    by destruct (bool_decide (is_Some (fs w !! dir))).
Qed.

(** X19.  A reply video whose URL or file id is present but not a string stops
    the whole loop: [download_video_content] raises [ValidationError], which
    the handler around it (for [VideoDownloadError] only) lets through, so
    the remaining videos are not tried.  Nothing has been done by then. *)
Theorem invalid_video_record_aborts (lf : bool) (reply_id url vid : json)
    (path : string) (video_info : json) (rest : list json) (saved : list string)
    (w : world) :
  get video_info "video_url" JNull = Ok url ->
  get video_info "tweet_id" reply_id = Ok vid ->
  truthy url && truthy vid = true ->
  is_str url && is_str vid = false ->
  download_reply_videos P lf reply_id path (video_info :: rest) saved w =
    (Raise (ValidationError (if is_str url then BadVideoId else BadVideoUrl)), w).
Proof.
  intros Hu Hv [Htu Htv]%andb_prop Hstr. cbn [download_reply_videos].
  rewrite (bind_ok (lift (get video_info "video_url" JNull)) _ w url w)
    by (unfold lift; by rewrite Hu).
  rewrite (bind_ok (lift (get video_info "tweet_id" reply_id)) _ w vid w)
    by (unfold lift; by rewrite Hv).
  rewrite Htu, Htv. cbn [andb].
  apply bind_raise. unfold or_log_error, try_except.
  assert (download_video_content P url vid (JStr path) lf w =
            (Raise (ValidationError (if is_str url then BadVideoId else BadVideoUrl)), w))
    as Hd.
  { unfold download_video_content, reraise_or_wrap, try_except.
    rewrite Htu, Htv.
    destruct (is_str url); [|done]. cbn [andb] in Hstr. rewrite Hstr. done. }
  by rewrite (bind_raise _ _ _ _ _ Hd).
Qed.

Lemma reraise_world {A} wrap (m : M A) w :
  (reraise_or_wrap wrap m w).2 = (m w).2 /\
  forall a, (reraise_or_wrap wrap m w).1 = Ok a -> (m w).1 = Ok a.
Proof.
  unfold reraise_or_wrap, try_except. destruct (m w) as [[a|[]] w']; done.
Qed.

Lemma quiet_refl w : quiet w w.
Proof. done. Qed.

Lemma quiet_trans a b c : quiet a b -> quiet b c -> quiet a c.
Proof. intros [? ?] [? ?]. split; congruence. Qed.

Lemma quiet_log w e : quiet w (World (fs w) (log w ++ [e]) (calls w)).
Proof. done. Qed.

(** X15.  [list_video_formats] lists without downloading: the files are as they
    were, the only call that leaves the process is one [extract_info] query
    with [listformats] set, and the value returned is the [formats] entry of
    the engine's answer to that query. *)
Theorem listing_formats_reads_only (video_url : json) (w : world) :
  let '(r, w') := list_video_formats P video_url w in
  fs w' = fs w /\
  (calls w' = calls w \/
   exists url, video_url = JStr url /\ calls w' = calls w ++ [ExtractInfo url true]) /\
  forall formats, r = Ok formats ->
    exists url info, video_url = JStr url /\
      ydl_extract_info P url true = Ok info /\ getitem info "formats" = Ok formats.
Proof.
  destruct (list_video_formats P video_url w) as [r w'] eqn:E.
  unfold list_video_formats in E.
  match type of E with reraise_or_wrap ?wr ?m w = _ =>
    destruct (reraise_world wr m w) as [Hw Hr]; rewrite E in Hw, Hr; cbn [fst snd] in Hw, Hr
  end.
  destruct video_url as [| | |url| |];
    try (cbn in Hw, Hr; subst w'; split; [done|]; split; [by left|]; intros ? ->;
         by specialize (Hr _ eq_refl)).
  destruct (String.eqb url "").
  { cbn in Hw, Hr; subst w'. split; [done|]. split; [by left|]. intros ? ->.
    by specialize (Hr _ eq_refl). }
  set (w1 := World (fs w) (log w ++ [(INFO, ListingFormats url)])
               (calls w ++ [ExtractInfo url true])).
  set (tail := info ← lift (ydl_extract_info P url true);
               has ← (if truthy info then lift (contains "formats" info) else mret false);
               if has : bool then
                 formats ← lift (getitem info "formats");
                 n ← lift (len formats);
                 _ ← logger INFO (FoundFormats n);
                 fmts ← lift (iter formats);
                 _ ← log_formats fmts;
                 mret formats
               else raise (VideoDownloadError (NoFormatsFound url))).
  assert (Hoare.steps quiet
            (fun formats => exists info, ydl_extract_info P url true = Ok info /\
                                         getitem info "formats" = Ok formats) tail) as Ht.
  { unfold tail.
    eapply (steps_bind quiet quiet_trans (fun info => ydl_extract_info P url true = Ok info)).
    { by apply (steps_lift quiet quiet_refl). }
    intros info Hinfo.
    eapply (steps_bind quiet quiet_trans (fun _ => True)).
    { destruct (truthy info);
        [by apply (steps_lift quiet quiet_refl)|by apply (steps_ret quiet quiet_refl)]. }
    intros [] _; [|apply (steps_raise quiet quiet_refl)].
    eapply (steps_bind quiet quiet_trans (fun formats => getitem info "formats" = Ok formats)).
    { by apply (steps_lift quiet quiet_refl). }
    intros formats Hf.
    eapply (steps_bind quiet quiet_trans (fun _ => True));
      [by apply (steps_lift quiet quiet_refl)|]. intros n _.
    eapply (steps_bind quiet quiet_trans (fun _ => True));
      [by apply (steps_logger quiet quiet_log)|]. intros _ _.
    eapply (steps_bind quiet quiet_trans (fun _ => True));
      [by apply (steps_lift quiet quiet_refl)|]. intros fmts _.
    eapply (steps_bind quiet quiet_trans (fun _ => True));
      [apply (steps_log_formats quiet quiet_refl quiet_trans quiet_log)|]. intros _ _.
    apply (steps_ret quiet quiet_refl). eauto. }
  destruct (Ht w1) as [[Hfs Hcalls] Hval].
  change (w' = (tail w1).2) in Hw.
  change (forall a, r = Ok a -> (tail w1).1 = Ok a) in Hr.
  rewrite <- Hw in Hfs, Hcalls. split; [exact Hfs|]. split.
  - right. exists url. split; [done|]. exact Hcalls.
  - intros formats ->. destruct (Hval formats (Hr _ eq_refl)) as (info & ? & ?).
    by exists url, info.
Qed.

(** X17.  A record that is empty, not a dictionary, or names its author or thread
    by something that is not a string is refused before anything is done:
    the call raises and the world is as it was.  A non-string name surfaces
    as the [TypeError] of [os.path.join], wrapped in
    [VideoDownloadError]. *)
Theorem unusable_record_leaves_no_trace (lf : bool) (parsed_data : json)
    (base : string) (w : world) :
  usable parsed_data = false ->
  save_parsed_thread_data P lf parsed_data base w =
    (Raise (if negb (truthy parsed_data) then ValidationError NoParsedData
            else if negb (is_dict parsed_data) then ValidationError ParsedDataNotDict
            else VideoDownloadError (UnexpectedSave TypeError)), w).
Proof.
  intros H. unfold save_parsed_thread_data, reraise_or_wrap, try_except.
  destruct (truthy parsed_data) eqn:Et; [|done]. cbn [negb].
  destruct parsed_data as [| | | | |d]; try done. cbn [is_dict negb].
  unfold usable in H. rewrite Et in H. cbn [andb] in H.
  unfold mbind at 1 2 3, M_bind, lift, get.
  destruct (from_option id (JStr "unknown_user") (assoc "user_screen_name" d)) as [| | |u| |];
    try done.
  destruct (from_option id (JStr "unknown_thread") (assoc "thread_id" d)); done.
Qed.

Lemma returns_ret {A} (a : A) : returns (mret a).
Proof. intros w. by exists a, w. Qed.

Lemma returns_bind {A B} (m : M A) (f : A -> M B) :
  returns m -> (forall a, returns (f a)) -> returns (m ≫= f).
Proof.
  intros Hm Hf w. destruct (Hm w) as (a & w1 & E).
  rewrite (bind_ok _ _ _ _ _ E). apply Hf.
Qed.

Lemma returns_lift {A B} (r : result A) (f : A -> M B) a :
  r = Ok a -> returns (f a) -> returns (lift r ≫= f).
Proof. intros -> Hf w. rewrite (bind_ok (lift (Ok a)) _ w a w) by done. apply Hf. Qed.

Lemma returns_logger lvl msg : returns (logger lvl msg).
Proof. intros w. by eexists _, _. Qed.

Lemma contained_ok {A} (m : M A) : returns m -> contained m.
Proof. intros H w. destruct (H w) as (a & w' & E). exists w'. left. by exists a. Qed.

Lemma contained_bind {A B} (m : M A) (f : A -> M B) :
  contained m -> (forall a, contained (f a)) -> contained (m ≫= f).
Proof.
  intros Hm Hf w. destruct (Hm w) as (w1 & [[a E]|[why E]]).
  - rewrite (bind_ok _ _ _ _ _ E). apply Hf.
  - exists w1. right. exists why. by rewrite (bind_raise _ _ _ _ _ E).
Qed.

Lemma returns_or_log_error msg saved m :
  contained m -> returns (or_log_error msg saved m).
Proof.
  intros Hm w. unfold or_log_error, try_except.
  destruct (Hm w) as (w1 & [[a E]|[why E]]); rewrite E; by eexists _, _.
Qed.

Lemma contained_download (url vid dir : string) lf :
  url <> "" -> vid <> "" -> dir <> "" ->
  contained (download_video_content P (JStr url) (JStr vid) (JStr dir) lf).
Proof.
  intros Hu Hv Hd w. destruct (download_run P url vid dir lf w Hu Hv Hd) as (w' & E & _).
  exists w'. rewrite E. unfold download_result.
  destruct (ensure_dir P dir (fs w)) as [[] f1]; [right; by eexists|].
  destruct (ydl_download P url _ f1) as [[] f2]; [right; by eexists|].
  destruct (has_content f2 _); [left|right]; by eexists.
Qed.

Lemma str_or_falsy_inv x :
  str_or_falsy x = true -> truthy x = true -> exists s, x = JStr s /\ s <> "".
Proof.
  unfold str_or_falsy. intros H Ht. rewrite Ht in H. cbn [negb orb] in H.
  destruct x; try done. exists s. split; [done|]. by intros ->.
Qed.

Section Reliable.
Hypothesis storage : reliable_storage P.
Variable lf : bool.

Lemma returns_ensure_dir dir : returns (_ensure_dir_exists P dir).
Proof.
  intros w. destruct (ensure_dir_run dir w) as (w' & E & _).
  assert ((ensure_dir P dir (fs w)).1 = false) as Hno.
  { unfold ensure_dir. destruct (bool_decide _); [done|]. apply storage. }
  rewrite Hno in E. by exists tt, w'.
Qed.

Lemma returns_save_json data path :
  truthy data = true -> path <> "" -> returns (_save_json_content P data path).
Proof.
  intros Hd Hp. unfold _save_json_content. rewrite Hd. cbn [negb].
  destruct (String.eqb_spec path ""); [done|].
  apply returns_bind; [apply returns_ensure_dir|]. intros _ w.
  unfold mbind, M_bind, record, get_fs, set_fs, logger. cbn [fs log calls].
  pose proof (proj2 storage path data (fs w)) as Hw.
  destruct (write_json P path data (fs w)) as [raised f']. cbn in Hw. subst raised.
  by eexists _, _.
Qed.

Lemma returns_download_step msg (url vid : json) dir saved :
  str_or_falsy url = true -> str_or_falsy vid = true -> dir <> "" ->
  returns (if truthy url && truthy vid then
             or_log_error msg saved
               (downloaded_path ← download_video_content P url vid (JStr dir) lf;
                mret (saved ++ [downloaded_path]))
           else mret saved).
Proof.
  intros Hu Hv Hd.
  destruct (truthy url) eqn:Etu; [|apply returns_ret].
  destruct (truthy vid) eqn:Etv; [|apply returns_ret]. cbn [andb].
  destruct (str_or_falsy_inv _ Hu Etu) as (u & -> & Hune).
  destruct (str_or_falsy_inv _ Hv Etv) as (v & -> & Hvne).
  apply returns_or_log_error. apply contained_bind; [by apply contained_download|].
  intros p. apply contained_ok, returns_ret.
Qed.

Lemma returns_thread_videos (tid path : string) videos saved :
  path <> "" -> forallb thread_video_ok videos = true ->
  returns (download_thread_videos P lf (JStr tid) path videos saved).
Proof.
  intros Hp. revert saved. induction videos as [|v rest IH]; intros saved Hok.
  - apply returns_ret.
  - cbn [forallb] in Hok. apply andb_prop in Hok as [Hv Hrest].
    destruct v as [| | | | |d]; try done. cbn [download_thread_videos].
    eapply returns_lift; [reflexivity|].
    apply returns_bind; [|intros saved'; by apply IH].
    apply returns_download_step; [exact Hv|apply orb_true_r|exact Hp].
Qed.

Lemma returns_reply_videos (reply_id : json) (path : string) videos saved :
  path <> "" -> forallb (reply_video_ok reply_id) videos = true ->
  returns (download_reply_videos P lf reply_id path videos saved).
Proof.
  intros Hp. revert saved. induction videos as [|v rest IH]; intros saved Hok.
  - apply returns_ret.
  - cbn [forallb] in Hok. apply andb_prop in Hok as [Hv Hrest].
    destruct v as [| | | | |d]; try done. cbn [download_reply_videos].
    apply andb_prop in Hv as [Hu Hi].
    eapply returns_lift; [reflexivity|]. eapply returns_lift; [reflexivity|].
    apply returns_bind; [|intros saved'; by apply IH].
    apply returns_download_step; [exact Hu|exact Hi|exact Hp].
Qed.

Lemma entries_inv record key l :
  entries record key = Some l ->
  exists v, get record key (JList []) = Ok v /\ iter v = Ok l.
Proof.
  unfold entries. destruct (get record key (JList [])) as [v|]; [|done].
  destruct (iter v) as [l'|] eqn:E; [|done]. intros [= ->]. by exists v.
Qed.

Lemma returns_process_replies (base : string) replies saved :
  forallb reply_ok replies = true ->
  returns (process_replies P lf base replies saved).
Proof.
  revert saved. induction replies as [|r rest IH]; intros saved Hok.
  - apply returns_ret.
  - cbn [forallb] in Hok. apply andb_prop in Hok as [Hr Hrest].
    destruct r as [| | | | |d]; try done. cbn [process_replies].
    eapply returns_lift; [reflexivity|]. unfold reply_ok in Hr.
    destruct (truthy (from_option id JNull (assoc "reply_id" d))) eqn:Et; cbn [negb].
    2:{ apply returns_bind; [apply returns_logger|]. intros _. by apply IH. }
    cbn [negb orb] in Hr. apply andb_prop in Hr as [Hs Hvs].
    destruct (from_option id JNull (assoc "reply_id" d)) as [| | |rid| |] eqn:Eid; try done.
    destruct (entries (JDict d) "reply_videos") as [vs|] eqn:Ev; [|done].
    apply entries_inv in Ev as (v & Hget & Hiter).
    eapply returns_lift; [reflexivity|].
    apply returns_bind; [apply returns_ensure_dir|]. intros _.
    eapply returns_lift; [reflexivity|].
    eapply (returns_bind _ _).
    { destruct (truthy (from_option id JNull (assoc "reply_text_content" d))) eqn:Ett;
        [|apply returns_ret].
      apply returns_or_log_error. apply contained_ok.
      apply returns_bind; [|intros _; apply returns_ret].
      apply returns_save_json; [done|]. by apply join_nonempty. }
    intros saved1.
    eapply returns_lift; [exact Hget|]. eapply returns_lift; [exact Hiter|].
    apply returns_bind; [|intros saved2; by apply IH].
    apply returns_reply_videos; [by apply join_nonempty|done].
Qed.

(** X20.  With storage that works (directories can be created, text files
    written), a well-formed thread is always saved to the end: whatever the
    engine does for any of the videos (raise, leave nothing, leave a partial
    file), [save_parsed_thread_data] returns its list of files. *)
Theorem engine_failures_never_abort (parsed_data : json) (base : string) (w : world) :
  thread_ok parsed_data = true ->
  exists saved w', save_parsed_thread_data P lf parsed_data base w = (Ok saved, w').
Proof.
  intros Hok. destruct parsed_data as [| | | | |d]; try done.
  unfold thread_ok in Hok.
  apply andb_prop in Hok as [Hok Hlists]. apply andb_prop in Hok as [Hok Htid].
  apply andb_prop in Hok as [Htruthy Huser].
  destruct (entries (JDict d) "thread_videos") as [vs|] eqn:Evs; [|done].
  destruct (entries (JDict d) "replies") as [rs|] eqn:Ers; [|done].
  apply andb_prop in Hlists as [Hvs Hrs].
  apply entries_inv in Evs as (tv & Htv & Hitv).
  apply entries_inv in Ers as (rv & Hrv & Hirv).
  destruct (from_option id (JStr "unknown_user") (assoc "user_screen_name" d))
    as [| | |user| |] eqn:Eu; try done.
  destruct (from_option id (JStr "unknown_thread") (assoc "thread_id" d))
    as [| | |tid| |] eqn:Eid; try done.
  assert (returns (save_parsed_thread_data P lf (JDict d) base)) as H; [|apply H].
  intros w0. unfold save_parsed_thread_data.
  match goal with |- exists a w', reraise_or_wrap ?wr ?m w0 = _ =>
    cut (exists a w', m w0 = (Ok a, w'));
      [intros (a & w' & E); exists a, w'; by apply reraise_ok|] end.
  rewrite Htruthy. cbn [negb is_dict]. revert w0.
  match goal with |- forall w0, exists a w', ?m w0 = _ => change (returns m) end.
  eapply returns_lift; [cbn [get]; by rewrite Eu|].
  eapply returns_lift; [cbn [get]; by rewrite Eid|].
  eapply returns_lift; [reflexivity|].
  apply returns_bind; [apply returns_ensure_dir|]. intros _.
  eapply returns_lift; [reflexivity|].
  eapply (returns_bind _ _).
  { destruct (truthy (from_option id JNull (assoc "thread_text_content" d))) eqn:Ett;
      [|apply returns_ret].
    apply returns_bind; [|intros _; apply returns_ret].
    apply returns_save_json; [done|]. by apply join_nonempty. }
  intros saved0.
  eapply returns_lift; [exact Htv|]. eapply returns_lift; [exact Hitv|].
  apply returns_bind.
  { apply returns_thread_videos; [by apply join_nonempty|done]. }
  intros saved1.
  eapply returns_lift; [exact Hrv|]. eapply returns_lift; [exact Hirv|].
  apply returns_bind; [by apply returns_process_replies|]. intros saved2.
  apply returns_bind; [apply returns_logger|]. intros _. apply returns_ret.
Qed.

End Reliable.
End Saving.

(** [list_formats_only_observes] on a platform where everything succeeds. *)
Lemma list_formats_only_observes_witness :
  let P := Samples.sample_platform [] true in
  let run lf := download_video_content P (JStr "http://v/1") (JStr "1")
                  (JStr "out/videos") lf Samples.empty_world in
  "http://v/1" <> "" /\ "1" <> "" /\ "out/videos" <> "" /\
  (run true).1 = (run false).1 /\ fs (run true).2 = fs (run false).2.
Proof.
  repeat (split; [discriminate|]).
  apply (list_formats_only_observes (Samples.sample_platform [] true)
           "http://v/1" "1" "out/videos" Samples.empty_world); discriminate.
Defined.

(** [download_rejects_bad_arguments] on a numeric video id. *)
Lemma download_rejects_bad_arguments_witness :
  let P := Samples.sample_platform [] true in
  valid_str (JStr "http://v/1") && valid_str (JInt 1) && valid_str (JStr "out") = false /\
  download_video_content P (JStr "http://v/1") (JInt 1) (JStr "out") false
    Samples.empty_world
  = (Raise (ValidationError BadVideoId), Samples.empty_world).
Proof.
  split; [reflexivity|].
  apply (download_rejects_bad_arguments (Samples.sample_platform [] true)
           (JStr "http://v/1") (JInt 1) (JStr "out") false Samples.empty_world).
  reflexivity.
Defined.

(** [persistence_raises_layer_errors] on a download the engine fails. *)
Lemma persistence_raises_layer_errors_witness :
  let P := Samples.sample_platform [] false in
  let e := VideoDownloadError (EngineFailed "http://v/1") in
  (download_video_content P (JStr "http://v/1") (JStr "1") (JStr "out") false
     Samples.empty_world).1 = Raise e /\
  layer_error e = true.
Proof.
  split; [reflexivity|].
  apply (persistence_raises_layer_errors (Samples.sample_platform [] false) false
           (JStr "http://v/1") (JStr "1") (JStr "out") "out" Samples.empty_world).
  right. left. reflexivity.
Defined.

(** [save_json_outcome] on the text of a main post. *)
Lemma save_json_outcome_witness :
  let P := Samples.sample_platform [] true in
  let path := "out/alice/100/thread_text.json" in
  truthy (Samples.text "root") = true /\ Layout.open_path "out/alice/100" = true /\
  plain "thread_text.json" = true /\
  exists w',
    _save_json_content P (Samples.text "root") path Samples.empty_world = (Ok tt, w') /\
    calls w' = [Makedirs "out/alice/100"; WriteJson path (Samples.text "root")].
Proof.
  repeat (split; [reflexivity|]).
  destruct (save_json_outcome (Samples.sample_platform [] true) (Samples.text "root")
              "out/alice/100" "thread_text.json" Samples.empty_world)
    as (w' & Hrun & _ & Hcalls); [reflexivity..|discriminate|].
  exists w'. split; [exact Hrun|exact Hcalls].
Defined.

(** [reply_dir_failure_aborts] on a first reply whose directory cannot be
    made. *)
Lemma reply_dir_failure_aborts_witness :
  let base := "out/alice/100/replies" in
  let dir := "out/alice/100/replies/201" in
  let P := Samples.sample_platform [dir] true in
  get (Examples.reply "201") "reply_id" JNull = Ok (JStr "201") /\
  (ensure_dir P dir ∅).1 = true /\
  exists w',
    process_replies P false base [Examples.reply "201"; Examples.reply "202"] []
      Samples.empty_world = (Raise (VideoDownloadError (MkdirFailed dir)), w') /\
    calls w' = [Makedirs dir].
Proof.
  split; [reflexivity|]. split; [reflexivity|].
  apply (reply_dir_failure_aborts
           (Samples.sample_platform ["out/alice/100/replies/201"] true) false
           "out/alice/100/replies" "201" (Examples.reply "201") [Examples.reply "202"] []
           Samples.empty_world); [reflexivity|discriminate|reflexivity].
Defined.

(** [invalid_video_record_aborts] on a video record with a numeric
    [tweet_id]. *)
Lemma invalid_video_record_aborts_witness :
  let P := Samples.sample_platform [] true in
  let v := Examples.numeric_id_video in
  get v "video_url" JNull = Ok (JStr "http://v/2") /\
  get v "tweet_id" (JStr "202") = Ok (JInt 202) /\
  download_reply_videos P false (JStr "202") "out/alice/100/replies/202/videos"
    [v; v] [] Samples.empty_world
  = (Raise (ValidationError BadVideoId), Samples.empty_world).
Proof.
  split; [reflexivity|]. split; [reflexivity|].
  apply (invalid_video_record_aborts (Samples.sample_platform [] true) false
           (JStr "202") (JStr "http://v/2") (JInt 202)
           "out/alice/100/replies/202/videos" Examples.numeric_id_video
           [Examples.numeric_id_video] [] Samples.empty_world); reflexivity.
Defined.

(** [unusable_record_leaves_no_trace] on a thread with a numeric id. *)
Lemma unusable_record_leaves_no_trace_witness :
  let P := Samples.sample_platform [] true in
  usable Examples.numeric_id_thread = false /\
  save_parsed_thread_data P false Examples.numeric_id_thread "out" Samples.empty_world
  = (Raise (VideoDownloadError (UnexpectedSave TypeError)), Samples.empty_world).
Proof.
  split; [reflexivity|].
  apply (unusable_record_leaves_no_trace (Samples.sample_platform [] true) false
           Examples.numeric_id_thread "out" Samples.empty_world).
  reflexivity.
Defined.

(** [engine_failures_never_abort] on a platform whose engine always
    raises. *)
Lemma engine_failures_never_abort_witness :
  let P := Samples.sample_platform [] false in
  reliable_storage P /\ thread_ok (Samples.sample_thread "202") = true /\
  exists saved w',
    save_parsed_thread_data P false (Samples.sample_thread "202") "out"
      Samples.empty_world = (Ok saved, w').
Proof.
  assert (reliable_storage (Samples.sample_platform [] false)) as Hs.
  { split; intros; reflexivity. }
  split; [exact Hs|]. split; [reflexivity|].
  apply (engine_failures_never_abort (Samples.sample_platform [] false) Hs false
           (Samples.sample_thread "202") "out" Samples.empty_world).
  reflexivity.
Defined.

End PersistenceFacts.

(** ** The file of the main post's videos *)

Module SharedFileFacts.
Import Py Downloader Hoare Steps PlacementFacts SharedFileSpec.

(** X22.  However many videos the main post has, they all go to one file:
    every download the loop starts has [videos/<thread_id>.mp4] as its
    output path, so a later video replaces an earlier one, and every path
    the loop reports is that same path. *)
Theorem thread_videos_share_one_file (P : platform) (lf : bool) (thread_id path : string)
    (videos : list json) (w : world) :
  let out := Path.join path [thread_id +:+ ".mp4"] in
  let '(r, w') := download_thread_videos P lf (JStr thread_id) path videos [] w in
  emits (writes_only out) w w' /\
  forall saved, r = Ok saved -> Forall (eq out) saved.
Proof.
  intros out.
  assert (forall url vid, JStr thread_id = JStr vid -> vid <> "" ->
            writes_only out (Download url (Path.join path [vid +:+ ".mp4"])) /\
            out = Path.join path [vid +:+ ".mp4"]) as Hout.
  { by intros url vid [= <-] _. }
  destruct (steps_thread_videos (writes_only out) (fun _ _ => I) (fun _ => I) P
              (eq out) lf (JStr thread_id) path videos [] Hout (Forall_nil_2 _) w)
    as [H1 H2].
  destruct (download_thread_videos P lf (JStr thread_id) path videos [] w) as [r w'].
  split; [exact H1|]. intros saved ->. by apply H2.
Qed.

End SharedFileFacts.

(** ** Failures of the backend *)

Module BackendFacts.
Import Py Scraper ScraperSpec BackendSpec.

(** X23.  A failure of the backend is reported as [ScrapingError] by the
    stage that failed: when the actor run raises, [fetch_tweet] raises
    "failed to execute" and the dataset is never read; when the run succeeds
    but its dataset cannot be read (no [defaultDatasetId], or the read
    raises), it raises "failed to retrieve". *)
Theorem backend_failure_names_stage (cfg : config) (B : backend) (url : string)
    (w : world) :
  url <> "" -> re_search url <> None ->
  let actor := TWITTER_SCRAPER_ACTOR_ID cfg in
  let input := TweetInput (formatted url) in
  (forall e, actor_call B actor input = Raise e ->
     exists w', fetch_tweet cfg B url w = (Raise (ScrapingError (ActorFailed url)), w') /\
                calls w' = calls w ++ [ActorCall actor input]) /\
  (forall run e, actor_call B actor input = Ok run -> dataset_of B run = Raise e ->
     exists w', fetch_tweet cfg B url w = (Raise (ScrapingError (DatasetFailed url)), w') /\
                calls w' = calls w ++ ActorCall actor input :: dataset_calls run).
Proof.
  intros Hne Hre actor input.
  unfold fetch_tweet, Scraper.reraise_or_wrap, try_except, _extract_tweet_id.
  destruct (String.eqb_spec url ""); [done|].
  destruct (re_search url) as [tid|] eqn:Er; [|done].
  unfold mbind, M_bind, logger, mret, M_ret. cbn [fs log calls].
  rewrite ScraperFacts.format_url_ok by done.
  unfold call_actor, fetch_items, record, raise, mbind, M_bind, mret, M_ret.
  cbn [fs log calls]. fold actor input. split.
  - intros e ->. eexists. split; [reflexivity|]. done.
  - intros run e -> Hds. unfold dataset_of, dataset_calls in *.
    destruct (getitem run "defaultDatasetId") as [ds|]; cbn [mbind result_bind] in Hds.
    + cbn [fs log calls]. rewrite Hds. eexists. split; [reflexivity|].
      cbn. by rewrite <- app_assoc.
    + eexists. split; [reflexivity|]. done.
Qed.

(** [backend_failure_names_stage] on a backend whose actor runs raise. *)
Lemma backend_failure_names_stage_witness :
  let B := Backend (fun _ _ => Raise (Builtin OSError)) (fun _ => Ok (JList [])) in
  let url := Examples.status_url in
  url <> "" /\ re_search url <> None /\
  exists w', fetch_tweet Samples.sample_config B url Samples.empty_world
             = (Raise (ScrapingError (ActorFailed url)), w') /\
             calls w' = [ActorCall "tweet-actor" (TweetInput url)].
Proof.
  split; [discriminate|]. split; [discriminate|].
  destruct (backend_failure_names_stage Samples.sample_config
              (Backend (fun _ _ => Raise (Builtin OSError)) (fun _ => Ok (JList [])))
              Examples.status_url Samples.empty_world) as [H _];
    [discriminate|discriminate|].
  apply (H (Builtin OSError)). reflexivity.
Defined.

End BackendFacts.
